(** * web_dashboard.py: the market-data aggregation and cache engine

    A shallow embedding of the fetch functions of [src/web_dashboard.py]
    ([fetch_ls_ratio_batch], [fetch_binance_tickers], [api_binance_tickers],
    [fetch_fear_and_greed], [api_grid_backtest]) and the properties the
    specification states about them.

    Conventions of the embedding:
    - a Python [float] is an IEEE 754 binary64 value, here [spec_float] with
      the operations of [SpecFloat] at precision 53 and [emax = 1024];
    - a decoded JSON payload is a value of [json]; a Python [dict] that is
      searched by key is an association list or a [gmap];
    - a Python exception is the [Raise] alternative of [result];
    - the module-level [_cache] dictionary is threaded through every fetch
      function as an explicit [cache] record, one field per literal key;
    - an awaited HTTP call is an input of the model: the outcome of the call
      is an [http_result] handed to the function, and so is each reading of
      [time.time()]. *)

From Stdlib Require Import ZArith List String Ascii Bool Lia.
From Stdlib Require Import Floats.SpecFloat.
From Stdlib Require Import Sorting.Sorted.
From stdpp Require Import base option gmap strings.

Import ListNotations.
#[local] Set Warnings "-register-all".
Open Scope string_scope.
Open Scope list_scope.
Open Scope Z_scope.

(** ** Python floats *)

Module Float.

Definition float : Type := spec_float.

Definition prec : Z := 53.
Definition emax : Z := 1024.

Definition add : float -> float -> float := SFadd prec emax.
Definition sub : float -> float -> float := SFsub prec emax.
Definition mul : float -> float -> float := SFmul prec emax.
Definition div : float -> float -> float := SFdiv prec emax.

(** [x < y], [x <= y], [x == y]: false as soon as one side is NaN. *)
Definition ltb : float -> float -> bool := SFltb.
Definition leb : float -> float -> bool := SFleb.
Definition eqb : float -> float -> bool := SFeqb.
(** [x > y] is evaluated by Python as the reflected [y < x]. *)
Definition gtb (x y : float) : bool := ltb y x.

(** [math.isnan], [math.isinf]. *)
Definition is_nan (x : float) : bool :=
  match x with S754_nan => true | _ => false end.
Definition is_inf (x : float) : bool :=
  match x with S754_infinity _ => true | _ => false end.
Definition is_finite (x : float) : bool := negb (is_nan x || is_inf x).

(** The integer [z] as the pair mantissa/exponent 0, without rounding. *)
Definition exact (z : Z) : float :=
  match z with
  | Z0 => S754_zero false
  | Zpos p => S754_finite false p 0
  | Zneg p => S754_finite true p 0
  end.

(** The double nearest to [z] (ties to even); infinite when out of range. *)
Definition of_Z (z : Z) : float := binary_normalize prec emax z 0 false.

(** [int(x)] on a float: truncation toward zero; [None] on NaN and on the
    infinities. *)
Definition trunc (x : float) : option Z :=
  match x with
  | S754_zero _ => Some 0
  | S754_finite s m e =>
      let a := match e with
               | Zneg k => Z.shiftr (Zpos m) (Zpos k)
               | _ => Z.shiftl (Zpos m) e
               end in
      Some (if s then - a else a)
  | _ => None
  end.

Definition zero : float := S754_zero false.

End Float.

Abbreviation float := Float.float.

(** ** Exceptions *)

Inductive exn : Type :=
| TypeError | ValueError | AttributeError | KeyError | IndexError
| OverflowError | ZeroDivisionError
| TransportError      (* httpx: connection, timeout, ... *)
| JSONDecodeError.    (* resp.json() on a body that is not JSON *)

Inductive result (A : Type) : Type :=
| Ok (a : A)
| Raise (e : exn).
Arguments Ok {A} a.
Arguments Raise {A} e.

Definition bind {A B : Type} (m : result A) (k : A -> result B) : result B :=
  match m with
  | Ok a => k a
  | Raise e => Raise e
  end.

Notation "'let*' x ':=' m 'in' k" := (bind m (fun x => k))
  (at level 10, x pattern, m at level 200, k at level 200).

Definition is_ok {A : Type} (m : result A) : bool :=
  match m with Ok _ => true | Raise _ => false end.

(** [mapM]: a comprehension or loop whose body may raise; the first exception
    in iteration order wins. *)
Fixpoint mapM {A B : Type} (f : A -> result B) (l : list A) : result (list B) :=
  match l with
  | [] => Ok []
  | x :: l' =>
      let* y := f x in
      let* ys := mapM f l' in
      Ok (y :: ys)
  end.

(** ** Decoded JSON payloads *)

Inductive json : Type :=
| JNull
| JBool (b : bool)
| JInt (z : Z)
| JFloat (f : float)
| JStr (s : string)
| JList (l : list json)
| JObj (kv : list (string * json)).

(** A Python number that is either an [int] or a [float]: the source mixes
    the two (integer defaults such as [0] next to parsed floats). *)
Inductive pynum : Type :=
| PInt (z : Z)
| PFloat (f : float).

(** Key lookup in a decoded object; the first binding of a key is the one
    the dictionary holds. *)
Fixpoint assoc (k : string) (kv : list (string * json)) : option json :=
  match kv with
  | [] => None
  | (k', v) :: kv' => if String.eqb k k' then Some v else assoc k kv'
  end.

(** ** Strings

    A Python [str] is its UTF-8 encoding, a [string] of bytes: suffix,
    substring and replacement agree on the two. *)

(** [s.endswith(suffix)]. *)
Fixpoint endswith (suffix s : string) : bool :=
  String.eqb s suffix ||
  match s with
  | EmptyString => false
  | String _ s' => endswith suffix s'
  end.

(** [s.replace(old, new)] for a non-empty [old]: left to right, occurrences
    do not overlap.  [skip] counts the characters of a matched occurrence
    that are still to be passed over. *)
Fixpoint replace_from (old new : string) (skip : nat) (s : string) : string :=
  match s with
  | EmptyString => EmptyString
  | String c s' =>
      match skip with
      | S k => replace_from old new k s'
      | O =>
          if String.prefix old s
          then String.append new (replace_from old new (Nat.pred (String.length old)) s')
          else String c (replace_from old new O s')
      end
  end.

Definition replace (old new s : string) : string := replace_from old new O s.

(** [needle in s] for two strings. *)
Fixpoint contains (needle s : string) : bool :=
  String.prefix needle s ||
  match s with
  | EmptyString => false
  | String _ s' => contains needle s'
  end.

(** A byte that continues a UTF-8 sequence, [10xxxxxx]. *)
Definition is_continuation (c : ascii) : bool :=
  let n := nat_of_ascii c in (128 <=? n)%nat && (n <? 192)%nat.

(** The characters of a string, each as a one-character string: a leading
    byte with the continuation bytes that follow it. *)
Fixpoint chars (s : string) : list string :=
  match s with
  | EmptyString => []
  | String c s' =>
      match s' with
      | EmptyString => [String c EmptyString]
      | String c' _ =>
          if is_continuation c' then
            match chars s' with
            | g :: rest => String c g :: rest
            | [] => [String c EmptyString]
            end
          else String c EmptyString :: chars s'
      end
  end.

(** ** The builtins [float()] and [int()] on strings, and [sum()]

    The grammar of the two parsers (signs, exponents, [inf], [nan], white
    space, underscores) belongs to the language, not to the program: the
    model takes them as an interface, [None] standing for [ValueError].  So
    does the way [sum()] accumulates floats from its start 0: CPython adds
    them one by one from left to right up to version 3.11 and keeps a
    compensation term (Neumaier) from 3.12 on; [sum_floats] is the float it
    returns for a list of floats that is not empty. *)

Class PyBuiltins : Type := {
  str_to_float : string -> option float;
  str_to_int : string -> option Z;
  sum_floats : list float -> float
}.

(** A concrete instance, used to run the model on payloads as the exchange
    sends them: plain decimal literals, [-]digits[.digits], and the
    left-to-right additions of [sum()]. *)
Module Decimal.

Definition digit (c : ascii) : option Z :=
  let n := Z.of_nat (nat_of_ascii c) in
  if (48 <=? n) && (n <=? 57) then Some (n - 48) else None.

(** Digits read so far as [acc]; [frac] counts the digits after the dot,
    [None] before the dot is met. *)
Fixpoint scan (s : string) (acc : Z) (frac : option nat) (seen : bool)
  : option (Z * nat) :=
  match s with
  | EmptyString =>
      if seen then Some (acc, match frac with Some k => k | None => O end)
      else None
  | String c s' =>
      if Ascii.eqb c "."%char then
        match frac with
        | None => scan s' acc (Some O) seen
        | Some _ => None
        end
      else
        match digit c with
        | Some d =>
            scan s' (10 * acc + d)
                 (match frac with Some k => Some (S k) | None => None end)
                 true
        | None => None
        end
  end.

Definition unsigned (s : string) : option float :=
  match scan s 0 None false with
  | Some (m, k) => Some (Float.div (Float.exact m) (Float.exact (10 ^ Z.of_nat k)))
  | None => None
  end.

Definition parse_float (s : string) : option float :=
  match s with
  | String "-"%char s' => option_map SFopp (unsigned s')
  | _ => unsigned s
  end.

Definition unsigned_int (s : string) : option Z :=
  match scan s 0 None false with
  | Some (m, O) => if contains "." s then None else Some m
  | _ => None
  end.

Definition parse_int (s : string) : option Z :=
  match s with
  | String "-"%char s' => option_map Z.opp (unsigned_int s')
  | _ => unsigned_int s
  end.

(** [0 + f1 + f2 + ...], each addition rounded. *)
Definition add_up (fs : list float) : float :=
  fold_left Float.add fs Float.zero.

Definition builtins : PyBuiltins :=
  {| str_to_float := parse_float; str_to_int := parse_int; sum_floats := add_up |}.

End Decimal.

(** ** HTTP calls

    [await client.get(...)] either raises or yields a response; [resp.json()]
    raises when the body does not decode. *)

Record response : Type := {
  status_code : Z;
  body : option json
}.

Definition http_result : Type := result response.

Definition resp_json (r : response) : result json :=
  match body r with
  | Some j => Ok j
  | None => Raise JSONDecodeError
  end.

(** ** The records the fetch functions build *)

(** One entry of the long/short map: [{"ratio": .., "long": .., "short": ..}]. *)
Module LS.
Record t : Type := {
  ratio : pynum;
  long : pynum;
  short : pynum
}.
(** The default the join substitutes: [{"ratio": 0, "long": 0, "short": 0}]. *)
Definition absent : t := {| ratio := PInt 0; long := PInt 0; short := PInt 0 |}.
End LS.

(** One row of [map_result]. *)
Module Row.
Record t : Type := {
  rank : Z;
  symbol : string;
  price : float;
  change24h : float;
  high24h : float;
  low24h : float;
  volume24h : float;
  trades : Z;
  fundingRate : float;
  nextFundingTime : Z;
  fundingInterval : json;
  lsRatio : LS.t
}.
End Row.

(** The dictionary [fetch_binance_tickers] builds and caches, [final_data]. *)
Module Snapshot.
Record t : Type := {
  data : list Row.t;
  other : list Row.t;
  total_volume : pynum;
  volume_change : float;
  ts : float
}.
End Snapshot.

(** What [fetch_binance_tickers] returns: a snapshot, or the literal
    [{"data": [], "other": []}] of its handler, which has no other key. *)
Inductive data_dict : Type :=
| Snap (s : Snapshot.t)
| DefaultDict.

Module Fng.
Record t : Type := {
  value : Z;
  classification : json;
  change24h : float
}.
Definition neutral : t :=
  {| value := 50; classification := JStr "Neutral"; change24h := Float.zero |}.
End Fng.

(** One row of [api_grid_backtest]. *)
Module Backtest.
Record t : Type := {
  rank : Z;
  symbol : string;
  price : float;
  volatility : pynum;
  change24h : float;
  long_apr : float;
  short_apr : float
}.
End Backtest.

(** ** The cache

    [_cache] is a dictionary with literal keys; each key the modelled
    functions use is a field, [None] when the key is absent.  An entry of the
    long/short and fear/greed keys is [{"data": .., "ts": ..}], a pair here;
    the tickers key holds the snapshot itself, which carries its own [ts]. *)
Record cache : Type := {
  ls_ratio_batch : option (gmap string LS.t * float);
  binance_tickers_100 : option Snapshot.t;
  fear_and_greed : option (Fng.t * float)
}.

Definition empty_cache : cache :=
  {| ls_ratio_batch := None; binance_tickers_100 := None; fear_and_greed := None |}.

Definition set_ls_ratio_batch (c : cache) (e : gmap string LS.t * float) : cache :=
  {| ls_ratio_batch := Some e;
     binance_tickers_100 := binance_tickers_100 c;
     fear_and_greed := fear_and_greed c |}.

Definition set_binance_tickers_100 (c : cache) (e : Snapshot.t) : cache :=
  {| ls_ratio_batch := ls_ratio_batch c;
     binance_tickers_100 := Some e;
     fear_and_greed := fear_and_greed c |}.

Definition set_fear_and_greed (c : cache) (e : Fng.t * float) : cache :=
  {| ls_ratio_batch := ls_ratio_batch c;
     binance_tickers_100 := binance_tickers_100 c;
     fear_and_greed := Some e |}.

(** [now - entry["ts"] < ttl], the freshness test of every fetch function;
    [ttl] is an integer literal of the source. *)
Definition fresh (now ts : float) (ttl : Z) : bool :=
  Float.ltb (Float.sub now ts) (Float.of_Z ttl).

Definition _cache_ttl : Z := 10.

(** ** [list.sort] and [sorted]

    The contract of the builtin: a stable sort that compares keys with [<]
    only.  With [reverse=True] the list is reversed, sorted and reversed
    again, which keeps equal keys in their original order.  A stable sort has
    one possible outcome as soon as [<] is a strict weak order on the keys
    present; insertion sort is that outcome.  On keys that [<] does not order
    (a NaN among floats) the builtin promises nothing, and nothing is claimed
    of this model there. *)

Section Sort.

Context {K A : Type} (lt : K -> K -> bool).

Fixpoint insert_sorted (x : K * A) (l : list (K * A)) : list (K * A) :=
  match l with
  | [] => [x]
  | y :: l' =>
      if lt (fst x) (fst y) then x :: y :: l'
      else y :: insert_sorted x l'
  end.

(** Elements are inserted from the left of the list, each one after the
    keys that are not greater: equal keys stay in list order. *)
Definition stable_sort (l : list (K * A)) : list (K * A) :=
  fold_left (fun acc x => insert_sorted x acc) l [].

Definition py_sort (reverse : bool) (l : list (K * A)) : list (K * A) :=
  if reverse then rev (stable_sort (rev l)) else stable_sort l.

(** Sortedness, on keys: an element placed later is not below an element
    placed earlier. *)
Definition not_below (a b : K * A) : Prop := lt (fst b) (fst a) = false.

End Sort.

(** ** The embedded functions *)

Section Model.

Context `{PyBuiltins}.

(** *** Builtins on decoded values *)

(** [float(v)]. *)
Definition py_float (v : json) : result float :=
  match v with
  | JFloat f => Ok f
  | JInt z =>
      let f := Float.of_Z z in
      if Float.is_inf f then Raise OverflowError else Ok f
  | JBool b => Ok (Float.of_Z (if b then 1 else 0))
  | JStr s =>
      match str_to_float s with
      | Some f => Ok f
      | None => Raise ValueError
      end
  | JNull | JList _ | JObj _ => Raise TypeError
  end.

(** [int(v)]. *)
Definition py_int (v : json) : result Z :=
  match v with
  | JInt z => Ok z
  | JBool b => Ok (if b then 1 else 0)
  | JFloat f =>
      match Float.trunc f with
      | Some z => Ok z
      | None => if Float.is_nan f then Raise ValueError else Raise OverflowError
      end
  | JStr s =>
      match str_to_int s with
      | Some z => Ok z
      | None => Raise ValueError
      end
  | JNull | JList _ | JObj _ => Raise TypeError
  end.

(** [v.get(k, d)]: only a dictionary has the method. *)
Definition get (v : json) (k : string) (d : json) : result json :=
  match v with
  | JObj kv => Ok (default d (assoc k kv))
  | _ => Raise AttributeError
  end.

(** [v[k]] for a string [k]. *)
Definition item (v : json) (k : string) : result json :=
  match v with
  | JObj kv =>
      match assoc k kv with
      | Some x => Ok x
      | None => Raise KeyError
      end
  | _ => Raise TypeError
  end.

(** [v[0]] and [v[1]]: a list or a string is indexed, a decoded object has
    string keys only. *)
Definition index (v : json) (i : nat) : result json :=
  match v with
  | JList l =>
      match nth_error l i with
      | Some x => Ok x
      | None => Raise IndexError
      end
  | JStr s =>
      match nth_error (chars s) i with
      | Some c => Ok (JStr c)
      | None => Raise IndexError
      end
  | JObj _ => Raise KeyError
  | _ => Raise TypeError
  end.

(** [k in v] for a string [k]. *)
Definition py_in (k : string) (v : json) : result bool :=
  match v with
  | JObj kv => Ok (bool_decide (is_Some (assoc k kv)))
  | JStr s => Ok (contains k s)
  | JList l =>
      Ok (existsb (fun x => match x with JStr s => String.eqb s k | _ => false end) l)
  | _ => Raise TypeError
  end.

(** [len(v)]. *)
Definition len (v : json) : result Z :=
  match v with
  | JList l => Ok (Z.of_nat (List.length l))
  | JStr s => Ok (Z.of_nat (List.length (chars s)))
  | JObj kv => Ok (Z.of_nat (List.length (nodup string_dec (List.map fst kv))))
  | _ => Raise TypeError
  end.

(** [for x in v]: the elements of a list, the keys of a dictionary, the
    characters of a string. *)
Definition iter (v : json) : result (list json) :=
  match v with
  | JList l => Ok l
  | JObj kv => Ok (List.map JStr (nodup string_dec (List.map fst kv)))
  | JStr s => Ok (List.map JStr (chars s))
  | _ => Raise TypeError
  end.

(** [v > 0] for a decoded value against the integer literal. *)
Definition gt_zero (v : json) : result bool :=
  match v with
  | JInt z => Ok (0 <? z)
  | JFloat f => Ok (Float.gtb f Float.zero)
  | JBool b => Ok b
  | _ => Raise TypeError
  end.

(** [a / b] on two integers: the quotient rounded once to the nearest
    double. *)
Definition int_truediv (a b : Z) : result float :=
  if b =? 0 then Raise ZeroDivisionError
  else
    let q := Float.div (Float.exact a) (Float.exact b) in
    if Float.is_inf q then Raise OverflowError else Ok q.

(** [float(t.get(k, 0))]. *)
Definition float_field (t : json) (k : string) : result float :=
  let* v := get t k (JInt 0) in py_float v.

(** *** [fetch_ls_ratio_batch] *)

(** The body of the [try] of [fetch_single], up to the store into [result]:
    [Ok None] when one of the two [if]s is not taken. *)
Definition fetch_single_entry (r : http_result) : result (option LS.t) :=
  let* resp := r in
  if status_code resp =? 200 then
    let* data := resp_json resp in
    match data with
    | JList (d0 :: _) =>
        let* ratio := float_field d0 "longShortRatio" in
        let ratio :=
          if Float.is_inf ratio || Float.is_nan ratio
          then Float.of_Z 9999 else ratio in
        let* long_acc := float_field d0 "longAccount" in
        let* short_acc := float_field d0 "shortAccount" in
        Ok (Some {| LS.ratio := PFloat ratio;
                    LS.long := PFloat (Float.mul long_acc (Float.of_Z 100));
                    LS.short := PFloat (Float.mul short_acc (Float.of_Z 100)) |})
    | _ => Ok None
    end
  else Ok None.

(** [fetch_single]: the bare [except: pass] leaves [result] as it is. *)
Definition fetch_single (result : gmap string LS.t) (symbol : string)
    (r : http_result) : gmap string LS.t :=
  match fetch_single_entry r with
  | Ok (Some e) => <[symbol := e]> result
  | Ok None | Raise _ => result
  end.

(** [asyncio.gather] over the tasks: the [i]-th task asks for [symbols[i]]
    and is answered by [upstream i symbol].  The tasks write [result] in list
    order; writes for distinct symbols commute, so the order of completion
    shows only when one symbol is asked twice with different answers. *)
Fixpoint gather_single (upstream : nat -> string -> http_result) (i : nat)
    (symbols : list string) (result : gmap string LS.t) : gmap string LS.t :=
  match symbols with
  | [] => result
  | sym :: rest =>
      gather_single upstream (S i) rest (fetch_single result sym (upstream i sym))
  end.

(** [fetch_ls_ratio_batch(symbols)] at time [now]: the returned map and the
    cache after the call.  Every exception of a task is swallowed inside
    [fetch_single], so the outer handler is not reached from the tasks. *)
Definition fetch_ls_ratio_batch (now : float) (c : cache)
    (upstream : nat -> string -> http_result) (symbols : list string)
  : gmap string LS.t * cache :=
  match ls_ratio_batch c with
  | Some (data, ts) =>
      if fresh now ts 300 then (data, c)
      else
        let result := gather_single upstream O symbols ∅ in
        (result,
         if bool_decide (result = ∅) then c else set_ls_ratio_batch c (result, now))
  | None =>
      let result := gather_single upstream O symbols ∅ in
      (result,
       if bool_decide (result = ∅) then c else set_ls_ratio_batch c (result, now))
  end.

(** [l.sort(key=.., reverse=..)]: the keys are computed first, one per
    element and in list order, then the decorated list is sorted. *)
Definition sort_by {K : Type} (lt : K -> K -> bool) (key : json -> result K)
    (reverse : bool) (l : list json) : result (list json) :=
  let* ks := mapM key l in
  Ok (List.map snd (py_sort lt reverse (combine ks l))).

(** *** [fetch_fear_and_greed] *)

(** [a / b * 100] of the handler, on integers. *)
Definition fng_change (val_today val_yesterday : Z) : result float :=
  if 0 <? val_yesterday then
    let* q := int_truediv (val_today - val_yesterday) val_yesterday in
    Ok (Float.mul q (Float.of_Z 100))
  else Ok Float.zero.

(** From [data = resp.json()] to [result]. *)
Definition fear_and_greed_result (data : json) : result Fng.t :=
  let* has := py_in "data" data in
  if has then
    let* d := item data "data" in
    let* n := len d in
    if 2 <=? n then
      let* d0 := index d 0 in
      let* v0 := item d0 "value" in
      let* val_today := py_int v0 in
      let* d1 := index d 1 in
      let* v1 := item d1 "value" in
      let* val_yesterday := py_int v1 in
      let* change := fng_change val_today val_yesterday in
      let* cls := item d0 "value_classification" in
      Ok {| Fng.value := val_today; Fng.classification := cls;
            Fng.change24h := change |}
    else if n =? 1 then
      let* d0 := index d 0 in
      let* v0 := item d0 "value" in
      let* val := py_int v0 in
      let* cls := item d0 "value_classification" in
      Ok {| Fng.value := val; Fng.classification := cls;
            Fng.change24h := Float.zero |}
    else Ok Fng.neutral
  else Ok Fng.neutral.

Definition fetch_fear_and_greed (now : float) (c : cache) (r : http_result)
  : Fng.t * cache :=
  let refresh :=
    match (let* resp := r in
           let* data := resp_json resp in
           fear_and_greed_result data) with
    | Ok result => (result, set_fear_and_greed c (result, now))
    | Raise _ =>
        (match fear_and_greed c with
         | Some (data, _) => data
         | None => Fng.neutral
         end, c)
    end in
  match fear_and_greed c with
  | Some (data, ts) => if fresh now ts 3600 then (data, c) else refresh
  | None => refresh
  end.

(** *** [api_grid_backtest] *)

Definition target_coins : list string :=
  ["BTC"; "ETH"; "XRP"; "SOL"; "BNB"; "DOGE"; "ADA"; "TON"; "TRX"; "AVAX";
   "SHIB"; "LINK"; "DOT"; "SUI"; "BCH"; "UNI"; "PEPE"; "LTC"; "NEAR"; "AAVE";
   "APT"].

(** A value on which a [str] method is called. *)
Definition as_str (v : json) : result string :=
  match v with
  | JStr s => Ok s
  | _ => Raise AttributeError
  end.

Definition in_list (s : string) (l : list string) : bool :=
  existsb (String.eqb s) l.

(** [l.index(s)]. *)
Fixpoint index_of (s : string) (l : list string) : result nat :=
  match l with
  | [] => Raise ValueError
  | x :: l' =>
      if String.eqb x s then Ok O
      else let* i := index_of s l' in Ok (S i)
  end.

(** The first loop: [(base_coin, t)] for the tickers of the listed coins. *)
Definition filtered_entry (t : json) : result (option (string * json)) :=
  let* v := get t "symbol" (JStr "") in
  let* sym := as_str v in
  if endswith "USDT" sym then
    let base_coin := replace "1000" "" (replace "USDT" "" sym) in
    if in_list base_coin target_coins then Ok (Some (base_coin, t))
    else Ok None
  else Ok None.

(** The second loop: [unique_coins], in insertion order. *)
Fixpoint unique_update (base_coin : string) (t : json)
    (unique_coins : list (string * json)) : result (list (string * json)) :=
  match unique_coins with
  | [] => Ok [(base_coin, t)]
  | (b, t0) :: rest =>
      if String.eqb b base_coin then
        let* v := float_field t "quoteVolume" in
        let* v0 := float_field t0 "quoteVolume" in
        Ok (if Float.gtb v v0 then (b, t) :: rest else unique_coins)
      else
        let* rest' := unique_update base_coin t rest in
        Ok ((b, t0) :: rest')
  end.

Fixpoint unique_loop (filtered_data : list (string * json))
    (unique_coins : list (string * json)) : result (list (string * json)) :=
  match filtered_data with
  | [] => Ok unique_coins
  | (base_coin, t) :: rest =>
      let* u := unique_update base_coin t unique_coins in
      unique_loop rest u
  end.

Definition num_float (n : pynum) : float :=
  match n with
  | PInt z => Float.of_Z z
  | PFloat f => f
  end.

(** [n * k] for an integer literal [k]. *)
Definition num_mul (n : pynum) (k : Z) : pynum :=
  match n with
  | PInt z => PInt (z * k)
  | PFloat f => PFloat (Float.mul f (Float.of_Z k))
  end.

(** [min(a, b)] and [max(a, b)] keep the first argument unless the second
    compares strictly below, respectively above. *)
Definition py_min (a b : float) : float := if Float.ltb b a then b else a.
Definition py_max (a b : float) : float := if Float.gtb b a then b else a.

Definition f_neg80 : float := SFopp (Float.of_Z 80).
Definition f_450 : float := Float.of_Z 450.

(** The body of the third loop for the entry at position [i]. *)
Definition backtest_row (i : nat) (t : json) : result Backtest.t :=
  let* price := float_field t "lastPrice" in
  let* high := float_field t "highPrice" in
  let* low := float_field t "lowPrice" in
  let* change := float_field t "priceChangePercent" in
  let volatility :=
    if Float.gtb low Float.zero
    then PFloat (Float.mul (Float.div (Float.sub high low) low) (Float.of_Z 100))
    else PInt 0 in
  let base_apr := num_mul volatility 12 in
  let long_apr := Float.add (num_float base_apr) (Float.mul change (Float.of_Z 15)) in
  let short_apr := Float.sub (num_float base_apr) (Float.mul change (Float.of_Z 15)) in
  let long_apr := py_max f_neg80 (py_min long_apr f_450) in
  let short_apr := py_max f_neg80 (py_min short_apr f_450) in
  let* v := item t "symbol" in
  let* sym := as_str v in
  Ok {| Backtest.rank := Z.of_nat i + 1;
        Backtest.symbol := replace "USDT" "/USDT" sym;
        Backtest.price := price;
        Backtest.volatility := volatility;
        Backtest.change24h := change;
        Backtest.long_apr := long_apr;
        Backtest.short_apr := short_apr |}.

(** [for i, x in enumerate(l)] with a body that may raise. *)
Fixpoint mapM_enum {A B : Type} (f : nat -> A -> result B) (i : nat)
    (l : list A) : result (list B) :=
  match l with
  | [] => Ok []
  | x :: l' =>
      let* y := f i x in
      let* ys := mapM_enum f (S i) l' in
      Ok (y :: ys)
  end.

(** [sorted(unique_coins.items(), key=lambda x: target_coins.index(x[0]))]. *)
Definition sorted_coins (unique_coins : list (string * json))
  : result (list (string * json)) :=
  let* ks := mapM (fun x => index_of (fst x) target_coins) unique_coins in
  Ok (List.map snd (py_sort Nat.ltb false (combine ks unique_coins))).

(** The [try] block, from the response to [results]. *)
Definition backtest_results (r : http_result) : result (list Backtest.t) :=
  let* resp := r in
  let* data := resp_json resp in
  let* ts := iter data in
  let* filtered := mapM filtered_entry ts in
  let* unique_coins := unique_loop (omap id filtered) [] in
  let* sorted := sorted_coins unique_coins in
  mapM_enum (fun i x => backtest_row i (snd x)) O sorted.

(** [JSONResponse(content={"data": results})], still inside the [try]: the
    response renders its content when it is built, with [allow_nan=False],
    and a float that is NaN or infinite raises [ValueError]. *)
Definition num_finite (n : pynum) : bool :=
  match n with
  | PInt _ => true
  | PFloat f => Float.is_finite f
  end.

Definition renders (row : Backtest.t) : bool :=
  Float.is_finite (Backtest.price row) && num_finite (Backtest.volatility row)
  && Float.is_finite (Backtest.change24h row)
  && Float.is_finite (Backtest.long_apr row)
  && Float.is_finite (Backtest.short_apr row).

Definition json_response (results : list Backtest.t) : result (list Backtest.t) :=
  if forallb renders results then Ok results else Raise ValueError.

(** The content of the response, [{"data": results}] or [{"data": []}]. *)
Definition api_grid_backtest (r : http_result) : list Backtest.t :=
  match (let* results := backtest_results r in json_response results) with
  | Ok results => results
  | Raise _ => []
  end.

(** *** [fetch_binance_tickers] *)

(** The volume-change proxy from the two daily candles. *)
Definition vol_change_of (btc_klines : json) : result float :=
  match btc_klines with
  | JList (k0 :: k1 :: _) =>
      let* v := index k0 7 in
      let* y_vol := py_float v in
      let* v := index k1 7 in
      let* t_vol := py_float v in
      if Float.gtb y_vol Float.zero
      then Ok (Float.mul (Float.div (Float.sub t_vol y_vol) y_vol) (Float.of_Z 100))
      else Ok Float.zero
  | _ => Ok Float.zero
  end.

(** A value used as a dictionary key: a list or a dictionary is not
    hashable.  Only a string key can be found again by the string lookups
    of the join, so the model maps keep the string keys ([Some]) and drop
    the other hashable ones ([None]). *)
Definition hashable_key (v : json) : result (option string) :=
  match v with
  | JStr s => Ok (Some s)
  | JList _ | JObj _ => Raise TypeError
  | _ => Ok None
  end.

(** [{item["symbol"]: item for item in funding_data if "symbol" in item}]. *)
Fixpoint funding_map_of (items : list json) (m : gmap string json)
  : result (gmap string json) :=
  match items with
  | [] => Ok m
  | it :: rest =>
      let* has := py_in "symbol" it in
      if has then
        let* k := item it "symbol" in
        let* k := hashable_key k in
        funding_map_of rest (match k with Some s => <[s := it]> m | None => m end)
      else funding_map_of rest m
  end.

(** The comprehension of [interval_map], over the dictionaries of the list. *)
Fixpoint interval_map_of (items : list json) (m : gmap string json)
  : result (gmap string json) :=
  match items with
  | [] => Ok m
  | JObj kv :: rest =>
      let* k := hashable_key (default (JStr "") (assoc "symbol" kv)) in
      let v := default (JInt 8) (assoc "fundingIntervalHours" kv) in
      interval_map_of rest (match k with Some s => <[s := v]> m | None => m end)
  | _ :: rest => interval_map_of rest m
  end.

Definition interval_map_from (info_data : json) : result (gmap string json) :=
  match info_data with
  | JList l => interval_map_of l ∅
  | _ => Ok ∅
  end.

(** Where the filter loop puts a ticker. *)
Inductive bucket : Type := Dropped | Main | Other.

(** The body of the filter loop for one ticker [t]. *)
Definition classify (funding_map : gmap string json) (t : json) : result bucket :=
  let* v := get t "symbol" (JStr "") in
  let* sym := as_str v in
  if endswith "USDT" sym then
    let* vol := float_field t "quoteVolume" in
    if Float.gtb vol (Float.of_Z 1000000) then
      let f_info := default (JObj []) (funding_map !! sym) in
      let* nft := get f_info "nextFundingTime" (JInt 0) in
      let* live := gt_zero nft in
      if live then
        let* funding_rate := float_field f_info "lastFundingRate" in
        if Float.eqb funding_rate Float.zero then Ok Other else Ok Main
      else Ok Dropped
    else Ok Dropped
  else Ok Dropped.

Definition is_main (b : bucket) : bool :=
  match b with Main => true | _ => false end.
Definition is_other (b : bucket) : bool :=
  match b with Other => true | _ => false end.

(** The tickers of one bucket, in upstream order. *)
Definition select (want : bucket -> bool) (tagged : list (bucket * json)) : list json :=
  List.map snd (List.filter (fun x => want (fst x)) tagged).

(** [key=lambda x: float(x.get("priceChangePercent", 0))]. *)
Definition change_key (x : json) : result float := float_field x "priceChangePercent".

(** [t.get("symbol")] of [fetch_symbols]; the tickers kept by the filter
    have a string there. *)
Definition symbol_of (t : json) : result string :=
  let* v := get t "symbol" JNull in as_str v.

(** One row of [map_result], for the ticker [t] at position [i]. *)
Definition map_row (funding_map interval_map : gmap string json)
    (ls_ratios : gmap string LS.t) (i : nat) (t : json) : result Row.t :=
  let* v := get t "symbol" (JStr "") in
  let* sym := as_str v in
  let f_info := default (JObj []) (funding_map !! sym) in
  let interval := default (JInt 8) (interval_map !! sym) in
  let ls := default LS.absent (ls_ratios !! sym) in
  let* price := float_field t "lastPrice" in
  let* change := float_field t "priceChangePercent" in
  let* high := float_field t "highPrice" in
  let* low := float_field t "lowPrice" in
  let* volume := float_field t "quoteVolume" in
  let* v := get t "count" (JInt 0) in
  let* trades := py_int v in
  let* rate := float_field f_info "lastFundingRate" in
  let* v := get f_info "nextFundingTime" (JInt 0) in
  let* nft := py_int v in
  Ok {| Row.rank := Z.of_nat i + 1;
        Row.symbol := replace "USDT" "/USDT" sym;
        Row.price := price;
        Row.change24h := change;
        Row.high24h := high;
        Row.low24h := low;
        Row.volume24h := volume;
        Row.trades := trades;
        Row.fundingRate := rate;
        Row.nextFundingTime := nft;
        Row.fundingInterval := interval;
        Row.lsRatio := ls |}.

Definition map_result (funding_map interval_map : gmap string json)
    (ls_ratios : gmap string LS.t) (items : list json) : result (list Row.t) :=
  mapM_enum (map_row funding_map interval_map ls_ratios) O items.

(** [sum(..)] over floats, from the integer [0]: the start itself when
    there is nothing to add, the interpreter's float sum otherwise. *)
Definition py_sum (fs : list float) : pynum :=
  match fs with
  | [] => PInt 0
  | _ :: _ => PFloat (sum_floats fs)
  end.

(** What one cycle meets outside the program: the outcomes of its four
    calls, and, for the nested call of [fetch_ls_ratio_batch], the clock as
    that call reads it and the answers to its tasks. *)
Record upstream : Type := {
  resp_ticker : http_result;
  resp_funding : http_result;
  resp_info : http_result;
  resp_klines : http_result;
  ls_now : float;
  ls_upstream : nat -> string -> http_result
}.

(** What the cycle has computed when it asks for the long/short ratios. *)
Record joined : Type := {
  vol_change : float;
  funding_map : gmap string json;
  interval_map : gmap string json;
  top100 : list json;
  other_top100 : list json
}.

(** The [try] block up to the call of [fetch_ls_ratio_batch].  The awaited
    [gather] raises as soon as one of the four calls raises. *)
Definition join_cycle (u : upstream) : result joined :=
  let* r_ticker := resp_ticker u in
  let* r_funding := resp_funding u in
  let* r_info := resp_info u in
  let* r_klines := resp_klines u in
  let* data := resp_json r_ticker in
  let* funding_data := resp_json r_funding in
  let* info_data := resp_json r_info in
  let* btc_klines := resp_json r_klines in
  let* vol_change := vol_change_of btc_klines in
  let* items := iter funding_data in
  let* funding_map := funding_map_of items ∅ in
  let* interval_map := interval_map_from info_data in
  let* ts := iter data in
  let* buckets := mapM (classify funding_map) ts in
  let tagged := combine buckets ts in
  let* usdt_pairs := sort_by Float.ltb change_key true (select is_main tagged) in
  let* other_pairs := sort_by Float.ltb change_key true (select is_other tagged) in
  Ok {| vol_change := vol_change;
        funding_map := funding_map;
        interval_map := interval_map;
        top100 := usdt_pairs;
        other_top100 := other_pairs |}.

(** The [try] block after the call of [fetch_ls_ratio_batch]. *)
Definition finish_cycle (now : float) (j : joined) (ls_ratios : gmap string LS.t)
  : result Snapshot.t :=
  let* result_main := map_result (funding_map j) (interval_map j) ls_ratios (top100 j) in
  let* result_other :=
    map_result (funding_map j) (interval_map j) ls_ratios (other_top100 j) in
  let* vols := mapM (fun t => float_field t "quoteVolume") (top100 j ++ other_top100 j)%list in
  Ok {| Snapshot.data := result_main;
        Snapshot.other := result_other;
        Snapshot.total_volume := py_sum vols;
        Snapshot.volume_change := vol_change j;
        Snapshot.ts := now |}.

(** [_cache.get(cache_key, {"data": [], "other": []})]. *)
Definition cached_or_default (c : cache) : data_dict :=
  match binance_tickers_100 c with
  | Some s => Snap s
  | None => DefaultDict
  end.

(** The whole [try] block, with the cache as it stands when the block ends
    or raises. *)
Definition refresh_cycle (now : float) (c : cache) (u : upstream)
  : result Snapshot.t * cache :=
  match join_cycle u with
  | Raise e => (Raise e, c)
  | Ok j =>
      match mapM symbol_of (top100 j ++ other_top100 j)%list with
      | Raise e => (Raise e, c)
      | Ok fetch_symbols =>
          let '(ls_ratios, c1) :=
            fetch_ls_ratio_batch (ls_now u) c (ls_upstream u) fetch_symbols in
          match finish_cycle now j ls_ratios with
          | Raise e => (Raise e, c1)
          | Ok final_data => (Ok final_data, set_binance_tickers_100 c1 final_data)
          end
      end
  end.

Definition fetch_binance_tickers (now : float) (c : cache) (u : upstream)
  : data_dict * cache :=
  let miss :=
    match refresh_cycle now c u with
    | (Ok final_data, c') => (Snap final_data, c')
    | (Raise _, c') => (cached_or_default c', c')
    end in
  match binance_tickers_100 c with
  | Some s => if fresh now (Snapshot.ts s) _cache_ttl then (Snap s, c) else miss
  | None => miss
  end.

(** The content handed to [JSONResponse] by [api_binance_tickers], without
    its wall-clock [ts]; rendering the content is the framework's. *)
Record tickers_content : Type := {
  exchange : string;
  content_data : list Row.t;
  content_other : list Row.t;
  content_total_volume : pynum;
  content_volume_change : float
}.

Definition api_binance_tickers (now : float) (c : cache) (u : upstream)
  : tickers_content * cache :=
  let '(data_dict, c') := fetch_binance_tickers now c u in
  ({| exchange := "Binance";
      content_data := match data_dict with Snap s => Snapshot.data s | DefaultDict => [] end;
      content_other := match data_dict with Snap s => Snapshot.other s | DefaultDict => [] end;
      content_total_volume :=
        match data_dict with Snap s => Snapshot.total_volume s | DefaultDict => PInt 0 end;
      content_volume_change :=
        match data_dict with Snap s => Snapshot.volume_change s | DefaultDict => Float.zero end |},
   c').

End Model.

(** ** The other handlers of the cache

    [fetch_binance_funding_rates], [fetch_btc_eth_prices] and the row lookup
    of [api_ai_analysis]. *)

(** One row of [fetch_binance_funding_rates]. *)
Module Funding.
Record t : Type := {
  rank : Z;
  symbol : string;
  markPrice : float;
  indexPrice : float;
  fundingRate : float;
  nextFundingTime : Z
}.
End Funding.

(** The dictionary of [fetch_btc_eth_prices]: [{"price": .., "change": ..}]
    under each of the two keys, or the empty dictionary of the handler's
    default ([None]). *)
Module Prices.
Record quote : Type := {
  price : float;
  change : float
}.
Record t : Type := {
  btc : option quote;
  eth : option quote
}.
(** [{"btc": {}, "eth": {}}]. *)
Definition empty : t := {| btc := None; eth := None |}.
End Prices.

(** [_cache] with its two remaining keys, each an entry
    [{"data": .., "ts": ..}]. *)
Record dashboard_cache : Type := {
  market : cache;
  binance_funding : option (list Funding.t * float);
  btc_eth_prices : option (Prices.t * float)
}.

Definition set_binance_funding (c : dashboard_cache) (e : list Funding.t * float)
  : dashboard_cache :=
  {| market := market c;
     binance_funding := Some e;
     btc_eth_prices := btc_eth_prices c |}.

Definition set_btc_eth_prices (c : dashboard_cache) (e : Prices.t * float)
  : dashboard_cache :=
  {| market := market c;
     binance_funding := binance_funding c;
     btc_eth_prices := Some e |}.

Section Handlers.

Context `{PyBuiltins}.

(** [[t for t in l if cond(t)]] with a condition that may raise. *)
Fixpoint filterM {A : Type} (f : A -> result bool) (l : list A) : result (list A) :=
  match l with
  | [] => Ok []
  | x :: l' =>
      let* keep := f x in
      let* rest := filterM f l' in
      Ok (if keep then x :: rest else rest)
  end.

(** *** [fetch_binance_funding_rates] *)

(** [t.get("symbol", "").endswith("USDT")]. *)
Definition is_usdt_pair (t : json) : result bool :=
  let* v := get t "symbol" (JStr "") in
  let* sym := as_str v in
  Ok (endswith "USDT" sym).

(** [key=lambda x: abs(float(x.get("lastFundingRate", 0)))]. *)
Definition abs_rate (x : json) : result float :=
  let* rate := float_field x "lastFundingRate" in
  Ok (SFabs rate).

(** The row appended for the ticker [t] at position [i] of [top20]. *)
Definition funding_row (i : nat) (t : json) : result Funding.t :=
  let* v := item t "symbol" in
  let* sym := as_str v in
  let* mark := float_field t "markPrice" in
  let* index_price := float_field t "indexPrice" in
  let* rate := float_field t "lastFundingRate" in
  let* v := get t "nextFundingTime" (JInt 0) in
  let* nft := py_int v in
  Ok {| Funding.rank := Z.of_nat i + 1;
        Funding.symbol := replace "USDT" "/USDT" sym;
        Funding.markPrice := mark;
        Funding.indexPrice := index_price;
        Funding.fundingRate := rate;
        Funding.nextFundingTime := nft |}.

(** The [try] block, from the response to [result]. *)
Definition funding_rates_result (r : http_result) : result (list Funding.t) :=
  let* resp := r in
  let* data := resp_json resp in
  let* ts := iter data in
  let* usdt_pairs := filterM is_usdt_pair ts in
  let* usdt_pairs := sort_by Float.ltb abs_rate true usdt_pairs in
  let top20 := firstn 20 usdt_pairs in
  mapM_enum funding_row O top20.

Definition fetch_binance_funding_rates (now : float) (c : dashboard_cache)
    (r : http_result) : list Funding.t * dashboard_cache :=
  let refresh :=
    match funding_rates_result r with
    | Ok result => (result, set_binance_funding c (result, now))
    | Raise _ =>
        (match binance_funding c with
         | Some (data, _) => data
         | None => []
         end, c)
    end in
  match binance_funding c with
  | Some (data, ts) => if fresh now ts _cache_ttl then (data, c) else refresh
  | None => refresh
  end.

(** *** [fetch_btc_eth_prices] *)

(** [{"price": float(j.get("lastPrice", 0)),
      "change": float(j.get("priceChangePercent", 0))}]. *)
Definition quote_of (j : json) : result Prices.quote :=
  let* p := float_field j "lastPrice" in
  let* ch := float_field j "priceChangePercent" in
  Ok {| Prices.price := p; Prices.change := ch |}.

(** The [try] block: the second request is sent once the first response is
    decoded. *)
Definition btc_eth_result (r_btc r_eth : http_result) : result Prices.t :=
  let* resp := r_btc in
  let* btc := resp_json resp in
  let* resp2 := r_eth in
  let* eth := resp_json resp2 in
  let* quote_btc := quote_of btc in
  let* quote_eth := quote_of eth in
  Ok {| Prices.btc := Some quote_btc; Prices.eth := Some quote_eth |}.

Definition fetch_btc_eth_prices (now : float) (c : dashboard_cache)
    (r_btc r_eth : http_result) : Prices.t * dashboard_cache :=
  let refresh :=
    match btc_eth_result r_btc r_eth with
    | Ok result => (result, set_btc_eth_prices c (result, now))
    | Raise _ =>
        (match btc_eth_prices c with
         | Some (data, _) => data
         | None => Prices.empty
         end, c)
    end in
  match btc_eth_prices c with
  | Some (data, ts) => if fresh now ts _cache_ttl then (data, c) else refresh
  | None => refresh
  end.

(** *** [api_ai_analysis]: the row reported on *)

(** [cache.get("data", []) + cache.get("other", [])], whatever the age of
    the cached snapshot. *)
Definition all_data (c : cache) : list Row.t :=
  match binance_tickers_100 c with
  | Some s => (Snapshot.data s ++ Snapshot.other s)%list
  | None => []
  end.

(** The row [t] the handler picks with [next(.., None)]: the first one whose
    symbol equals the query once the slashes are taken out of both.  On
    [None] the handler answers with its no-data message; the report it
    formats from a row is text formatting and is not modelled. *)
Definition analysis_row (c : cache) (symbol : string) : option Row.t :=
  List.find
    (fun item => String.eqb (replace "/" "" (Row.symbol item)) (replace "/" "" symbol))
    (all_data c).

End Handlers.

(** ** Sample payloads *)

Module Sample.

Definition now : float := Float.of_Z 1700000000.
Definition later : float := Float.of_Z 1700000060.

Definition ok200 (j : json) : http_result :=
  Ok {| status_code := 200; body := Some j |}.

Definition ticker (sym vol change : string) : json :=
  JObj [("symbol", JStr sym); ("lastPrice", JStr "1.5");
        ("priceChangePercent", JStr change); ("highPrice", JStr "2.0");
        ("lowPrice", JStr "1.0"); ("quoteVolume", JStr vol); ("count", JInt 12)].

Definition funding (sym rate : string) (next : Z) : json :=
  JObj [("symbol", JStr sym); ("markPrice", JStr "1.5");
        ("lastFundingRate", JStr rate); ("nextFundingTime", JInt next)].

Definition ls_down : nat -> string -> http_result :=
  fun _ _ => Raise TransportError.

(** The scenario of the specification: one eligible ticker, one below the
    volume floor, one without a funding schedule. *)
Definition scenario_tickers : list json :=
  [ticker "BTCUSDT" "2000000" "5"; ticker "ETHUSDT" "500000" "3";
   ticker "SOLUSDT" "3000000" "-1"].

Definition scenario : upstream :=
  {| resp_ticker := ok200 (JList scenario_tickers);
     resp_funding :=
       ok200 (JList [funding "BTCUSDT" "0.0001" 100; funding "ETHUSDT" "0.0" 200;
                     funding "SOLUSDT" "0.0002" 0]);
     resp_info := ok200 (JList []);
     resp_klines := ok200 (JList []);
     ls_now := now;
     ls_upstream := ls_down |}.

(** Four eligible tickers with the rates 0.0001, 0.0, -0.0002, 0.0, two of
    them with the same change, among three that are not eligible. *)
Definition market_tickers : list json :=
  [ticker "AUSDT" "2000000" "3"; ticker "ETHUSDT" "500000" "3";
   ticker "BUSDT" "3000000" "5"; ticker "CUSDT" "4000000" "3.0";
   ticker "SOLUSDT" "3000000" "-1"; ticker "DUSDT" "5000000" "1";
   ticker "BTCEUR" "9000000" "2"].

Definition market : upstream :=
  {| resp_ticker := ok200 (JList market_tickers);
     resp_funding :=
       ok200 (JList [funding "AUSDT" "0.0001" 100; funding "ETHUSDT" "0.0" 200;
                     funding "BUSDT" "0.0" 100; funding "CUSDT" "-0.0002" 100;
                     funding "SOLUSDT" "0.0002" 0; funding "DUSDT" "0.0" 100]);
     resp_info := ok200 (JList [JObj [("symbol", JStr "AUSDT");
                                      ("fundingIntervalHours", JInt 4)]]);
     resp_klines :=
       ok200 (JList [JList (repeat (JStr "100") 8); JList (repeat (JStr "150") 8)]);
     ls_now := now;
     ls_upstream := ls_down |}.


Definition ticker_down : upstream :=
  {| resp_ticker := Raise TransportError;
     resp_funding := resp_funding scenario;
     resp_info := resp_info scenario;
     resp_klines := resp_klines scenario;
     ls_now := now;
     ls_upstream := ls_down |}.

(** Long/short answers: an infinite ratio for every symbol; one symbol
    failing; every symbol answered. *)
Definition ls_reply (ratio : json) : http_result :=
  ok200 (JList [JObj [("longShortRatio", ratio); ("longAccount", JStr "0.6");
                      ("shortAccount", JStr "0.4")]]).

Definition ls_infinite : nat -> string -> http_result :=
  fun _ _ => ls_reply (JFloat (S754_infinity false)).

Definition ls_all_up : nat -> string -> http_result :=
  fun _ _ => ls_reply (JStr "1.5").

Definition ls_one_down : nat -> string -> http_result :=
  fun _ sym =>
    if String.eqb sym "AUSDT" then Ok {| status_code := 429; body := None |}
    else ls_reply (JStr "1.5").

(** The fear/greed payload for two days. *)
Definition fng_day (value : string) : json :=
  JObj [("value", JStr value); ("value_classification", JStr "Greed")].

Definition fng_days (today yesterday : string) : json :=
  JObj [("name", JStr "Fear and Greed Index");
        ("data", JList [fng_day today; fng_day yesterday])].

End Sample.

(** Payloads for the other handlers. *)
Module MoreSample.

(** Five seconds after [Sample.now]. *)
Definition soon : float := Float.of_Z 1700000005.

(** [_cache = {}]. *)
Definition cold : dashboard_cache :=
  {| market := empty_cache; binance_funding := None; btc_eth_prices := None |}.

(** The scenario with a string among the tickers. *)
Definition malformed_tickers : list json :=
  [Sample.ticker "BTCUSDT" "2000000" "5"; JStr "oops"].

Definition malformed : upstream :=
  {| resp_ticker := Sample.ok200 (JList malformed_tickers);
     resp_funding := resp_funding Sample.scenario;
     resp_info := resp_info Sample.scenario;
     resp_klines := resp_klines Sample.scenario;
     ls_now := Sample.now;
     ls_upstream := Sample.ls_down |}.

(** An error object of the exchange. *)
Definition rejected : json :=
  JObj [("code", JInt (-1003)); ("msg", JStr "Too many requests.")].

(** The market payload with every long/short request answered. *)
Definition market_ratios : upstream :=
  {| resp_ticker := resp_ticker Sample.market;
     resp_funding := resp_funding Sample.market;
     resp_info := resp_info Sample.market;
     resp_klines := resp_klines Sample.market;
     ls_now := Sample.now;
     ls_upstream := Sample.ls_all_up |}.


(** The scenario with the error object in place of the funding list. *)
Definition funding_rejected : upstream :=
  {| resp_ticker := resp_ticker Sample.scenario;
     resp_funding := Sample.ok200 rejected;
     resp_info := resp_info Sample.scenario;
     resp_klines := resp_klines Sample.scenario;
     ls_now := Sample.now;
     ls_upstream := Sample.ls_down |}.

(** Tickers for the backtest: SHIB under two symbols, a coin that is not
    listed, a change that sends the long APR over its bound. *)
Definition backtest_tickers : list json :=
  [Sample.ticker "1000SHIBUSDT" "3000000" "2"; Sample.ticker "ETHUSDT" "500000" "40";
   Sample.ticker "SHIBUSDT" "5000000" "1"; Sample.ticker "FOOUSDT" "9000000" "7";
   Sample.ticker "BTCUSDT" "2000000" "-5"].

(** A premium-index payload of 22 USDT symbols and one that is not. *)
Definition premium_index : list json :=
  List.map (fun p => Sample.funding (fst p) (snd p) 100)
    [("AUSDT", "0.0001"); ("BUSDT", "-0.0009"); ("CUSDT", "0.0003");
     ("DUSDT", "0.0004"); ("EUSDT", "-0.0005"); ("FUSDT", "0.0006");
     ("GUSDT", "0.0007"); ("HUSDT", "0.0008"); ("BTCEUR", "0.9");
     ("IUSDT", "0.0010"); ("JUSDT", "-0.0011"); ("KUSDT", "0.0012");
     ("LUSDT", "0.0013"); ("MUSDT", "0.0014"); ("NUSDT", "-0.0015");
     ("OUSDT", "0.0016"); ("PUSDT", "0.0017"); ("QUSDT", "0.0018");
     ("RUSDT", "0.0019"); ("SUSDT", "-0.0020"); ("TUSDT", "0.0021");
     ("UUSDT", "0.0022"); ("VUSDT", "0.00002")].

(** A payload with a funding rate that is not a number. *)
Definition premium_index_unreadable : list json :=
  [Sample.funding "AUSDT" "0.0001" 100; Sample.funding "ZUSDT" "n/a" 100].

End MoreSample.

(** ** Vocabulary of the specification *)

Section Vocabulary.

Context `{PyBuiltins}.

(** The freshness test at the head of each fetch function. *)
Definition ls_hit (now : float) (c : cache) : bool :=
  match ls_ratio_batch c with
  | Some (_, ts) => fresh now ts 300
  | None => false
  end.

Definition tickers_hit (now : float) (c : cache) : bool :=
  match binance_tickers_100 c with
  | Some s => fresh now (Snapshot.ts s) _cache_ttl
  | None => false
  end.

Definition fng_hit (now : float) (c : cache) : bool :=
  match fear_and_greed c with
  | Some (_, ts) => fresh now ts 3600
  | None => false
  end.

(** A long/short map without an infinite or NaN ratio. *)
Definition finite_ratios (m : gmap string LS.t) : Prop :=
  forall sym e, m !! sym = Some e ->
    exists f, LS.ratio e = PFloat f /\ Float.is_finite f = true.

(** The per-symbol errors of the long/short fetch, as the specification
    lists them: a request exception, a status other than 200, a payload that
    is malformed (not JSON, not a list, an empty list, or a first element
    whose fields do not read as floats). *)
Inductive symbol_error : http_result -> Prop :=
| request_exception (e : exn) : symbol_error (Raise e)
| bad_status (resp : response) :
    status_code resp <> 200 -> symbol_error (Ok resp)
| body_not_json (resp : response) :
    body resp = None -> symbol_error (Ok resp)
| payload_not_list (resp : response) (j : json) :
    body resp = Some j -> (forall l, j <> JList l) -> symbol_error (Ok resp)
| payload_empty (resp : response) :
    body resp = Some (JList []) -> symbol_error (Ok resp)
| entry_malformed (resp : response) (d0 : json) (rest : list json) :
    body resp = Some (JList (d0 :: rest)) ->
    is_ok (float_field d0 "longShortRatio")
      && is_ok (float_field d0 "longAccount")
      && is_ok (float_field d0 "shortAccount") = false ->
    symbol_error (Ok resp).

(** The values of the fear/greed index: the integers from 0 to 100. *)
Definition index_value (v : Z) : Prop := 0 <= v <= 100.

(** The fear/greed change as the specification words it: the quotient
    whenever yesterday's value is not zero. *)
Definition change_as_specified (today yesterday : Z) : result float :=
  if yesterday =? 0 then Ok Float.zero
  else
    let* q := int_truediv (today - yesterday) yesterday in
    Ok (Float.mul q (Float.of_Z 100)).

(** [r] is [x] clamped to [lo .. hi], both bounds included. *)
Definition clamped (lo hi x r : float) : Prop :=
  (Float.ltb x lo = true -> r = lo) /\
  (Float.ltb hi x = true -> r = hi) /\
  (Float.leb lo x = true -> Float.leb x hi = true -> Float.eqb r x = true).

(** The tickers of a decoded 24h payload. *)
Definition payload_tickers (r : http_result) (ts : list json) : Prop :=
  exists resp data, r = Ok resp /\ resp_json resp = Ok data /\ iter data = Ok ts.

(** The decoded body of a fetch, [None] when the call raised or the body
    does not decode. *)
Definition decoded (r : http_result) : option json :=
  match r with
  | Ok resp => body resp
  | Raise _ => None
  end.




(** [r] is the row [map_result] builds for the ticker [t]. *)
Definition row_of (j : joined) (t : json) (r : Row.t) : Prop :=
  exists ls_ratios i,
    map_row (funding_map j) (interval_map j) ls_ratios i t = Ok r.

(** Eligibility as the specification words it: the symbol ends with "USDT",
    the quote volume exceeds 1,000,000 and the funding record of the symbol
    has [nextFundingTime > 0]. *)
Definition eligible (funding_map : gmap string json) (t : json) : Prop :=
  exists (sym : string) (vol : float) (f_info nft : json),
    get t "symbol" (JStr "") = Ok (JStr sym) /\
    (exists base, sym = String.append base "USDT") /\
    float_field t "quoteVolume" = Ok vol /\
    Float.ltb (Float.of_Z 1000000) vol = true /\
    funding_map !! sym = Some f_info /\
    get f_info "nextFundingTime" (JInt 0) = Ok nft /\
    gt_zero nft = Ok true.

(** The funding rate the filter reads for the ticker [t]. *)
Definition funding_rate_of (funding_map : gmap string json) (t : json) (rate : float)
  : Prop :=
  exists (sym : string) (f_info : json),
    get t "symbol" (JStr "") = Ok (JStr sym) /\
    funding_map !! sym = Some f_info /\
    float_field f_info "lastFundingRate" = Ok rate.

(** The tickers that the filter loop puts in the bucket [want] selects, and
    those whose sort key equals [k]. *)
Definition in_bucket (funding_map : gmap string json) (want : bucket -> bool)
    (t : json) : bool :=
  match classify funding_map t with
  | Ok b => want b
  | Raise _ => false
  end.

Definition key_is (k : float) (t : json) : bool :=
  match change_key t with
  | Ok f => Float.eqb f k
  | Raise _ => false
  end.

(** An element of a list decorated with sort keys carries its own key. *)
Definition decorated (x : float * json) : Prop := change_key (snd x) = Ok (fst x).


End Vocabulary.

(** ** Vocabulary of the further properties *)

Section HandlerVocabulary.

Context `{PyBuiltins}.

(** [x] is an entry of [filtered_data] that no entry of the same base coin
    beats in quote volume, as far as the two volumes read as floats. *)
Definition most_liquid (filtered_data : list (string * json)) (x : string * json)
  : Prop :=
  In x filtered_data /\
  forall t' v v', In (fst x, t') filtered_data ->
    float_field (snd x) "quoteVolume" = Ok v ->
    float_field t' "quoteVolume" = Ok v' ->
    Float.ltb v v' = false.

(** The invariant of the second loop of [api_grid_backtest], with [seen] the
    entries of [filtered_data] already visited: [unique_coins] has one entry
    for each base coin seen, and it is the most liquid one. *)
Definition unique_inv (seen unique_coins : list (string * json)) : Prop :=
  List.NoDup (List.map fst unique_coins) /\
  (forall x, In x unique_coins -> most_liquid seen x) /\
  (forall x, In x seen -> In (fst x) (List.map fst unique_coins)).

(** A ticker the filter loop can read: a dictionary whose symbol, when it
    has one, is a string, and whose quote volume reads as a float when the
    symbol ends with "USDT". *)
Definition readable_ticker (t : json) : Prop :=
  exists kv sym,
    t = JObj kv /\
    default (JStr "") (assoc "symbol" kv) = JStr sym /\
    (endswith "USDT" sym = true -> exists vol, float_field t "quoteVolume" = Ok vol).

(** A funding-info payload the comprehension of [interval_map] can read:
    when it is a list, the symbol of each of its dictionaries, when there is
    one, is a string. *)
Definition info_readable (info_data : json) : Prop :=
  forall l kv, info_data = JList l -> In (JObj kv) l ->
    exists sym, default (JStr "") (assoc "symbol" kv) = JStr sym.

(** A klines payload the volume change can be computed from: when it is a
    list of two candles or more, the eighth field of each of the first two
    reads as a float. *)
Definition candles_readable (btc_klines : json) : Prop :=
  forall k0 k1 rest, btc_klines = JList (k0 :: k1 :: rest) ->
    exists v0 y_vol v1 t_vol,
      index k0 7 = Ok v0 /\ py_float v0 = Ok y_vol /\
      index k1 7 = Ok v1 /\ py_float v1 = Ok t_vol.

(** No funding rate of the ticker [t] that reads as a float is NaN: the
    order [list.sort] leaves NaN keys in is not specified. *)
Definition rate_is_number (t : json) : bool :=
  match abs_rate t with
  | Ok k => negb (Float.is_nan k)
  | Raise _ => true
  end.

(** The freshness test at the head of the two other fetch functions. *)
Definition funding_hit (now : float) (c : dashboard_cache) : bool :=
  match binance_funding c with
  | Some (_, ts) => fresh now ts _cache_ttl
  | None => false
  end.

Definition btc_eth_hit (now : float) (c : dashboard_cache) : bool :=
  match btc_eth_prices c with
  | Some (_, ts) => fresh now ts _cache_ttl
  | None => false
  end.

(** What a failed fetch falls back on. *)
Definition cached_funding (c : dashboard_cache) : list Funding.t :=
  match binance_funding c with
  | Some (data, _) => data
  | None => []
  end.

Definition cached_prices (c : dashboard_cache) : Prices.t :=
  match btc_eth_prices c with
  | Some (data, _) => data
  | None => Prices.empty
  end.

(** The quote one of the two requests of [fetch_btc_eth_prices] gives, taken
    by itself. *)
Definition quote_read (r : http_result) : result Prices.quote :=
  let* resp := r in
  let* j := resp_json resp in
  quote_of j.

(** [s[k:]]. *)
Fixpoint drop_chars (k : nat) (s : string) : string :=
  match k, s with
  | S k', String _ s' => drop_chars k' s'
  | _, _ => s
  end.

End HandlerVocabulary.

(** * Properties *)

(** ** The error monad *)

Lemma bind_ok {A B : Type} (m : result A) (k : A -> result B) (b : B) :
  bind m k = Ok b -> exists a, m = Ok a /\ k a = Ok b.
Proof. destruct m as [a|e]; simpl; [eauto | discriminate]. Qed.

(** Splits a hypothesis [let* x := m in k = Ok b] into its two steps. *)
Ltac bind_inv H :=
  let x := fresh "x" in
  let Hx := fresh "Hx" in
  apply bind_ok in H; destruct H as (x & Hx & H).

Tactic Notation "bind_as" hyp(H) ident(x) ident(Hx) :=
  apply bind_ok in H; destruct H as (x & Hx & H).

Lemma mapM_ok_Forall2 {A B : Type} (f : A -> result B) (l : list A) (l' : list B) :
  mapM f l = Ok l' -> Forall2 (fun x y => f x = Ok y) l l'.
Proof.
  revert l'; induction l as [|x l IH]; simpl; intros l' Hm.
  - injection Hm as <-. constructor.
  - bind_inv Hm. bind_inv Hm. injection Hm as <-.
    constructor; auto.
Qed.

Lemma mapM_ok_length {A B : Type} (f : A -> result B) (l : list A) (l' : list B) :
  mapM f l = Ok l' -> List.length l' = List.length l.
Proof.
  intros Hm. apply mapM_ok_Forall2 in Hm.
  induction Hm; simpl; congruence.
Qed.

Lemma mapM_enum_ok_Forall2 {A B : Type} (f : nat -> A -> result B) (i : nat)
    (l : list A) (l' : list B) :
  mapM_enum f i l = Ok l' -> Forall2 (fun x y => exists k, f k x = Ok y) l l'.
Proof.
  revert i l'; induction l as [|x l IH]; simpl; intros i l' Hm.
  - injection Hm as <-. constructor.
  - bind_inv Hm. bind_inv Hm. injection Hm as <-.
    constructor; eauto.
Qed.

Lemma Forall2_In_r {A B : Type} (P : A -> B -> Prop) (l : list A) (l' : list B)
    (y : B) :
  Forall2 P l l' -> In y l' -> exists x, In x l /\ P x y.
Proof.
  induction 1 as [|x y' l l' Hxy _ IH]; intros Hy; [destruct Hy|].
  destruct Hy as [<-|Hy].
  - exists x. split; [now left|assumption].
  - destruct (IH Hy) as (x' & Hx' & HP). exists x'. split; [now right|assumption].
Qed.

Lemma Forall2_In_l {A B : Type} (P : A -> B -> Prop) (l : list A) (l' : list B)
    (x : A) :
  Forall2 P l l' -> In x l -> exists y, In y l' /\ P x y.
Proof.
  induction 1 as [|x' y l l' Hxy _ IH]; intros Hx; [destruct Hx|].
  destruct Hx as [<-|Hx].
  - exists y. split; [now left|assumption].
  - destruct (IH Hx) as (y' & Hy' & HP). exists y'. split; [now right|assumption].
Qed.

(** ** Floats: the order of [<] *)

Module FloatFacts.

Lemma compare_antisym (x y : float) :
  SFcompare y x = option_map CompOpp (SFcompare x y).
Proof.
  destruct x as [sx|sx| |sx mx ex], y as [sy|sy| |sy my ey]; simpl; try reflexivity;
    try (destruct sx; reflexivity); try (destruct sy; reflexivity);
    try (destruct sx, sy; reflexivity).
  destruct sx, sy; simpl; try reflexivity;
    rewrite (Z.compare_antisym ex ey);
    destruct (ex ?= ey) eqn:He; simpl; try reflexivity;
    change (Pos.compare_cont Eq my mx) with (Pos.compare my mx);
    change (Pos.compare_cont Eq mx my) with (Pos.compare mx my);
    rewrite (Pos.compare_antisym mx my); destruct (mx ?= my)%positive; reflexivity.
Qed.

Lemma ltb_asym (x y : float) : Float.ltb x y = true -> Float.ltb y x = false.
Proof.
  unfold Float.ltb, SFltb. rewrite (compare_antisym x y).
  destruct (SFcompare x y) as [[]|]; simpl; congruence.
Qed.

Lemma compare_not_nan (x y : float) :
  Float.is_nan x = false -> Float.is_nan y = false ->
  exists c, SFcompare x y = Some c.
Proof.
  destruct x, y; simpl; try discriminate; intros _ _; eauto.
Qed.

(** Without NaN, [<] and [<=] are each other's negation. *)
Lemma ltb_false_leb (x y : float) :
  Float.is_nan x = false -> Float.is_nan y = false ->
  Float.ltb x y = false -> Float.leb y x = true.
Proof.
  intros Hx Hy. destruct (compare_not_nan x y Hx Hy) as [c Hc].
  unfold Float.ltb, Float.leb, SFltb, SFleb. rewrite (compare_antisym x y), Hc.
  destruct c; simpl; congruence.
Qed.

Lemma leb_ltb_false (x y : float) : Float.leb y x = true -> Float.ltb x y = false.
Proof.
  unfold Float.ltb, Float.leb, SFltb, SFleb. rewrite (compare_antisym x y).
  destruct (SFcompare x y) as [[]|]; simpl; congruence.
Qed.

Lemma eqb_not_nan (x y : float) :
  Float.eqb x y = true -> Float.is_nan x = false /\ Float.is_nan y = false.
Proof. destruct x, y; simpl; try discriminate; auto. Qed.

Lemma ltb_not_nan (x y : float) :
  Float.ltb x y = true -> Float.is_nan x = false /\ Float.is_nan y = false.
Proof. destruct x, y; simpl; try discriminate; auto. Qed.

Ltac cmp_cases :=
  repeat match goal with
  | |- context [(?a ?= ?b)%Z] => destruct (Z.compare_spec a b)
  | |- context [Pos.compare_cont Eq ?a ?b] =>
      change (Pos.compare_cont Eq a b) with (Pos.compare a b);
      destruct (Pos.compare_spec a b)
  end.

Ltac cmp_triples x y z :=
  destruct x as [[]|[]| |[] ? ?], y as [[]|[]| |[] ? ?], z as [[]|[]| |[] ? ?];
  simpl; try congruence.

Lemma compare_trans (c : comparison) (x y z : float) :
  SFcompare x y = Some c -> SFcompare y z = Some c -> SFcompare x z = Some c.
Proof.
  cmp_triples x y z; destruct c; try congruence;
    cmp_cases; simpl; try congruence; try lia.
Qed.

Lemma compare_eq_l (c : comparison) (x y z : float) :
  SFcompare x y = Some Eq -> SFcompare y z = Some c -> SFcompare x z = Some c.
Proof.
  cmp_triples x y z; destruct c; try congruence;
    cmp_cases; simpl; try congruence; try lia.
Qed.

Lemma compare_eq_r (c : comparison) (x y z : float) :
  SFcompare x y = Some c -> SFcompare y z = Some Eq -> SFcompare x z = Some c.
Proof.
  cmp_triples x y z; destruct c; try congruence;
    cmp_cases; simpl; try congruence; try lia.
Qed.

Lemma ltb_trans (x y z : float) :
  Float.ltb x y = true -> Float.ltb y z = true -> Float.ltb x z = true.
Proof.
  unfold Float.ltb, SFltb.
  destruct (SFcompare x y) as [[]|] eqn:Hxy; try discriminate.
  destruct (SFcompare y z) as [[]|] eqn:Hyz; try discriminate.
  now rewrite (compare_trans Lt x y z Hxy Hyz).
Qed.

Lemma leb_trans (x y z : float) :
  Float.leb x y = true -> Float.leb y z = true -> Float.leb x z = true.
Proof.
  unfold Float.leb, SFleb.
  destruct (SFcompare x y) as [[]|] eqn:Hxy; try discriminate;
    destruct (SFcompare y z) as [[]|] eqn:Hyz; try discriminate; intros _ _.
  - now rewrite (compare_trans Eq x y z Hxy Hyz).
  - now rewrite (compare_eq_l Lt x y z Hxy Hyz).
  - now rewrite (compare_eq_r Lt x y z Hxy Hyz).
  - now rewrite (compare_trans Lt x y z Hxy Hyz).
Qed.

(** Keys equal to one value are not ordered by [<]. *)
Lemma eqb_class (k x y : float) :
  Float.eqb x k = true -> Float.eqb y k = true -> Float.ltb x y = false.
Proof.
  unfold Float.eqb, Float.ltb, SFeqb, SFltb.
  destruct (SFcompare x k) as [[]|] eqn:Hx; try discriminate.
  destruct (SFcompare y k) as [[]|] eqn:Hy; try discriminate. intros _ _.
  assert (Hk : SFcompare k y = Some Eq).
  { rewrite (compare_antisym y k), Hy. reflexivity. }
  now rewrite (compare_trans Eq x k y Hx Hk).
Qed.

Lemma eqb_refl (x : float) : Float.is_nan x = false -> Float.eqb x x = true.
Proof.
  unfold Float.eqb, SFeqb.
  destruct x as [[]|[]| |[] m e]; simpl; try discriminate; try reflexivity; intros _;
    rewrite Z.compare_refl;
    change (Pos.compare_cont Eq m m) with (Pos.compare m m);
    now rewrite Pos.compare_refl.
Qed.

Lemma leb_not_nan (x y : float) :
  Float.leb x y = true -> Float.is_nan x = false /\ Float.is_nan y = false.
Proof. destruct x, y; simpl; try discriminate; auto. Qed.

Lemma leb_not_ltb_eqb (x y : float) :
  Float.leb x y = true -> Float.ltb x y = false -> Float.eqb x y = true.
Proof.
  unfold Float.leb, Float.ltb, Float.eqb, SFleb, SFltb, SFeqb.
  destruct (SFcompare x y) as [[]|]; congruence.
Qed.

(** Among values that are not NaN, "not below" is transitive. *)
Lemma ltb_neg_trans (x y z : float) :
  Float.is_nan x = false -> Float.is_nan y = false -> Float.is_nan z = false ->
  Float.ltb x y = false -> Float.ltb y z = false -> Float.ltb x z = false.
Proof.
  intros Hx Hy Hz Hxy Hyz.
  apply leb_ltb_false.
  apply (leb_trans z y x); apply ltb_false_leb; assumption.
Qed.

End FloatFacts.

(** ** The sort *)

Section SortFacts.

Context {K A : Type} (lt : K -> K -> bool).

Implicit Types (x : K * A) (l acc : list (K * A)).

Lemma insert_sorted_perm x l : Permutation (insert_sorted lt x l) (x :: l).
Proof.
  induction l as [|y l IH]; simpl; [reflexivity|].
  destruct (lt (fst x) (fst y)); [reflexivity|].
  rewrite IH. apply perm_swap.
Qed.

Lemma fold_insert_perm l acc :
  Permutation (fold_left (fun acc x => insert_sorted lt x acc) l acc) (acc ++ l).
Proof.
  revert acc; induction l as [|x l IH]; intros acc; simpl.
  - now rewrite app_nil_r.
  - rewrite IH, insert_sorted_perm.
    change (x :: acc) with ([x] ++ acc). rewrite (Permutation_app_comm [x] acc).
    now rewrite <- app_assoc.
Qed.

Lemma stable_sort_perm l : Permutation (stable_sort lt l) l.
Proof. apply (fold_insert_perm l []). Qed.

Lemma py_sort_perm (reverse : bool) l : Permutation (py_sort lt reverse l) l.
Proof.
  unfold py_sort. destruct reverse.
  - rewrite <- Permutation_rev, stable_sort_perm. symmetry. apply Permutation_rev.
  - apply stable_sort_perm.
Qed.

Section Sorted.

Hypothesis lt_asym : forall a b, lt a b = true -> lt b a = false.
Hypothesis lt_trans : forall a b c, lt a b = true -> lt b c = true -> lt a c = true.

Lemma insert_sorted_sorted x l :
  StronglySorted (not_below lt) l -> StronglySorted (not_below lt) (insert_sorted lt x l).
Proof.
  induction l as [|y l IH]; simpl; intros Hs.
  - repeat constructor.
  - inversion Hs as [|? ? Hl Hy]; subst.
    destruct (lt (fst x) (fst y)) eqn:Hxy.
    + constructor; [assumption|].
      constructor; [now apply lt_asym|].
      rewrite Forall_forall in Hy |- *. intros z Hz. specialize (Hy z Hz).
      unfold not_below in *.
      destruct (lt (fst z) (fst x)) eqn:Hzx; [|reflexivity].
      rewrite (lt_trans _ _ _ Hzx Hxy) in Hy. discriminate.
    + constructor; [now apply IH|].
      rewrite (insert_sorted_perm x l).
      constructor; assumption.
Qed.

Lemma fold_insert_sorted l acc :
  StronglySorted (not_below lt) acc ->
  StronglySorted (not_below lt) (fold_left (fun acc x => insert_sorted lt x acc) l acc).
Proof.
  revert acc; induction l as [|x l IH]; intros acc Hs; simpl; [assumption|].
  apply IH, insert_sorted_sorted, Hs.
Qed.

Lemma stable_sort_sorted l : StronglySorted (not_below lt) (stable_sort lt l).
Proof. apply fold_insert_sorted. constructor. Qed.

End Sorted.

(** Stability.  [D] is the set of keys on which [<] is a strict weak order,
    [p] selects keys that [<] does not tell apart. *)
Section Stable.

Variable D : K -> Prop.
Variable p : K -> bool.

Hypothesis neg_trans : forall a b c, D a -> D b -> D c ->
  lt a b = false -> lt b c = false -> lt a c = false.
Hypothesis p_class : forall a b, p a = true -> p b = true -> lt a b = false.

Let pk (x : K * A) : bool := p (fst x).
Let Dk (x : K * A) : Prop := D (fst x).

Lemma insert_sorted_filter x l :
  Dk x -> Forall Dk l -> StronglySorted (not_below lt) l ->
  List.filter pk (insert_sorted lt x l) = List.filter pk l ++ List.filter pk [x].
Proof.
  intros Hx. induction l as [|y l IH]; intros Hd Hs; [reflexivity|].
  inversion Hd as [|? ? Dy Dl]; subst.
  inversion Hs as [|? ? Hl Hy]; subst.
  simpl. destruct (lt (fst x) (fst y)) eqn:Hxy.
  - simpl. destruct (pk x) eqn:Px; simpl; [|now rewrite app_nil_r].
    (* nothing equal to [x] can sit at or after [y] *)
    assert (Hnone : Forall (fun z => pk z = false) (y :: l)).
    { constructor.
      - destruct (pk y) eqn:Py; [|reflexivity].
        rewrite (p_class _ _ Px Py) in Hxy. discriminate.
      - rewrite Forall_forall in Hy, Dl |- *. intros z Hz.
        destruct (pk z) eqn:Pz; [|reflexivity].
        rewrite (neg_trans (fst x) (fst z) (fst y) Hx (Dl z Hz) Dy
                   (p_class _ _ Px Pz) (Hy z Hz)) in Hxy.
        discriminate. }
    inversion Hnone as [|? ? Hy0 Hl0]; subst. rewrite Hy0.
    assert (Hf : List.filter pk l = []).
    { clear -Hl0. induction Hl0 as [|z l Hz _ IHl]; simpl; [reflexivity|].
      now rewrite Hz. }
    now rewrite Hf.
  - simpl. rewrite (IH Dl Hl). now destruct (pk y).
Qed.

Hypothesis lt_asym : forall a b, lt a b = true -> lt b a = false.
Hypothesis lt_trans : forall a b c, lt a b = true -> lt b c = true -> lt a c = true.

Lemma fold_insert_filter l acc :
  Forall Dk l -> Forall Dk acc -> StronglySorted (not_below lt) acc ->
  List.filter pk (fold_left (fun acc x => insert_sorted lt x acc) l acc)
  = List.filter pk acc ++ List.filter pk l.
Proof.
  revert acc; induction l as [|x l IH]; intros acc Hl Hacc Hs; simpl.
  - now rewrite app_nil_r.
  - inversion Hl as [|? ? Hx Hl']; subst.
    rewrite IH.
    + rewrite (insert_sorted_filter x acc Hx Hacc Hs). simpl.
      destruct (pk x); simpl; [|now rewrite app_nil_r].
      now rewrite <- app_assoc.
    + assumption.
    + rewrite (insert_sorted_perm x acc). now constructor.
    + now apply insert_sorted_sorted.
Qed.

Lemma stable_sort_filter l :
  Forall Dk l -> List.filter pk (stable_sort lt l) = List.filter pk l.
Proof.
  intros Hl. apply (fold_insert_filter l [] Hl); constructor.
Qed.

(** Whatever the direction, equal keys leave the sort in the order they
    entered it. *)
Lemma py_sort_stable (reverse : bool) l :
  Forall Dk l -> List.filter pk (py_sort lt reverse l) = List.filter pk l.
Proof.
  intros Hl. unfold py_sort. destruct reverse.
  - rewrite filter_rev, stable_sort_filter, filter_rev, rev_involutive; [reflexivity|].
    now apply Forall_rev.
  - now apply stable_sort_filter.
Qed.

End Stable.

End SortFacts.

Lemma StronglySorted_app {A : Type} (R : A -> A -> Prop) (l1 l2 : list A) :
  StronglySorted R l1 -> StronglySorted R l2 ->
  (forall a b, In a l1 -> In b l2 -> R a b) ->
  StronglySorted R (l1 ++ l2).
Proof.
  induction l1 as [|x l1 IH]; simpl; intros H1 H2 H12; [assumption|].
  inversion H1 as [|? ? Hl Hx]; subst.
  constructor.
  - apply IH; [assumption|assumption|].
    intros a b Ha Hb. apply H12; [now right|assumption].
  - rewrite List.Forall_forall in Hx |- *. intros b Hb.
    apply in_app_or in Hb as [Hb|Hb]; [now apply Hx|].
    apply H12; [now left|assumption].
Qed.

Lemma StronglySorted_rev {A : Type} (R : A -> A -> Prop) (l : list A) :
  StronglySorted R l -> StronglySorted (fun a b => R b a) (rev l).
Proof.
  induction 1 as [|x l Hl IH Hx]; simpl; [constructor|].
  apply StronglySorted_app; [assumption|repeat constructor|].
  intros a b Ha [<-|[]]. apply In_rev in Ha.
  rewrite List.Forall_forall in Hx. now apply Hx.
Qed.

Lemma StronglySorted_map_inv {A B : Type} (R : B -> B -> Prop) (f : A -> B)
    (l : list A) :
  StronglySorted R (List.map f l) -> StronglySorted (fun a b => R (f a) (f b)) l.
Proof.
  induction l as [|x l IH]; simpl; intros Hs; [constructor|].
  inversion Hs as [|? ? Hl Hx]; subst. constructor; [now apply IH|].
  rewrite List.Forall_forall in Hx |- *. intros y Hy. apply Hx. now apply in_map.
Qed.

Lemma StronglySorted_weaken {A : Type} (R R' : A -> A -> Prop) (l : list A) :
  (forall a b, In a l -> In b l -> R a b -> R' a b) ->
  StronglySorted R l -> StronglySorted R' l.
Proof.
  intros Himp Hs. induction Hs as [|x l Hl IH Hx]; [constructor|].
  constructor.
  - apply IH. intros a b Ha Hb. apply Himp; now right.
  - rewrite List.Forall_forall in Hx |- *. intros y Hy.
    apply Himp; [now left|now right|now apply Hx].
Qed.

Lemma Forall2_filter {A B : Type} (P : A -> B -> Prop) (f : A -> bool)
    (g : B -> bool) (l : list A) (l' : list B) :
  Forall2 P l l' -> (forall x y, P x y -> f x = g y) ->
  Forall2 P (List.filter f l) (List.filter g l').
Proof.
  intros HF Hfg. induction HF as [|x y l l' Hxy _ IH]; simpl; [constructor|].
  rewrite (Hfg x y Hxy). destruct (g y); [constructor|]; assumption.
Qed.

Lemma map_snd_combine {A B : Type} (ks : list A) (l : list B) :
  List.length ks = List.length l -> List.map snd (combine ks l) = l.
Proof.
  revert ks; induction l as [|x l IH]; intros [|k ks] Hl; simpl in *;
    try discriminate; [reflexivity|].
  f_equal. apply IH. congruence.
Qed.

Lemma StronglySorted_map {A B : Type} (R : B -> B -> Prop) (f : A -> B) (l : list A) :
  StronglySorted (fun a b => R (f a) (f b)) l -> StronglySorted R (List.map f l).
Proof.
  induction 1 as [|x l Hl IH Hx]; simpl; constructor; [assumption|].
  apply Forall_map. exact Hx.
Qed.

(** ** The long/short batch *)

Section LongShortFacts.

Context `{PyBuiltins}.

Implicit Types (m result : gmap string LS.t) (upstream : nat -> string -> http_result).

(** The entry stored for a response, read off the response. *)
Lemma fetch_single_entry_some (r : http_result) (e : LS.t) :
  fetch_single_entry r = Ok (Some e) ->
  exists resp d0 rest raw long_acc short_acc,
    r = Ok resp /\ status_code resp = 200 /\
    resp_json resp = Ok (JList (d0 :: rest)) /\
    float_field d0 "longShortRatio" = Ok raw /\
    float_field d0 "longAccount" = Ok long_acc /\
    float_field d0 "shortAccount" = Ok short_acc /\
    e = {| LS.ratio :=
             PFloat (if Float.is_inf raw || Float.is_nan raw
                     then Float.of_Z 9999 else raw);
           LS.long := PFloat (Float.mul long_acc (Float.of_Z 100));
           LS.short := PFloat (Float.mul short_acc (Float.of_Z 100)) |}.
Proof.
  unfold fetch_single_entry. destruct r as [resp|ex]; simpl; [|discriminate].
  destruct (status_code resp =? 200) eqn:Hs; [|discriminate].
  apply Z.eqb_eq in Hs.
  destruct (resp_json resp) as [data|ex] eqn:Hj; simpl; [|discriminate].
  destruct data as [| | | | |[|d0 rest]|]; try discriminate.
  intros He. bind_inv He. bind_inv He. bind_inv He.
  injection He as <-.
  exists resp, d0, rest, x, x0, x1. auto 10.
Qed.

Lemma symbol_error_no_entry (r : http_result) (e : LS.t) :
  symbol_error r -> fetch_single_entry r <> Ok (Some e).
Proof.
  intros Herr He.
  apply fetch_single_entry_some in He
    as (resp & d0 & rest & raw & la & sa & -> & Hs & Hj & Hr & Hl & Hsh & _).
  unfold resp_json in Hj.
  inversion Herr as [|? Hbad|? Hb|? j Hb Hnl|? Hb|? d0' rest' Hb Hm]; subst;
    try contradiction; rewrite Hb in Hj; try discriminate.
  - injection Hj as ->. now apply (Hnl (d0 :: rest)).
  - injection Hj as -> ->. rewrite Hr, Hl, Hsh in Hm. discriminate.
Qed.

Lemma fetch_single_error m (sym : string) (r : http_result) :
  symbol_error r -> fetch_single m sym r = m.
Proof.
  intros Herr. unfold fetch_single.
  destruct (fetch_single_entry r) as [[e|]|ex] eqn:He; try reflexivity.
  now apply symbol_error_no_entry in He.
Qed.

(** A key of the gathered map was stored by one of the tasks for it. *)
Lemma gather_single_lookup upstream (i : nat) (symbols : list string) m
    (sym : string) (e : LS.t) :
  gather_single upstream i symbols m !! sym = Some e ->
  m !! sym = Some e \/
  exists k, symbols !! k = Some sym /\
            fetch_single_entry (upstream (i + k)%nat sym) = Ok (Some e).
Proof.
  revert i m; induction symbols as [|s rest IH]; intros i m; simpl; [auto|].
  intros Hl. apply IH in Hl as [Hl|(k & Hk & He)].
  - unfold fetch_single in Hl.
    destruct (fetch_single_entry (upstream i s)) as [[e'|]|ex] eqn:He; auto.
    destruct (decide (s = sym)) as [->|Hne].
    + rewrite lookup_insert_eq in Hl. injection Hl as ->.
      right. exists O. now rewrite Nat.add_0_r.
    + rewrite lookup_insert_ne in Hl by assumption. auto.
  - right. exists (S k). split; [exact Hk|].
    now replace (i + S k)%nat with (S i + k)%nat by lia.
Qed.

(** The tasks of the other symbols do not touch the entry of [sym]. *)
Lemma gather_single_agree upstream1 upstream2 (i : nat) (symbols : list string)
    m1 m2 (sym : string) :
  (forall k, upstream2 (i + k)%nat sym = upstream1 (i + k)%nat sym) ->
  m1 !! sym = m2 !! sym ->
  gather_single upstream1 i symbols m1 !! sym
  = gather_single upstream2 i symbols m2 !! sym.
Proof.
  revert i m1 m2; induction symbols as [|s rest IH]; intros i m1 m2 Hup Hm;
    simpl; [assumption|].
  apply IH.
  - intros k. replace (S i + k)%nat with (i + S k)%nat by lia. apply Hup.
  - unfold fetch_single. destruct (decide (s = sym)) as [->|Hne].
    + specialize (Hup O). rewrite Nat.add_0_r in Hup. rewrite Hup.
      destruct (fetch_single_entry (upstream1 i sym)) as [[e|]|ex]; try assumption.
      now rewrite !lookup_insert_eq.
    + destruct (fetch_single_entry (upstream1 i s)) as [[e1|]|ex1];
        destruct (fetch_single_entry (upstream2 i s)) as [[e2|]|ex2];
        rewrite ?lookup_insert_ne by assumption; assumption.
Qed.

Lemma gather_single_all_error upstream (i : nat) (symbols : list string) m :
  (forall k sym, symbols !! k = Some sym -> symbol_error (upstream (i + k)%nat sym)) ->
  gather_single upstream i symbols m = m.
Proof.
  revert i m; induction symbols as [|s rest IH]; intros i m Herr; simpl; [reflexivity|].
  rewrite fetch_single_error.
  - apply IH. intros k sym Hk.
    replace (S i + k)%nat with (i + S k)%nat by lia. now apply Herr.
  - specialize (Herr O s eq_refl). now rewrite Nat.add_0_r in Herr.
Qed.

(** On a miss the batch is issued: what is returned, what is cached. *)
Lemma fetch_ls_ratio_batch_miss (now : float) (c : cache) upstream
    (symbols : list string) :
  ls_hit now c = false ->
  fetch_ls_ratio_batch now c upstream symbols
  = let result := gather_single upstream O symbols ∅ in
    (result,
     if bool_decide (result = ∅) then c else set_ls_ratio_batch c (result, now)).
Proof.
  unfold ls_hit, fetch_ls_ratio_batch.
  destruct (ls_ratio_batch c) as [[data ts]|]; [|reflexivity].
  now intros ->.
Qed.

Lemma of_Z_9999_finite : Float.is_finite (Float.of_Z 9999) = true.
Proof. reflexivity. Qed.

(** The entry stored from a response whose first element reads. *)
Lemma fetch_single_entry_reads (resp : response) (d0 : json) (rest : list json)
    (raw long_acc short_acc : float) :
  status_code resp = 200 ->
  resp_json resp = Ok (JList (d0 :: rest)) ->
  float_field d0 "longShortRatio" = Ok raw ->
  float_field d0 "longAccount" = Ok long_acc ->
  float_field d0 "shortAccount" = Ok short_acc ->
  fetch_single_entry (Ok resp)
  = Ok (Some {| LS.ratio :=
                  PFloat (if Float.is_inf raw || Float.is_nan raw
                          then Float.of_Z 9999 else raw);
                LS.long := PFloat (Float.mul long_acc (Float.of_Z 100));
                LS.short := PFloat (Float.mul short_acc (Float.of_Z 100)) |}).
Proof.
  intros Hs Hj Hr Hl Hsh. unfold fetch_single_entry. simpl.
  rewrite Hs, Hj. simpl. rewrite Hr. simpl. rewrite Hl. simpl. now rewrite Hsh.
Qed.

(** An entry, once stored, is not taken out by the later tasks. *)
Lemma gather_single_keeps upstream (i : nat) (symbols : list string) m (sym : string) :
  is_Some (m !! sym) -> is_Some (gather_single upstream i symbols m !! sym).
Proof.
  revert i m; induction symbols as [|s rest IH]; intros i m Hm; simpl; [assumption|].
  apply IH. unfold fetch_single.
  destruct (fetch_single_entry (upstream i s)) as [[e|]|ex]; try assumption.
  destruct (decide (s = sym)) as [->|Hne].
  - rewrite lookup_insert_eq. eauto.
  - now rewrite lookup_insert_ne.
Qed.

(** A task whose response reads stores an entry for its symbol. *)
Lemma gather_single_stored upstream (i : nat) (symbols : list string) m
    (sym : string) (k : nat) (e0 : LS.t) :
  symbols !! k = Some sym ->
  fetch_single_entry (upstream (i + k)%nat sym) = Ok (Some e0) ->
  is_Some (gather_single upstream i symbols m !! sym).
Proof.
  revert i m k; induction symbols as [|s rest IH]; intros i m k Hk He;
    [discriminate|].
  destruct k as [|k]; simpl in *.
  - injection Hk as ->. rewrite Nat.add_0_r in He.
    apply gather_single_keeps. unfold fetch_single. rewrite He.
    rewrite lookup_insert_eq. eauto.
  - apply (IH _ _ k); [assumption|].
    now replace (S i + k)%nat with (i + S k)%nat by lia.
Qed.

(** C6.  A task for [sym] whose response reads stores an entry for [sym]
    in the map the batch returns; when the tasks for [sym] are all answered
    with that response, the ratio of the entry is the ratio read from it if
    that is finite, and exactly 9999.0 if it is infinite or NaN.  Conversely
    every entry of the map holds, as its ratio, the ratio read from the
    response of one of the tasks for its symbol, with 9999.0 in its place
    when that ratio is infinite or NaN; the stored ratio is always finite. *)
Theorem sentinel_replaces_non_finite_ratio (now : float) (c : cache) upstream
    (symbols : list string) (sym : string) :
  ls_hit now c = false ->
  let result := fst (fetch_ls_ratio_batch now c upstream symbols) in
  (forall (k : nat) (resp : response) (d0 : json) (rest : list json)
          (raw long_acc short_acc : float),
     symbols !! k = Some sym ->
     upstream k sym = Ok resp ->
     status_code resp = 200 ->
     resp_json resp = Ok (JList (d0 :: rest)) ->
     float_field d0 "longShortRatio" = Ok raw ->
     float_field d0 "longAccount" = Ok long_acc ->
     float_field d0 "shortAccount" = Ok short_acc ->
     is_Some (result !! sym) /\
     ((forall k', symbols !! k' = Some sym -> upstream k' sym = Ok resp) ->
      exists e,
        result !! sym = Some e /\
        LS.ratio e = PFloat (if Float.is_inf raw || Float.is_nan raw
                             then Float.of_Z 9999 else raw) /\
        (Float.is_finite raw = true -> LS.ratio e = PFloat raw) /\
        (Float.is_finite raw = false -> LS.ratio e = PFloat (Float.of_Z 9999)))) /\
  (forall e : LS.t,
     result !! sym = Some e ->
     exists k resp d0 rest raw,
       symbols !! k = Some sym /\
       upstream k sym = Ok resp /\
       resp_json resp = Ok (JList (d0 :: rest)) /\
       float_field d0 "longShortRatio" = Ok raw /\
       LS.ratio e = PFloat (if Float.is_inf raw || Float.is_nan raw
                            then Float.of_Z 9999 else raw) /\
       (Float.is_finite raw = true -> LS.ratio e = PFloat raw) /\
       exists f, LS.ratio e = PFloat f /\ Float.is_finite f = true).
Proof.
  intros Hmiss. rewrite (fetch_ls_ratio_batch_miss _ _ _ _ Hmiss). simpl. split.
  - intros k resp d0 rest raw la sa Hk Hup Hs Hj Hraw Hla Hsa.
    pose proof (fetch_single_entry_reads _ _ _ _ _ _ Hs Hj Hraw Hla Hsa) as He.
    assert (Hst : is_Some (gather_single upstream 0 symbols ∅ !! sym)).
    { eapply (gather_single_stored upstream O symbols ∅ sym k); [exact Hk|].
      simpl. rewrite Hup. exact He. }
    split; [exact Hst|].
    intros Hall. destruct Hst as [e Hl]. exists e. split; [exact Hl|].
    apply gather_single_lookup in Hl as [Hl|(k' & Hk' & He')].
    { rewrite lookup_empty in Hl. discriminate. }
    simpl in He'. rewrite (Hall k' Hk'), He in He'. injection He' as <-. simpl.
    split; [reflexivity|]. unfold Float.is_finite. split.
    + intros Hf. apply negb_true_iff in Hf. rewrite orb_comm in Hf. now rewrite Hf.
    + intros Hf. apply negb_false_iff in Hf. rewrite orb_comm in Hf. now rewrite Hf.
  - intros e Hl. apply gather_single_lookup in Hl as [Hl|(k & Hk & He)].
    { rewrite lookup_empty in Hl. discriminate. }
    simpl in He.
    apply fetch_single_entry_some in He
      as (resp & d0 & rest & raw & la & sa & Hr & _ & Hj & Hraw & _ & _ & ->).
    exists k, resp, d0, rest, raw. simpl. repeat split; try assumption.
    + unfold Float.is_finite. intros Hf. apply negb_true_iff in Hf.
      rewrite orb_comm in Hf. now rewrite Hf.
    + destruct (Float.is_inf raw || Float.is_nan raw) eqn:Hnf.
      * eexists; split; [reflexivity|]. exact of_Z_9999_finite.
      * eexists; split; [reflexivity|]. unfold Float.is_finite.
        rewrite orb_comm, Hnf. reflexivity.
Qed.

(** C7.  When every task for [sym] meets an error, [sym] is absent from the
    map the batch returns, and the entry of every other symbol is the one the
    batch returns when the tasks for [sym] are answered in any other way. *)
Theorem per_symbol_error_is_swallowed (now : float) (c : cache) upstream upstream'
    (symbols : list string) (sym : string) :
  ls_hit now c = false ->
  (forall k, symbols !! k = Some sym -> symbol_error (upstream k sym)) ->
  (forall k s, s <> sym -> upstream' k s = upstream k s) ->
  fst (fetch_ls_ratio_batch now c upstream symbols) !! sym = None /\
  forall s, s <> sym ->
    fst (fetch_ls_ratio_batch now c upstream symbols) !! s
    = fst (fetch_ls_ratio_batch now c upstream' symbols) !! s.
Proof.
  intros Hmiss Herr Hsame.
  rewrite !(fetch_ls_ratio_batch_miss _ _ _ _ Hmiss). simpl. split.
  - destruct (gather_single upstream 0 symbols ∅ !! sym) as [e|] eqn:Hl; [|reflexivity].
    apply gather_single_lookup in Hl as [Hl|(k & Hk & He)].
    + rewrite lookup_empty in Hl. discriminate.
    + simpl in He. now apply symbol_error_no_entry in He; [|apply Herr].
  - intros s Hs. apply gather_single_agree; [|reflexivity].
    intros k. now apply Hsame.
Qed.

Lemma fetch_ls_ratio_batch_hit (now : float) (c : cache) upstream
    (symbols : list string) :
  ls_hit now c = true ->
  exists data ts,
    ls_ratio_batch c = Some (data, ts) /\
    fetch_ls_ratio_batch now c upstream symbols = (data, c).
Proof.
  unfold ls_hit, fetch_ls_ratio_batch.
  destruct (ls_ratio_batch c) as [[data ts]|]; [|discriminate].
  intros ->. eauto.
Qed.

(** The maps returned and cached hold finite ratios only, call after call. *)
Lemma gather_single_finite upstream (i : nat) (symbols : list string) m :
  finite_ratios m -> finite_ratios (gather_single upstream i symbols m).
Proof.
  intros Hm sym e Hl.
  apply gather_single_lookup in Hl as [Hl|(k & _ & He)]; [now apply (Hm sym)|].
  apply fetch_single_entry_some in He
    as (resp & d0 & rest & raw & la & sa & _ & _ & _ & _ & _ & _ & ->). simpl.
  destruct (Float.is_inf raw || Float.is_nan raw) eqn:Hnf.
  - eexists; split; [reflexivity|]. exact of_Z_9999_finite.
  - eexists; split; [reflexivity|]. unfold Float.is_finite.
    rewrite orb_comm, Hnf. reflexivity.
Qed.

Lemma fetch_ls_ratio_batch_finite (now : float) (c : cache) upstream
    (symbols : list string) :
  (forall data ts, ls_ratio_batch c = Some (data, ts) -> finite_ratios data) ->
  finite_ratios (fst (fetch_ls_ratio_batch now c upstream symbols)) /\
  (forall data ts,
     ls_ratio_batch (snd (fetch_ls_ratio_batch now c upstream symbols))
     = Some (data, ts) -> finite_ratios data).
Proof.
  intros Hc.
  assert (Hg : finite_ratios (gather_single upstream O symbols ∅)).
  { apply gather_single_finite. intros sym e Hl.
    rewrite lookup_empty in Hl. discriminate. }
  destruct (ls_hit now c) eqn:Hhit.
  - destruct (fetch_ls_ratio_batch_hit now c upstream symbols Hhit)
      as (data & ts & Hd & ->). simpl. split; [now apply (Hc data ts)|exact Hc].
  - rewrite (fetch_ls_ratio_batch_miss _ _ _ _ Hhit). simpl. split; [exact Hg|].
    destruct (bool_decide _); [exact Hc|]. simpl.
    intros data ts [= <- <-]. exact Hg.
Qed.

(** C10.  On a miss the batch writes the cache exactly when its map is not
    empty.  When every task fails the map is empty and the cache is the one
    the call started from, old entry and old timestamp included; a later call
    that finds this entry stale or missing issues its batch again, and one
    that finds it fresh is served the old entry: never an empty map written
    by the failed batch. *)
Theorem empty_batch_is_not_cached (now : float) (c : cache) upstream
    (symbols : list string) :
  ls_hit now c = false ->
  let result := fst (fetch_ls_ratio_batch now c upstream symbols) in
  let c' := snd (fetch_ls_ratio_batch now c upstream symbols) in
  (result <> ∅ -> c' = set_ls_ratio_batch c (result, now)) /\
  (result = ∅ -> c' = c) /\
  ((forall k sym, symbols !! k = Some sym -> symbol_error (upstream k sym)) ->
   result = ∅ /\ c' = c /\
   forall now' upstream' symbols',
     (ls_hit now' c = false ->
      fst (fetch_ls_ratio_batch now' c' upstream' symbols')
      = gather_single upstream' O symbols' ∅) /\
     (ls_hit now' c = true ->
      exists data ts,
        ls_ratio_batch c = Some (data, ts) /\
        fst (fetch_ls_ratio_batch now' c' upstream' symbols') = data)).
Proof.
  intros Hmiss. rewrite (fetch_ls_ratio_batch_miss _ _ _ _ Hmiss). simpl.
  split; [|split].
  - intros Hne. now rewrite bool_decide_eq_false_2.
  - intros ->. now rewrite bool_decide_eq_true_2.
  - intros Herr.
    rewrite (gather_single_all_error upstream O symbols ∅) by assumption.
    rewrite bool_decide_eq_true_2 by reflexivity.
    split; [reflexivity|]. split; [reflexivity|].
    intros now' upstream' symbols'. split.
    + intros Hmiss'. now rewrite (fetch_ls_ratio_batch_miss _ _ _ _ Hmiss').
    + intros Hhit'.
      destruct (fetch_ls_ratio_batch_hit now' c upstream' symbols' Hhit')
        as (data & ts & Hd & ->). eauto.
Qed.

End LongShortFacts.

(** ** The fear/greed index *)

Section FearGreedFacts.

Context `{PyBuiltins}.

Lemma fetch_fear_and_greed_miss (now : float) (c : cache) (resp : response)
    (data : json) (result : Fng.t) :
  fng_hit now c = false ->
  resp_json resp = Ok data ->
  fear_and_greed_result data = Ok result ->
  fetch_fear_and_greed now c (Ok resp) = (result, set_fear_and_greed c (result, now)).
Proof.
  unfold fng_hit, fetch_fear_and_greed. intros Hmiss Hj Hr. simpl.
  rewrite Hj. simpl. rewrite Hr.
  destruct (fear_and_greed c) as [[d ts]|]; [|reflexivity].
  now rewrite Hmiss.
Qed.

Lemma item_ok_in (data : json) (k : string) (v : json) :
  item data k = Ok v -> py_in k data = Ok true.
Proof.
  destruct data; simpl; try discriminate.
  destruct (assoc k kv) eqn:Ha; [|discriminate]. intros _.
  reflexivity.
Qed.

(** What the handler computes from a payload with its list of days. *)
Lemma fear_and_greed_result_days (data : json) (days : list json) :
  item data "data" = Ok (JList days) ->
  fear_and_greed_result data =
  match days with
  | d0 :: d1 :: _ =>
      let* v0 := item d0 "value" in
      let* val_today := py_int v0 in
      let* v1 := item d1 "value" in
      let* val_yesterday := py_int v1 in
      let* change := fng_change val_today val_yesterday in
      let* cls := item d0 "value_classification" in
      Ok {| Fng.value := val_today; Fng.classification := cls;
            Fng.change24h := change |}
  | [d0] =>
      let* v0 := item d0 "value" in
      let* val := py_int v0 in
      let* cls := item d0 "value_classification" in
      Ok {| Fng.value := val; Fng.classification := cls;
            Fng.change24h := Float.zero |}
  | [] => Ok Fng.neutral
  end.
Proof.
  intros Hi. unfold fear_and_greed_result.
  rewrite (item_ok_in _ _ _ Hi). simpl. rewrite Hi. simpl.
  destruct days as [|d0 [|d1 rest]]; try reflexivity.
  replace (2 <=? Z.of_nat (List.length (d0 :: d1 :: rest))) with true; [reflexivity|].
  symmetry. apply Z.leb_le. rewrite !length_cons. lia.
Qed.

(** On index values the quotient of the change is a double. *)
Lemma int_truediv_index (a b : Z) :
  -100 <= a <= 100 -> 1 <= b <= 100 -> exists q, int_truediv a b = Ok q.
Proof.
  intros Ha Hb.
  assert (Hall : forallb
                   (fun x => forallb (fun y => is_ok (int_truediv x y))
                                     (List.map (fun n => Z.of_nat n + 1) (seq 0 100)))
                   (List.map (fun n => Z.of_nat n - 100) (seq 0 201)) = true)
    by (vm_compute; reflexivity).
  rewrite forallb_forall in Hall.
  assert (Hina : In a (List.map (fun n => Z.of_nat n - 100) (seq 0 201))).
  { apply in_map_iff. exists (Z.to_nat (a + 100)). split; [lia|].
    apply in_seq. lia. }
  specialize (Hall a Hina). rewrite forallb_forall in Hall.
  assert (Hinb : In b (List.map (fun n => Z.of_nat n + 1) (seq 0 100))).
  { apply in_map_iff. exists (Z.to_nat (b - 1)). split; [lia|].
    apply in_seq. lia. }
  specialize (Hall b Hinb).
  destruct (int_truediv a b) as [q|e]; [eauto|discriminate].
Qed.

(** On index values the guard [> 0] of the handler is the guard [<> 0]. *)
Lemma fng_change_index (today yesterday : Z) :
  index_value today -> index_value yesterday ->
  fng_change today yesterday = change_as_specified today yesterday /\
  exists change, fng_change today yesterday = Ok change.
Proof.
  unfold index_value, fng_change, change_as_specified. intros Ht Hy.
  destruct (Z.eq_dec yesterday 0) as [->|Hne].
  - simpl. eauto.
  - replace (0 <? yesterday) with true by (symmetry; apply Z.ltb_lt; lia).
    replace (yesterday =? 0) with false by (symmetry; apply Z.eqb_neq; lia).
    split; [reflexivity|].
    destruct (int_truediv_index (today - yesterday) yesterday) as [q ->];
      [lia|lia|]. simpl. eauto.
Qed.

(** C8.  On a refresh whose payload lists at least two days, with today's
    and yesterday's values values of the index (0 to 100), the change is
    [(today - yesterday) / yesterday * 100] when yesterday's value is not
    zero and 0.0 when it is zero.  Whatever the two integers are, the guard
    of the handler is [yesterday > 0]: the quotient for a positive value, 0.0
    for zero and below.  With one day only the change is 0.0; with no day the
    neutral default is returned. *)
Theorem fear_greed_change (now : float) (c : cache) (resp : response)
    (data : json) (days : list json) :
  fng_hit now c = false ->
  resp_json resp = Ok data ->
  item data "data" = Ok (JList days) ->
  let result := fst (fetch_fear_and_greed now c (Ok resp)) in
  match days with
  | d0 :: d1 :: _ =>
      forall (v0 v1 cls : json) (today yesterday : Z),
        item d0 "value" = Ok v0 -> py_int v0 = Ok today ->
        item d1 "value" = Ok v1 -> py_int v1 = Ok yesterday ->
        item d0 "value_classification" = Ok cls ->
        (index_value today -> index_value yesterday ->
         Fng.value result = today /\
         Ok (Fng.change24h result) = change_as_specified today yesterday /\
         (yesterday = 0 -> Fng.change24h result = Float.zero) /\
         (yesterday <> 0 ->
          exists q, int_truediv (today - yesterday) yesterday = Ok q /\
                    Fng.change24h result = Float.mul q (Float.of_Z 100))) /\
        (0 < yesterday ->
         forall q, int_truediv (today - yesterday) yesterday = Ok q ->
           Fng.value result = today /\
           Fng.change24h result = Float.mul q (Float.of_Z 100)) /\
        (yesterday <= 0 ->
           Fng.value result = today /\ Fng.change24h result = Float.zero)
  | [d0] =>
      forall (v0 cls : json) (val : Z),
        item d0 "value" = Ok v0 -> py_int v0 = Ok val ->
        item d0 "value_classification" = Ok cls ->
        Fng.value result = val /\ Fng.change24h result = Float.zero
  | [] => result = Fng.neutral
  end.
Proof.
  intros Hmiss Hj Hd. pose proof (fear_and_greed_result_days data days Hd) as Hr.
  destruct days as [|d0 [|d1 rest]].
  - simpl. now rewrite (fetch_fear_and_greed_miss now c resp data _ Hmiss Hj Hr).
  - simpl. intros v0 cls val Hv0 Hval Hcls.
    rewrite Hv0 in Hr; simpl in Hr. rewrite Hval in Hr; simpl in Hr.
    rewrite Hcls in Hr; simpl in Hr.
    now rewrite (fetch_fear_and_greed_miss now c resp data _ Hmiss Hj Hr).
  - simpl. intros v0 v1 cls today yesterday Hv0 Ht Hv1 Hy Hcls.
    rewrite Hv0 in Hr; simpl in Hr. rewrite Ht in Hr; simpl in Hr.
    rewrite Hv1 in Hr; simpl in Hr. rewrite Hy in Hr; simpl in Hr.
    split; [|split].
    + intros Rt Ry.
      destruct (fng_change_index today yesterday Rt Ry) as [Hspec [change Hc]].
      rewrite <- Hspec, Hc.
      rewrite Hc in Hr; simpl in Hr. rewrite Hcls in Hr; simpl in Hr.
      rewrite (fetch_fear_and_greed_miss now c resp data _ Hmiss Hj Hr). simpl.
      split; [reflexivity|]. split; [reflexivity|].
      unfold fng_change in Hc. split.
      * intros ->. simpl in Hc. now injection Hc.
      * intros Hne. unfold index_value in Ry.
        replace (0 <? yesterday) with true in Hc by (symmetry; apply Z.ltb_lt; lia).
        destruct (int_truediv (today - yesterday) yesterday) as [q|e];
          [|discriminate].
        simpl in Hc. injection Hc as <-. eauto.
    + intros Hpos q Hq. unfold fng_change in Hr.
      replace (0 <? yesterday) with true in Hr by (symmetry; now apply Z.ltb_lt).
      rewrite Hq in Hr; simpl in Hr. rewrite Hcls in Hr; simpl in Hr.
      now rewrite (fetch_fear_and_greed_miss now c resp data _ Hmiss Hj Hr).
    + intros Hneg. unfold fng_change in Hr.
      replace (0 <? yesterday) with false in Hr by (symmetry; now apply Z.ltb_ge).
      simpl in Hr. rewrite Hcls in Hr; simpl in Hr.
      now rewrite (fetch_fear_and_greed_miss now c resp data _ Hmiss Hj Hr).
Qed.

End FearGreedFacts.

(** ** The heuristic backtest *)

Section BacktestFacts.

Context `{PyBuiltins}.

(** [max(lo, min(x, hi))] clamps [x] to [lo .. hi] when [lo < hi]. *)
Lemma py_max_min_clamped (lo hi x : float) :
  Float.ltb lo hi = true ->
  clamped lo hi x (py_max lo (py_min x hi)).
Proof.
  intros Hlh. unfold clamped, py_max, py_min, Float.gtb. repeat split.
  - intros Hx.
    assert (Hhx : Float.ltb hi x = false).
    { destruct (Float.ltb hi x) eqn:E; [|reflexivity].
      pose proof (FloatFacts.ltb_trans _ _ _ E Hx) as Hhl.
      apply FloatFacts.ltb_asym in Hhl. congruence. }
    rewrite Hhx. now rewrite (FloatFacts.ltb_asym _ _ Hx).
  - intros Hx. rewrite Hx. now rewrite Hlh.
  - intros Hlo Hhi. rewrite (FloatFacts.leb_ltb_false _ _ Hhi).
    destruct (Float.ltb lo x) eqn:E.
    + apply FloatFacts.eqb_refl. now apply FloatFacts.leb_not_nan in Hlo.
    + now apply FloatFacts.leb_not_ltb_eqb.
Qed.

Lemma backtest_bounds : Float.ltb f_neg80 f_450 = true.
Proof. reflexivity. Qed.

(** The entries of [unique_coins] are entries of [filtered_data]. *)
Lemma unique_update_In (base_coin : string) (t : json)
    (u u' : list (string * json)) (x : string * json) :
  unique_update base_coin t u = Ok u' -> In x u' -> In x u \/ x = (base_coin, t).
Proof.
  revert u'; induction u as [|[b t0] rest IH]; simpl; intros u' Hu Hx.
  - injection Hu as <-. destruct Hx as [<-|[]]. now right.
  - destruct (String.eqb b base_coin) eqn:Hb.
    + apply String.eqb_eq in Hb as ->.
      bind_inv Hu. bind_inv Hu. injection Hu as <-.
      destruct (Float.gtb x0 x1); [|now left].
      destruct Hx as [<-|Hx]; [now right|left; now right].
    + bind_inv Hu. injection Hu as <-.
      destruct Hx as [<-|Hx]; [left; now left|].
      destruct (IH _ Hx0 Hx) as [Hin | ->]; [left; now right|now right].
Qed.

Lemma unique_loop_In (filtered_data u u' : list (string * json)) (x : string * json) :
  unique_loop filtered_data u = Ok u' -> In x u' -> In x u \/ In x filtered_data.
Proof.
  revert u; induction filtered_data as [|[b t] rest IH]; simpl; intros u Hu Hx.
  - injection Hu as <-. now left.
  - bind_inv Hu. destruct (IH _ Hu Hx) as [Hin|Hin]; [|right; now right].
    destruct (unique_update_In _ _ _ _ _ Hx0 Hin) as [Hin' | ->];
      [now left|right; now left].
Qed.

Lemma sorted_coins_In (u sorted : list (string * json)) (x : string * json) :
  sorted_coins u = Ok sorted -> In x sorted -> In x u.
Proof.
  unfold sorted_coins. intros Hs Hx. bind_inv Hs. injection Hs as <-.
  apply in_map_iff in Hx as ([k y] & <- & Hy). simpl.
  apply (Permutation_in _ (py_sort_perm Nat.ltb false _)) in Hy.
  now apply in_combine_r in Hy.
Qed.

Lemma filtered_entry_some (t t' : json) (base_coin : string) :
  filtered_entry t = Ok (Some (base_coin, t')) ->
  t' = t /\ in_list base_coin target_coins = true.
Proof.
  unfold filtered_entry. intros Hf. bind_inv Hf. bind_inv Hf.
  destruct (endswith "USDT" x0); [|discriminate].
  destruct (in_list _ target_coins) eqn:Hin; [|discriminate].
  injection Hf as <- <-. auto.
Qed.

(** Every row of the endpoint is the row of a ticker of the payload whose
    base coin is on the list. *)
Lemma backtest_results_rows (r : http_result) (results : list Backtest.t)
    (row : Backtest.t) :
  backtest_results r = Ok results -> In row results ->
  exists ts t base_coin k,
    payload_tickers r ts /\ In t ts /\
    filtered_entry t = Ok (Some (base_coin, t)) /\
    backtest_row k t = Ok row.
Proof.
  unfold backtest_results. intros Hr Hrow.
  bind_inv Hr. bind_inv Hr. bind_inv Hr. bind_inv Hr. bind_inv Hr. bind_inv Hr.
  rename x into resp, x0 into data, x1 into ts, x2 into filtered,
    x3 into unique_coins, x4 into sorted.
  apply mapM_enum_ok_Forall2 in Hr.
  destruct (Forall2_In_r _ _ _ _ Hr Hrow) as ([b t] & Hin & k & Hk). simpl in Hk.
  apply (sorted_coins_In _ _ _ Hx4) in Hin.
  destruct (unique_loop_In _ _ _ _ Hx3 Hin) as [[]|Hin'].
  apply list_elem_of_In, list_elem_of_omap in Hin' as (o & Ho & Hsome).
  simpl in Hsome. subst o.
  apply mapM_ok_Forall2 in Hx2.
  apply list_elem_of_In in Ho.
  destruct (Forall2_In_r _ _ _ _ Hx2 Ho) as (t0 & Ht0 & Hf).
  destruct (filtered_entry_some _ _ _ Hf) as [-> _].
  exists ts, t0, b, k. repeat split; try assumption.
  exists resp, data. auto.
Qed.

(** The endpoint answers with the computed rows or with none. *)
Lemma api_grid_backtest_results (r : http_result) :
  api_grid_backtest r = [] \/ backtest_results r = Ok (api_grid_backtest r).
Proof.
  unfold api_grid_backtest, json_response.
  destruct (backtest_results r) as [results|e]; simpl; [|now left].
  destruct (forallb renders results); [now right|now left].
Qed.

(** C9.  Each row of the backtest endpoint belongs to a ticker of the payload
    whose base coin is on the list, and its metrics are: volatility
    [(high - low) / low * 100] when [low > 0] and the integer 0 otherwise;
    base APR [volatility * 12]; long and short APR the base plus and minus
    [change * 15], clamped to [-80 .. 450] with both bounds included. *)
Theorem backtest_metrics (r : http_result) (row : Backtest.t) :
  In row (api_grid_backtest r) ->
  exists ts t base_coin high low change,
    payload_tickers r ts /\ In t ts /\
    filtered_entry t = Ok (Some (base_coin, t)) /\
    in_list base_coin target_coins = true /\
    float_field t "highPrice" = Ok high /\
    float_field t "lowPrice" = Ok low /\
    float_field t "priceChangePercent" = Ok change /\
    let spread := Float.mul (Float.div (Float.sub high low) low) (Float.of_Z 100) in
    let base_apr :=
      if Float.gtb low Float.zero then Float.mul spread (Float.of_Z 12)
      else Float.zero in
    Backtest.volatility row
      = (if Float.gtb low Float.zero then PFloat spread else PInt 0) /\
    Backtest.change24h row = change /\
    clamped f_neg80 f_450
      (Float.add base_apr (Float.mul change (Float.of_Z 15)))
      (Backtest.long_apr row) /\
    clamped f_neg80 f_450
      (Float.sub base_apr (Float.mul change (Float.of_Z 15)))
      (Backtest.short_apr row).
Proof.
  intros Hrow.
  destruct (api_grid_backtest_results r) as [Hnil|Hr];
    [rewrite Hnil in Hrow; destruct Hrow|].
  destruct (backtest_results_rows _ _ _ Hr Hrow)
    as (ts & t & base_coin & k & Hts & Hin & Hf & Hk).
  unfold backtest_row in Hk.
  bind_inv Hk. bind_inv Hk. bind_inv Hk. bind_inv Hk. bind_inv Hk. bind_inv Hk.
  injection Hk as <-. simpl.
  exists ts, t, base_coin, x0, x1, x2.
  repeat split; try assumption; try apply (filtered_entry_some _ _ _ Hf);
    destruct (Float.gtb x1 Float.zero); try reflexivity;
    apply py_max_min_clamped, backtest_bounds.
Qed.

End BacktestFacts.

(** ** The snapshot: failures *)

Section SnapshotFailure.

Context `{PyBuiltins}.

Lemma fetch_ls_ratio_batch_tickers (now : float) (c : cache)
    (upstream : nat -> string -> http_result) (symbols : list string) :
  binance_tickers_100 (snd (fetch_ls_ratio_batch now c upstream symbols))
  = binance_tickers_100 c.
Proof.
  unfold fetch_ls_ratio_batch.
  destruct (ls_ratio_batch c) as [[data ts]|]; [destruct (fresh now ts 300)|];
    simpl; try reflexivity;
    destruct (bool_decide _); reflexivity.
Qed.

(** A cycle that raises leaves the cached snapshot as it was. *)
Lemma refresh_cycle_raise (now : float) (c c1 : cache) (u : upstream) (e : exn) :
  refresh_cycle now c u = (Raise e, c1) ->
  binance_tickers_100 c1 = binance_tickers_100 c.
Proof.
  unfold refresh_cycle.
  destruct (join_cycle u) as [j|e0]; [|now intros [= _ <-]].
  destruct (mapM symbol_of _) as [fetch_symbols|e0]; [|now intros [= _ <-]].
  pose proof (fetch_ls_ratio_batch_tickers (ls_now u) c (ls_upstream u) fetch_symbols)
    as Hk.
  destruct (fetch_ls_ratio_batch (ls_now u) c (ls_upstream u) fetch_symbols) as [ls c2].
  simpl in Hk.
  destruct (finish_cycle now j ls) as [final|e0]; [discriminate|].
  now intros [= _ <-].
Qed.

Lemma fetch_binance_tickers_raise (now : float) (c c1 : cache) (u : upstream) (e : exn) :
  refresh_cycle now c u = (Raise e, c1) ->
  fst (fetch_binance_tickers now c u) = cached_or_default c /\
  binance_tickers_100 (snd (fetch_binance_tickers now c u)) = binance_tickers_100 c.
Proof.
  intros Hr. pose proof (refresh_cycle_raise _ _ _ _ _ Hr) as Hk.
  unfold fetch_binance_tickers. rewrite Hr. unfold cached_or_default. rewrite Hk.
  destruct (binance_tickers_100 c) as [s|] eqn:Hc; simpl; rewrite ?Hc; [|auto].
  destruct (fresh now (Snapshot.ts s) _cache_ttl); simpl; rewrite ?Hc; auto.
Qed.

(** C1.  When the refresh cycle raises, whatever the exception and wherever
    in the cycle, the caller gets the snapshot that was cached before the
    call, and the cache still holds it; with nothing cached the handler
    returns its empty default and the response carries empty [data] and
    [other], total volume 0 and volume change 0.0. *)
Theorem failed_cycle_serves_cached_snapshot (now : float) (c c1 : cache)
    (u : upstream) (e : exn) :
  refresh_cycle now c u = (Raise e, c1) ->
  let data_dict := fst (fetch_binance_tickers now c u) in
  let content := fst (api_binance_tickers now c u) in
  binance_tickers_100 (snd (fetch_binance_tickers now c u)) = binance_tickers_100 c /\
  binance_tickers_100 (snd (api_binance_tickers now c u)) = binance_tickers_100 c /\
  match binance_tickers_100 c with
  | Some s =>
      data_dict = Snap s /\
      content = {| exchange := "Binance";
                   content_data := Snapshot.data s;
                   content_other := Snapshot.other s;
                   content_total_volume := Snapshot.total_volume s;
                   content_volume_change := Snapshot.volume_change s |}
  | None =>
      data_dict = DefaultDict /\
      content = {| exchange := "Binance";
                   content_data := [];
                   content_other := [];
                   content_total_volume := PInt 0;
                   content_volume_change := Float.zero |}
  end.
Proof.
  intros Hr. destruct (fetch_binance_tickers_raise _ _ _ _ _ Hr) as [Hd Hc].
  unfold api_binance_tickers.
  destruct (fetch_binance_tickers now c u) as [d c'] eqn:Hf. simpl in *.
  unfold cached_or_default in Hd.
  repeat split; try assumption;
    destruct (binance_tickers_100 c) as [s|]; subst d; auto.
Qed.


Lemma refresh_cycle_ok (now : float) (c c' : cache) (u : upstream) (s : Snapshot.t) :
  refresh_cycle now c u = (Ok s, c') ->
  exists j ls_ratios,
    join_cycle u = Ok j /\ finish_cycle now j ls_ratios = Ok s /\
    binance_tickers_100 c' = Some s.
Proof.
  unfold refresh_cycle.
  destruct (join_cycle u) as [j|e0]; [|discriminate].
  destruct (mapM symbol_of _) as [fetch_symbols|e0]; [|discriminate].
  destruct (fetch_ls_ratio_batch (ls_now u) c (ls_upstream u) fetch_symbols) as [ls c2].
  destruct (finish_cycle now j ls) as [final|e0] eqn:Hf; [|discriminate].
  intros [= <- <-]. exists j, ls. auto.
Qed.




End SnapshotFailure.

(** ** The snapshot: filter, classification, order *)

Section SnapshotFacts.

Context `{PyBuiltins}.

#[local] Arguments Float.of_Z : simpl never.
#[local] Arguments Float.ltb : simpl never.
#[local] Arguments Float.eqb : simpl never.

Implicit Types (fm : gmap string json) (t : json) (ts : list json).

Lemma endswith_spec (suffix s : string) :
  endswith suffix s = true <-> exists base, s = String.append base suffix.
Proof.
  split.
  - induction s as [|ch s IH]; cbn [endswith]; intros He;
      apply orb_true_iff in He as [He|He]; try discriminate.
    + apply String.eqb_eq in He as <-. now exists "".
    + apply String.eqb_eq in He as <-. now exists "".
    + destruct (IH He) as [base ->]. now exists (String ch base).
  - intros [base ->]. induction base as [|ch base IH].
    + change (String.append "" suffix) with suffix.
      destruct suffix; cbn [endswith]; now rewrite String.eqb_refl.
    + change (String.append (String ch base) suffix)
        with (String ch (String.append base suffix)).
      cbn [endswith]. rewrite IH. apply orb_true_r.
Qed.

Lemma payload_tickers_fun (r : http_result) ts ts' :
  payload_tickers r ts -> payload_tickers r ts' -> ts' = ts.
Proof.
  intros (resp & data & -> & Hj & Hi) (resp' & data' & [= <-] & Hj' & Hi').
  congruence.
Qed.

(** The steps of [join_cycle] that the filter and the sort depend on. *)
Lemma join_cycle_inv (u : upstream) (j : joined) :
  join_cycle u = Ok j ->
  exists ts items buckets,
    payload_tickers (resp_ticker u) ts /\
    payload_tickers (resp_funding u) items /\
    funding_map_of items ∅ = Ok (funding_map j) /\
    mapM (classify (funding_map j)) ts = Ok buckets /\
    sort_by Float.ltb change_key true (select is_main (combine buckets ts))
      = Ok (top100 j) /\
    sort_by Float.ltb change_key true (select is_other (combine buckets ts))
      = Ok (other_top100 j).
Proof.
  unfold join_cycle. intros Hj.
  destruct (resp_ticker u) as [r1|] eqn:E1; [|discriminate].
  destruct (resp_funding u) as [r2|] eqn:E2; [|discriminate].
  destruct (resp_info u) as [r3|]; [|discriminate].
  destruct (resp_klines u) as [r4|]; [|discriminate].
  simpl in Hj. do 12 bind_inv Hj. injection Hj as <-. simpl.
  exists x7, x4, x8. unfold payload_tickers.
  repeat split; try assumption; eauto.
Qed.

Lemma select_filter fm (want : bucket -> bool) ts (buckets : list bucket) :
  Forall2 (fun t b => classify fm t = Ok b) ts buckets ->
  select want (combine buckets ts) = List.filter (in_bucket fm want) ts.
Proof.
  unfold select, in_bucket.
  induction 1 as [|t b ts buckets Hc _ IH]; simpl; [reflexivity|].
  rewrite Hc. destruct (want b); simpl; now rewrite IH.
Qed.

Lemma sort_by_inv {K : Type} (lt : K -> K -> bool) (key : json -> result K)
    (reverse : bool) (l l' : list json) :
  sort_by lt key reverse l = Ok l' ->
  exists ks, mapM key l = Ok ks /\
             l' = List.map snd (py_sort lt reverse (combine ks l)).
Proof.
  unfold sort_by. intros Hs. bind_inv Hs. injection Hs as <-. eauto.
Qed.

Lemma sort_by_In {K : Type} (lt : K -> K -> bool) (key : json -> result K)
    (reverse : bool) (l l' : list json) t :
  sort_by lt key reverse l = Ok l' -> In t l' <-> In t l.
Proof.
  intros Hs. apply sort_by_inv in Hs as (ks & Hk & ->).
  apply mapM_ok_length in Hk.
  assert (Hp : Permutation (List.map snd (py_sort lt reverse (combine ks l))) l).
  { rewrite (py_sort_perm lt reverse (combine ks l)).
    clear -Hk. revert ks Hk; induction l as [|a l IH]; intros [|k ks] Hk;
      simpl in *; try discriminate; [reflexivity|].
    constructor. apply IH. congruence. }
  split; apply Permutation_in; [exact Hp|symmetry; exact Hp].
Qed.

(** What the filter loop decides for one ticker. *)
Lemma classify_kept fm t (b : bucket) :
  classify fm t = Ok b ->
  (is_main b || is_other b = true <-> eligible fm t) /\
  (is_main b || is_other b = true ->
   exists rate, funding_rate_of fm t rate /\
                (is_other b = true <-> Float.eqb rate Float.zero = true)).
Proof.
  unfold classify, eligible, funding_rate_of. intros Hc.
  bind_inv Hc. bind_inv Hc. rename x into v, x0 into sym.
  destruct v; simpl in Hx0; try discriminate. injection Hx0 as ->.
  destruct (endswith "USDT" sym) eqn:Hend.
  2:{ injection Hc as <-. simpl. split; [split; [discriminate|]|discriminate].
      intros (sym' & vol & f_info & nft & Hs & Hb & _).
      rewrite Hx in Hs. injection Hs as <-.
      apply endswith_spec in Hb. congruence. }
  bind_inv Hc. rename x into vol.
  unfold Float.gtb in Hc.
  destruct (Float.ltb (Float.of_Z 1000000) vol) eqn:Hvol.
  2:{ injection Hc as <-. simpl. split; [split; [discriminate|]|discriminate].
      intros (sym' & vol' & f_info & nft & Hs & _ & Hv & Hgt & _).
      rewrite Hx in Hs. injection Hs as <-. congruence. }
  bind_inv Hc. bind_inv Hc. rename x into nft, x0 into live.
  destruct live.
  2:{ injection Hc as <-. simpl. split; [split; [discriminate|]|discriminate].
      intros (sym' & vol' & f_info & nft' & Hs & _ & _ & _ & Hf & Hn & Hl).
      rewrite Hx in Hs. injection Hs as <-. rewrite Hf in Hx1. simpl in Hx1.
      congruence. }
  bind_inv Hc. rename x into rate.
  destruct (fm !! sym) as [f_info|] eqn:Hfm; simpl in *.
  2:{ injection Hx1 as <-. discriminate. }
  assert (He : eligible fm t).
  { exists sym, vol, f_info, nft. repeat split; try assumption.
    now apply endswith_spec. }
  destruct (Float.eqb rate Float.zero) eqn:Hr; injection Hc as <-; simpl;
    (split; [split; auto|]); intros _; exists rate;
    (split; [exists sym, f_info; auto|]); rewrite Hr; split; congruence.
Qed.

Lemma finish_cycle_rows (now : float) (j : joined) (ls_ratios : gmap string LS.t)
    (s : Snapshot.t) :
  finish_cycle now j ls_ratios = Ok s ->
  Forall2 (row_of j) (top100 j) (Snapshot.data s) /\
  Forall2 (row_of j) (other_top100 j) (Snapshot.other s).
Proof.
  unfold finish_cycle, map_result. intros Hf. do 3 bind_inv Hf.
  injection Hf as <-. simpl.
  apply mapM_enum_ok_Forall2 in Hx, Hx0.
  split; eapply Forall2_impl; eauto; intros t r [i Hi]; exists ls_ratios, i; exact Hi.
Qed.

(** What a row says of its ticker. *)
Lemma row_of_fields (j : joined) t (r : Row.t) :
  row_of j t r ->
  change_key t = Ok (Row.change24h r) /\
  exists sym,
    get t "symbol" (JStr "") = Ok (JStr sym) /\
    Row.symbol r = replace "USDT" "/USDT" sym /\
    float_field (default (JObj []) (funding_map j !! sym)) "lastFundingRate"
      = Ok (Row.fundingRate r).
Proof.
  intros (ls & i & Hr). unfold map_row in Hr.
  bind_inv Hr. bind_inv Hr. rename x into v, x0 into sym.
  destruct v; simpl in Hx0; try discriminate. injection Hx0 as ->.
  do 10 bind_inv Hr. injection Hr as <-. simpl.
  split; [assumption|]. exists sym. auto.
Qed.

Lemma funding_map_of_lookup (items : list json) (m m' : gmap string json)
    (sym : string) (f_info : json) :
  funding_map_of items m = Ok m' -> m' !! sym = Some f_info ->
  m !! sym = Some f_info \/
  (In f_info items /\ item f_info "symbol" = Ok (JStr sym)).
Proof.
  revert m; induction items as [|it rest IH]; simpl; intros m Hm Hl.
  - injection Hm as <-. now left.
  - bind_as Hm has Hhas. destruct has.
    + bind_as Hm k Hk. bind_as Hm key Hkey.
      destruct (IH _ Hm Hl) as [Hin|[Hin Hit]]; [|right; split; [now right|assumption]].
      destruct key as [s|]; [|now left].
      destruct (decide (s = sym)) as [->|Hne].
      * rewrite lookup_insert_eq in Hin. injection Hin as ->.
        right. split; [now left|].
        destruct k; simpl in Hkey; try discriminate. now injection Hkey as ->.
      * rewrite lookup_insert_ne in Hin by assumption. now left.
    + destruct (IH _ Hm Hl) as [Hin|[Hin Hk]]; [now left|].
      right. split; [now right|assumption].
Qed.

(** The tickers kept are those of the two sorted lists. *)
Lemma kept_tickers fm ts (buckets : list bucket) (main other : list json) t :
  mapM (classify fm) ts = Ok buckets ->
  sort_by Float.ltb change_key true (select is_main (combine buckets ts)) = Ok main ->
  sort_by Float.ltb change_key true (select is_other (combine buckets ts)) = Ok other ->
  (In t main <-> In t ts /\ in_bucket fm is_main t = true) /\
  (In t other <-> In t ts /\ in_bucket fm is_other t = true).
Proof.
  intros Hb Hm Ho. apply mapM_ok_Forall2 in Hb.
  rewrite (select_filter fm is_main _ _ Hb) in Hm.
  rewrite (select_filter fm is_other _ _ Hb) in Ho.
  rewrite (sort_by_In _ _ _ _ _ t Hm), (sort_by_In _ _ _ _ _ t Ho).
  rewrite !filter_In. tauto.
Qed.

Lemma in_bucket_kept fm t :
  in_bucket fm is_main t = true \/ in_bucket fm is_other t = true ->
  eligible fm t.
Proof.
  unfold in_bucket. destruct (classify fm t) as [b|e] eqn:Hc.
  - destruct (classify_kept _ _ _ Hc) as [Hk _]. intros Hb. apply Hk.
    apply orb_true_iff. exact Hb.
  - intros [|]; discriminate.
Qed.

Lemma mapM_total {A B : Type} (f : A -> result B) (l : list A) :
  (forall x, In x l -> exists y, f x = Ok y) -> exists l', mapM f l = Ok l'.
Proof.
  induction l as [|x l IH]; intros Hf; simpl; [eauto|].
  destruct (Hf x) as [y Hy]; [now left|]. rewrite Hy. simpl.
  destruct IH as [l' Hl']; [intros z Hz; apply Hf; now right|].
  rewrite Hl'. simpl. eauto.
Qed.

(** The tickers the filter keeps have a string under ["symbol"]: building
    [fetch_symbols] does not raise. *)
Lemma kept_symbol fm t (b : bucket) :
  classify fm t = Ok b -> is_main b || is_other b = true ->
  exists sym, symbol_of t = Ok sym.
Proof.
  intros Hc Hb. destruct (classify_kept _ _ _ Hc) as [Hk _].
  apply Hk in Hb as (sym & _ & _ & _ & Hs & [base ->] & _).
  exists (String.append base "USDT"). unfold symbol_of.
  destruct t; simpl in *; try discriminate.
  destruct (assoc "symbol" kv) as [v|]; simpl in *.
  - injection Hs as ->. reflexivity.
  - injection Hs as Hs. destruct base; discriminate.
Qed.

Lemma fetch_symbols_total (u : upstream) (j : joined) :
  join_cycle u = Ok j ->
  exists fetch_symbols,
    mapM symbol_of (top100 j ++ other_top100 j)%list = Ok fetch_symbols.
Proof.
  intros Hj.
  destruct (join_cycle_inv _ _ Hj)
    as (ts & items & buckets & Hts & Hit & Hfm & Hb & Hm & Ho).
  apply mapM_total. intros t Hin. apply in_app_or in Hin.
  destruct (kept_tickers _ _ _ _ _ t Hb Hm Ho) as [Km Ko].
  assert (Hbk : in_bucket (funding_map j) is_main t = true
                \/ in_bucket (funding_map j) is_other t = true).
  { destruct Hin as [Hin|Hin]; [apply Km in Hin|apply Ko in Hin]; tauto. }
  unfold in_bucket in Hbk.
  destruct (classify (funding_map j) t) as [b|] eqn:Hc.
  - apply (kept_symbol _ _ _ Hc). now apply orb_true_iff.
  - destruct Hbk; discriminate.
Qed.

Lemma Forall2_app_In_r {A B : Type} (P : A -> B -> Prop) (l1 l2 : list A)
    (r1 r2 : list B) (y : B) :
  Forall2 P l1 r1 -> Forall2 P l2 r2 -> In y (r1 ++ r2)%list ->
  exists x, In x (l1 ++ l2)%list /\ P x y.
Proof.
  intros H1 H2 Hy. apply in_app_or in Hy as [Hy|Hy].
  - destruct (Forall2_In_r _ _ _ _ H1 Hy) as (x & Hx & HP).
    exists x. split; [apply in_or_app; now left|assumption].
  - destruct (Forall2_In_r _ _ _ _ H2 Hy) as (x & Hx & HP).
    exists x. split; [apply in_or_app; now right|assumption].
Qed.

Lemma Forall2_app_In_l {A B : Type} (P : A -> B -> Prop) (l1 l2 : list A)
    (r1 r2 : list B) (x : A) :
  Forall2 P l1 r1 -> Forall2 P l2 r2 -> In x (l1 ++ l2)%list ->
  exists y, In y (r1 ++ r2)%list /\ P x y.
Proof.
  intros H1 H2 Hx. apply in_app_or in Hx as [Hx|Hx].
  - destruct (Forall2_In_l _ _ _ _ H1 Hx) as (y & Hy & HP).
    exists y. split; [apply in_or_app; now left|assumption].
  - destruct (Forall2_In_l _ _ _ _ H2 Hx) as (y & Hy & HP).
    exists y. split; [apply in_or_app; now right|assumption].
Qed.

(** C3.  In a snapshot the cycle produces, the rows of [data] and [other]
    are the rows of the tickers of the two sorted lists, and a ticker is in
    one of these lists exactly when it is a ticker of the payload that is
    eligible: symbol ending with "USDT", quote volume above 1,000,000,
    funding record with [nextFundingTime > 0].  So every row shows the symbol
    of an eligible ticker of the payload, every eligible ticker of the
    payload has a row showing its symbol, and a ticker that is not eligible
    has no row.  The funding record of a symbol is an item of the funding
    payload that carries this symbol. *)
Theorem only_eligible_tickers_appear (now : float) (c c' : cache) (u : upstream)
    (s : Snapshot.t) (j : joined) ts :
  refresh_cycle now c u = (Ok s, c') ->
  join_cycle u = Ok j ->
  payload_tickers (resp_ticker u) ts ->
  Forall2 (row_of j) (top100 j) (Snapshot.data s) /\
  Forall2 (row_of j) (other_top100 j) (Snapshot.other s) /\
  (forall t, In t (top100 j ++ other_top100 j)%list
             <-> In t ts /\ eligible (funding_map j) t) /\
  (forall r, In r (Snapshot.data s ++ Snapshot.other s)%list ->
     exists t sym,
       In t ts /\ eligible (funding_map j) t /\ row_of j t r /\
       get t "symbol" (JStr "") = Ok (JStr sym) /\
       Row.symbol r = replace "USDT" "/USDT" sym) /\
  (forall t, In t ts -> eligible (funding_map j) t ->
     exists r sym,
       In r (Snapshot.data s ++ Snapshot.other s)%list /\ row_of j t r /\
       get t "symbol" (JStr "") = Ok (JStr sym) /\
       Row.symbol r = replace "USDT" "/USDT" sym) /\
  exists items,
    payload_tickers (resp_funding u) items /\
    forall sym f_info,
      funding_map j !! sym = Some f_info ->
      In f_info items /\ item f_info "symbol" = Ok (JStr sym).
Proof.
  intros Hr Hj Hts.
  destruct (refresh_cycle_ok _ _ _ _ _ Hr) as (j' & ls & Hj' & Hf & _).
  rewrite Hj in Hj'. injection Hj' as <-.
  destruct (finish_cycle_rows _ _ _ _ Hf) as [Hmain Hother].
  destruct (join_cycle_inv _ _ Hj) as (ts' & items & buckets & Hts' & Hit & Hfm & Hb & Hm & Ho).
  rewrite (payload_tickers_fun _ _ _ Hts Hts') in *. clear Hts'.
  assert (Hiff : forall t, In t (top100 j ++ other_top100 j)%list
                           <-> In t ts /\ eligible (funding_map j) t).
  { intros t. destruct (kept_tickers _ _ _ _ _ t Hb Hm Ho) as [Km Ko]. split.
    - intros Hin. apply in_app_or in Hin. split.
      + destruct Hin as [Hin|Hin]; [apply Km in Hin|apply Ko in Hin]; tauto.
      + apply in_bucket_kept.
        destruct Hin as [Hin|Hin]; [apply Km in Hin|apply Ko in Hin]; tauto.
    - intros [Hin He]. apply in_or_app.
      apply mapM_ok_Forall2 in Hb.
      destruct (Forall2_In_l _ _ _ _ Hb Hin) as (b & _ & Hc).
      destruct (classify_kept _ _ _ Hc) as [Hk _].
      apply Hk, orb_true_iff in He.
      unfold in_bucket in Km, Ko. rewrite Hc in Km, Ko. tauto. }
  split; [assumption|]. split; [assumption|]. split; [exact Hiff|].
  split; [|split].
  - intros r Hin.
    destruct (Forall2_app_In_r _ _ _ _ _ _ Hmain Hother Hin) as (t & Ht & Hrow).
    apply Hiff in Ht as [Ht He].
    destruct (row_of_fields _ _ _ Hrow) as (_ & sym & Hs & Hsym & _).
    exists t, sym. auto.
  - intros t Ht He.
    destruct (Forall2_app_In_l _ _ _ _ _ t Hmain Hother) as (r & Hin & Hrow).
    { apply Hiff. auto. }
    destruct (row_of_fields _ _ _ Hrow) as (_ & sym & Hs & Hsym & _).
    exists r, sym. auto.
  - exists items. split; [assumption|]. intros sym f_info Hl.
    destruct (funding_map_of_lookup _ _ _ _ _ Hfm Hl) as [Hl'|?]; [|assumption].
    rewrite lookup_empty in Hl'. discriminate.
Qed.

Lemma funding_rate_of_row (j : joined) t (r : Row.t) (rate : float) :
  row_of j t r -> funding_rate_of (funding_map j) t rate -> Row.fundingRate r = rate.
Proof.
  intros Hr (sym & f_info & Hs & Hf & Hrate).
  destruct (row_of_fields _ _ _ Hr) as (_ & sym' & Hs' & _ & Hrow).
  rewrite Hs in Hs'. injection Hs' as <-.
  rewrite Hf in Hrow. simpl in Hrow. congruence.
Qed.

(** C4.  An eligible ticker whose funding rate compares equal to 0.0 is in
    the [other] list and not in the main one; with any other rate it is in
    the main list and not in [other].  Hence every row of [other] has a rate
    equal to 0.0 and no row of [data] has. *)
Theorem zero_rate_is_other (now : float) (c c' : cache) (u : upstream)
    (s : Snapshot.t) (j : joined) ts :
  refresh_cycle now c u = (Ok s, c') ->
  join_cycle u = Ok j ->
  payload_tickers (resp_ticker u) ts ->
  (forall t, In t ts -> eligible (funding_map j) t ->
     exists rate,
       funding_rate_of (funding_map j) t rate /\
       (Float.eqb rate Float.zero = true ->
        In t (other_top100 j) /\ ~ In t (top100 j)) /\
       (Float.eqb rate Float.zero = false ->
        In t (top100 j) /\ ~ In t (other_top100 j))) /\
  Forall (fun r => Float.eqb (Row.fundingRate r) Float.zero = true) (Snapshot.other s) /\
  Forall (fun r => Float.eqb (Row.fundingRate r) Float.zero = false) (Snapshot.data s).
Proof.
  intros Hr Hj Hts.
  destruct (refresh_cycle_ok _ _ _ _ _ Hr) as (j' & ls & Hj' & Hf & _).
  rewrite Hj in Hj'. injection Hj' as <-.
  destruct (finish_cycle_rows _ _ _ _ Hf) as [Hmain Hother].
  destruct (join_cycle_inv _ _ Hj)
    as (ts' & items & buckets & Hts' & Hit & Hfm & Hb & Hm & Ho).
  rewrite (payload_tickers_fun _ _ _ Hts Hts') in *. clear Hts'.
  pose proof (mapM_ok_Forall2 _ _ _ Hb) as Hcl.
  assert (Hone : forall t, In t ts ->
            exists b, classify (funding_map j) t = Ok b /\
                      (In t (top100 j) <-> is_main b = true) /\
                      (In t (other_top100 j) <-> is_other b = true)).
  { intros t Hin. destruct (Forall2_In_l _ _ _ _ Hcl Hin) as (b & _ & Hc).
    destruct (kept_tickers _ _ _ _ _ t Hb Hm Ho) as [Km Ko].
    unfold in_bucket in Km, Ko. rewrite Hc in Km, Ko.
    exists b. tauto. }
  split; [|split].
  - intros t Hin He. destruct (Hone t Hin) as (b & Hc & Km & Ko).
    destruct (classify_kept _ _ _ Hc) as [Hk Hrate].
    apply Hk in He. destruct (Hrate He) as (rate & Hfr & Hiff).
    exists rate. split; [assumption|].
    rewrite Km, Ko. destruct b; simpl in *; try discriminate;
      split; intros Hz; split; try reflexivity; try discriminate;
      try (apply Hiff in Hz; discriminate);
      try (destruct Hiff as [Hiff _]; specialize (Hiff eq_refl); congruence).
  - apply List.Forall_forall. intros r Hin.
    destruct (Forall2_In_r _ _ _ _ Hother Hin) as (t & Ht & Hrow).
    destruct (kept_tickers _ _ _ _ _ t Hb Hm Ho) as [_ Ko].
    apply Ko in Ht as [Hts' Hbk]. unfold in_bucket in Hbk.
    destruct (classify (funding_map j) t) as [b|] eqn:Hc; [|discriminate].
    destruct (classify_kept _ _ _ Hc) as [_ Hrate].
    destruct Hrate as (rate & Hfr & Hiff); [rewrite Hbk; apply orb_true_r|].
    rewrite (funding_rate_of_row _ _ _ _ Hrow Hfr). now apply Hiff.
  - apply List.Forall_forall. intros r Hin.
    destruct (Forall2_In_r _ _ _ _ Hmain Hin) as (t & Ht & Hrow).
    destruct (kept_tickers _ _ _ _ _ t Hb Hm Ho) as [Km _].
    apply Km in Ht as [Hts' Hbk]. unfold in_bucket in Hbk.
    destruct (classify (funding_map j) t) as [b|] eqn:Hc; [|discriminate].
    destruct (classify_kept _ _ _ Hc) as [_ Hrate].
    destruct Hrate as (rate & Hfr & Hiff); [now rewrite Hbk|].
    rewrite (funding_rate_of_row _ _ _ _ Hrow Hfr).
    destruct (Float.eqb rate Float.zero); [|reflexivity].
    destruct Hiff as [_ Hiff]. specialize (Hiff eq_refl).
    destruct b; discriminate.
Qed.

Lemma combine_decorated (l : list json) (ks : list float) :
  mapM change_key l = Ok ks -> Forall decorated (combine ks l).
Proof.
  intros Hk. apply mapM_ok_Forall2 in Hk.
  induction Hk as [|t k l ks Htk _ IH]; simpl; constructor; assumption.
Qed.

Lemma decorated_keys (d : list (float * json)) (rows : list Row.t)
    (P : json -> Row.t -> Prop) :
  Forall decorated d ->
  Forall2 (fun t r => change_key t = Ok (Row.change24h r) /\ P t r)
          (List.map snd d) rows ->
  List.map fst d = List.map Row.change24h rows.
Proof.
  revert rows; induction d as [|[k t] d IH]; simpl; intros rows Hd HF;
    inversion HF as [|? r ? rows' [Hkey _] HF']; subst; [reflexivity|].
  inversion Hd as [|? ? Hx Hd']; subst. unfold decorated in Hx. simpl in *.
  f_equal; [congruence|]. now apply IH.
Qed.

Lemma filter_decorated (k : float) (d : list (float * json)) :
  Forall decorated d ->
  List.map snd (List.filter (fun x => Float.eqb (fst x) k) d)
  = List.filter (key_is k) (List.map snd d).
Proof.
  induction 1 as [|[k' t] d Hx _ IH]; simpl; [reflexivity|].
  unfold decorated in Hx. simpl in Hx. unfold key_is at 1. rewrite Hx.
  destruct (Float.eqb k' k); simpl; now rewrite IH.
Qed.

(** The rows of a list sorted by the cycle: in descending order of the
    change, equal changes in the order of the unsorted list. *)
Lemma sorted_rows (l sorted : list json) (rows : list Row.t)
    (P : json -> Row.t -> Prop) :
  sort_by Float.ltb change_key true l = Ok sorted ->
  Forall2 (fun t r => change_key t = Ok (Row.change24h r) /\ P t r) sorted rows ->
  Forall (fun r => Float.is_nan (Row.change24h r) = false) rows ->
  StronglySorted
    (fun r1 r2 => Float.leb (Row.change24h r2) (Row.change24h r1) = true) rows /\
  forall k,
    Forall2 P (List.filter (key_is k) l)
              (List.filter (fun r => Float.eqb (Row.change24h r) k) rows).
Proof.
  intros Hs HF Hnan.
  apply sort_by_inv in Hs as (ks & Hk & ->).
  set (d0 := combine ks l) in *.
  set (d := py_sort Float.ltb true d0) in *.
  pose proof (combine_decorated _ _ Hk) as Hd0. fold d0 in Hd0.
  assert (Hd : Forall decorated d).
  { unfold d. now rewrite (py_sort_perm Float.ltb true d0). }
  pose proof (decorated_keys d rows P Hd HF) as Hkeys.
  split.
  - apply (StronglySorted_weaken
             (fun r1 r2 => Float.ltb (Row.change24h r1) (Row.change24h r2) = false)).
    { intros a b Ha Hb Hab. rewrite List.Forall_forall in Hnan.
      apply FloatFacts.ltb_false_leb; auto. }
    apply (StronglySorted_map_inv (fun a b => Float.ltb a b = false) Row.change24h).
    rewrite <- Hkeys.
    apply (StronglySorted_map (fun a b => Float.ltb a b = false) fst).
    unfold d, py_sort.
    apply (StronglySorted_rev (not_below Float.ltb)).
    apply stable_sort_sorted.
    + exact FloatFacts.ltb_asym.
    + exact FloatFacts.ltb_trans.
  - intros k.
    assert (Hdom : Forall (fun x : float * json => Float.is_nan (fst x) = false) d0).
    { rewrite <- (py_sort_perm Float.ltb true d0). fold d.
      apply Forall_map with (f := fst) (P := fun key => Float.is_nan key = false).
      rewrite Hkeys. now apply Forall_map. }
    pose proof (py_sort_stable Float.ltb
                  (fun key => Float.is_nan key = false)
                  (fun key => Float.eqb key k)
                  FloatFacts.ltb_neg_trans (FloatFacts.eqb_class k)
                  FloatFacts.ltb_asym FloatFacts.ltb_trans true d0 Hdom) as Hst.
    fold d in Hst. simpl in Hst.
    assert (Hl : List.filter (key_is k) (List.map snd d) = List.filter (key_is k) l).
    { rewrite <- (filter_decorated k d Hd), Hst, (filter_decorated k d0 Hd0).
      unfold d0. rewrite map_snd_combine; [reflexivity|].
      now apply mapM_ok_length in Hk. }
    rewrite <- Hl.
    apply Forall2_filter with (f := key_is k)
      (g := fun r => Float.eqb (Row.change24h r) k) in HF.
    + eapply Forall2_impl; [exact HF|]. now intros t r [_ HP].
    + intros t r [Hkey _]. unfold key_is. now rewrite Hkey.
Qed.

(** C5.  In a snapshot whose changes are all numbers (no NaN), [data] and
    [other] are each in descending order of the 24h change, and the rows
    whose change equals any given value are the rows of the payload's tickers
    of that bucket with that change, in the order of the payload. *)
Theorem snapshot_sorted_and_stable (now : float) (c c' : cache) (u : upstream)
    (s : Snapshot.t) (j : joined) ts :
  refresh_cycle now c u = (Ok s, c') ->
  join_cycle u = Ok j ->
  payload_tickers (resp_ticker u) ts ->
  (forall r, In r (Snapshot.data s ++ Snapshot.other s)%list ->
             Float.is_nan (Row.change24h r) = false) ->
  StronglySorted
    (fun r1 r2 => Float.leb (Row.change24h r2) (Row.change24h r1) = true)
    (Snapshot.data s) /\
  StronglySorted
    (fun r1 r2 => Float.leb (Row.change24h r2) (Row.change24h r1) = true)
    (Snapshot.other s) /\
  forall k,
    Forall2 (row_of j)
      (List.filter (key_is k) (List.filter (in_bucket (funding_map j) is_main) ts))
      (List.filter (fun r => Float.eqb (Row.change24h r) k) (Snapshot.data s)) /\
    Forall2 (row_of j)
      (List.filter (key_is k) (List.filter (in_bucket (funding_map j) is_other) ts))
      (List.filter (fun r => Float.eqb (Row.change24h r) k) (Snapshot.other s)).
Proof.
  intros Hr Hj Hts Hnan.
  destruct (refresh_cycle_ok _ _ _ _ _ Hr) as (j' & ls & Hj' & Hf & _).
  rewrite Hj in Hj'. injection Hj' as <-.
  destruct (finish_cycle_rows _ _ _ _ Hf) as [Hmain Hother].
  destruct (join_cycle_inv _ _ Hj)
    as (ts' & items & buckets & Hts' & Hit & Hfm & Hb & Hm & Ho).
  rewrite (payload_tickers_fun _ _ _ Hts Hts') in *. clear Hts'.
  pose proof (mapM_ok_Forall2 _ _ _ Hb) as Hcl.
  rewrite (select_filter _ is_main _ _ Hcl) in Hm.
  rewrite (select_filter _ is_other _ _ Hcl) in Ho.
  assert (Hkeyed : forall l rows, Forall2 (row_of j) l rows ->
            Forall2 (fun t r => change_key t = Ok (Row.change24h r) /\ row_of j t r)
                    l rows).
  { intros l rows HF. eapply Forall2_impl; [exact HF|].
    intros t r Hrow. split; [|assumption]. now apply row_of_fields in Hrow. }
  destruct (sorted_rows _ _ _ (row_of j) Hm (Hkeyed _ _ Hmain)) as [Sm Stm].
  { apply List.Forall_forall. intros r Hin. apply Hnan, in_or_app. now left. }
  destruct (sorted_rows _ _ _ (row_of j) Ho (Hkeyed _ _ Hother)) as [So Sto].
  { apply List.Forall_forall. intros r Hin. apply Hnan, in_or_app. now right. }
  repeat split; auto.
Qed.

End SnapshotFacts.

(** * The model on the sample payloads *)

Section Runs.

#[local] Existing Instance Decimal.builtins.

(** The scenario of the specification. *)
Example scenario_snapshot :
  exists s c',
    fetch_binance_tickers Sample.now empty_cache Sample.scenario = (Snap s, c') /\
    List.map Row.symbol (Snapshot.data s) = ["BTC/USDT"] /\
    List.map Row.rank (Snapshot.data s) = [1] /\
    Snapshot.other s = [] /\
    Snapshot.total_volume s = PFloat (Float.of_Z 2000000).
Proof. eexists. eexists. split; [vm_compute; reflexivity|]. now vm_compute. Qed.

(** Rates 0.0001, 0.0, -0.0002, 0.0: the two zero rates go to [other]; the
    two equal changes of [data] keep the order of the payload. *)
Example market_snapshot :
  exists s c',
    fetch_binance_tickers Sample.now empty_cache Sample.market = (Snap s, c') /\
    List.map Row.symbol (Snapshot.data s) = ["A/USDT"; "C/USDT"] /\
    List.map Row.symbol (Snapshot.other s) = ["B/USDT"; "D/USDT"] /\
    Snapshot.volume_change s = Float.of_Z 50.
Proof. eexists. eexists. split; [vm_compute; reflexivity|]. now vm_compute. Qed.

Example fear_greed_70_50 :
  Fng.change24h
    (fst (fetch_fear_and_greed Sample.now empty_cache
            (Sample.ok200 (Sample.fng_days "70" "50"))))
  = Float.of_Z 40.
Proof. now vm_compute. Qed.

End Runs.

(** * The theorems at the sample payloads *)

Section Witnesses.

#[local] Existing Instance Decimal.builtins.

(** A snapshot is cached from the scenario; a minute later the ticker fetch
    raises and the caller gets that snapshot. *)
Lemma failed_cycle_serves_cached_snapshot_witness :
  exists s c1,
    refresh_cycle Sample.now empty_cache Sample.scenario = (Ok s, c1) /\
    tickers_hit Sample.later c1 = false /\
    fst (fetch_binance_tickers Sample.later c1 Sample.ticker_down) = Snap s /\
    content_data (fst (api_binance_tickers Sample.later c1 Sample.ticker_down))
    = Snapshot.data s.
Proof.
  destruct (refresh_cycle Sample.now empty_cache Sample.scenario) as [[s|e] c1] eqn:Hr;
    [|vm_compute in Hr; discriminate].
  exists s, c1. split; [reflexivity|].
  assert (Hc1 : binance_tickers_100 c1 = Some s).
  { vm_compute in Hr. injection Hr as <- <-. reflexivity. }
  assert (Hdown : refresh_cycle Sample.later c1 Sample.ticker_down
                  = (Raise TransportError, c1)) by reflexivity.
  pose proof (failed_cycle_serves_cached_snapshot
                Sample.later c1 c1 Sample.ticker_down TransportError Hdown) as Hw.
  cbv zeta in Hw. rewrite Hc1 in Hw. destruct Hw as (_ & _ & Hd & Hc).
  split; [|split; [exact Hd|now rewrite Hc]].
  vm_compute in Hr. injection Hr as <- <-. now vm_compute.
Defined.



Lemma market_tickers_payload :
  payload_tickers (resp_ticker Sample.market) Sample.market_tickers.
Proof. eexists. eexists. repeat split; reflexivity. Defined.

(** On the market payload: the tickers of the two lists are the eligible
    tickers of the payload. *)
Lemma only_eligible_tickers_appear_witness :
  exists s c' j,
    refresh_cycle Sample.now empty_cache Sample.market = (Ok s, c') /\
    join_cycle Sample.market = Ok j /\
    List.length (top100 j ++ other_top100 j)%list = 4%nat /\
    forall t, In t (top100 j ++ other_top100 j)%list
              <-> In t Sample.market_tickers /\ eligible (funding_map j) t.
Proof.
  destruct (refresh_cycle Sample.now empty_cache Sample.market) as [[s|e] c'] eqn:Hr;
    [|vm_compute in Hr; discriminate].
  destruct (join_cycle Sample.market) as [j|e] eqn:Hj;
    [|vm_compute in Hj; discriminate].
  exists s, c', j. split; [reflexivity|]. split; [reflexivity|]. split.
  - vm_compute in Hj. injection Hj as <-. reflexivity.
  - exact (proj1 (proj2 (proj2
      (only_eligible_tickers_appear Sample.now empty_cache c' Sample.market s j
         Sample.market_tickers Hr Hj market_tickers_payload)))).
Defined.

(** On the market payload: BUSDT, eligible with rate 0.0, is in [other]. *)
Lemma zero_rate_is_other_witness :
  exists s c' j,
    refresh_cycle Sample.now empty_cache Sample.market = (Ok s, c') /\
    join_cycle Sample.market = Ok j /\
    In (Sample.ticker "BUSDT" "3000000" "5") (other_top100 j) /\
    Forall (fun r => Float.eqb (Row.fundingRate r) Float.zero = true) (Snapshot.other s).
Proof.
  destruct (refresh_cycle Sample.now empty_cache Sample.market) as [[s|e] c'] eqn:Hr;
    [|vm_compute in Hr; discriminate].
  destruct (join_cycle Sample.market) as [j|e] eqn:Hj;
    [|vm_compute in Hj; discriminate].
  exists s, c', j. split; [reflexivity|]. split; [reflexivity|].
  destruct (zero_rate_is_other Sample.now empty_cache c' Sample.market s j
              Sample.market_tickers Hr Hj market_tickers_payload) as (Hcls & Hother & _).
  split; [|exact Hother].
  destruct (Hcls (Sample.ticker "BUSDT" "3000000" "5")) as (rate & Hrate & Hzero & _).
  - right. right. now left.
  - vm_compute in Hj. injection Hj as <-.
    exists "BUSDT", (Float.of_Z 3000000), (Sample.funding "BUSDT" "0.0" 100), (JInt 100).
    repeat split; try reflexivity. now exists "B".
  - apply Hzero.
    destruct Hrate as (sym & f_info & Hs & Hf & Hr').
    injection Hs as <-. vm_compute in Hj. injection Hj as <-.
    vm_compute in Hf. injection Hf as <-.
    vm_compute in Hr'. injection Hr' as <-. reflexivity.
Defined.

(** On the market payload: [data] is sorted and the two rows with change 3
    are those of AUSDT and CUSDT, in this order. *)
Lemma snapshot_sorted_and_stable_witness :
  exists s c' j,
    refresh_cycle Sample.now empty_cache Sample.market = (Ok s, c') /\
    join_cycle Sample.market = Ok j /\
    StronglySorted
      (fun r1 r2 => Float.leb (Row.change24h r2) (Row.change24h r1) = true)
      (Snapshot.data s) /\
    Forall2 (row_of j)
      [Sample.ticker "AUSDT" "2000000" "3"; Sample.ticker "CUSDT" "4000000" "3.0"]
      (List.filter (fun r => Float.eqb (Row.change24h r) (Float.of_Z 3)) (Snapshot.data s)).
Proof.
  destruct (refresh_cycle Sample.now empty_cache Sample.market) as [[s|e] c'] eqn:Hr;
    [|vm_compute in Hr; discriminate].
  destruct (join_cycle Sample.market) as [j|e] eqn:Hj;
    [|vm_compute in Hj; discriminate].
  exists s, c', j. split; [reflexivity|]. split; [reflexivity|].
  destruct (snapshot_sorted_and_stable Sample.now empty_cache c' Sample.market s j
              Sample.market_tickers Hr Hj market_tickers_payload) as (Hs & _ & Hst).
  - vm_compute in Hr. injection Hr as <- <-. intros r Hin.
    repeat (destruct Hin as [<-|Hin]; [reflexivity|]). destruct Hin.
  - split; [exact Hs|].
    specialize (Hst (Float.of_Z 3)). destruct Hst as [Hst _].
    vm_compute in Hj. injection Hj as <-. exact Hst.
Defined.

Lemma sentinel_replaces_non_finite_ratio_witness :
  (exists e raw,
     fst (fetch_ls_ratio_batch Sample.now empty_cache Sample.ls_all_up ["BTCUSDT"])
       !! "BTCUSDT" = Some e /\
     py_float (JStr "1.5") = Ok raw /\
     Float.is_finite raw = true /\
     LS.ratio e = PFloat raw) /\
  (exists e,
     fst (fetch_ls_ratio_batch Sample.now empty_cache Sample.ls_infinite ["BTCUSDT"])
       !! "BTCUSDT" = Some e /\
     LS.ratio e = PFloat (Float.of_Z 9999)).
Proof.
  split.
  - destruct (py_float (JStr "1.5")) as [raw|ex] eqn:Hraw;
      [|vm_compute in Hraw; discriminate].
    destruct (py_float (JStr "0.6")) as [la|ex] eqn:Hla;
      [|vm_compute in Hla; discriminate].
    destruct (py_float (JStr "0.4")) as [sa|ex] eqn:Hsa;
      [|vm_compute in Hsa; discriminate].
    assert (Hfin : Float.is_finite raw = true).
    { vm_compute in Hraw. injection Hraw as <-. reflexivity. }
    destruct (proj1 (sentinel_replaces_non_finite_ratio Sample.now empty_cache
                       Sample.ls_all_up ["BTCUSDT"] "BTCUSDT" eq_refl)
                O
                {| status_code := 200;
                   body := Some (JList [JObj [("longShortRatio", JStr "1.5");
                                              ("longAccount", JStr "0.6");
                                              ("shortAccount", JStr "0.4")]]) |}
                (JObj [("longShortRatio", JStr "1.5"); ("longAccount", JStr "0.6");
                       ("shortAccount", JStr "0.4")])
                [] raw la sa eq_refl eq_refl eq_refl eq_refl Hraw Hla Hsa)
      as [_ Hstored].
    destruct Hstored as (e & He & _ & Hratio & _).
    { intros k' _. reflexivity. }
    exists e, raw. split; [exact He|]. split; [reflexivity|].
    split; [exact Hfin|]. exact (Hratio Hfin).
  - destruct (fst (fetch_ls_ratio_batch Sample.now empty_cache Sample.ls_infinite
                     ["BTCUSDT"]) !! "BTCUSDT") as [e|] eqn:He;
      [|vm_compute in He; discriminate].
    exists e. split; [reflexivity|].
    destruct (proj2 (sentinel_replaces_non_finite_ratio Sample.now empty_cache
                       Sample.ls_infinite ["BTCUSDT"] "BTCUSDT" eq_refl) e He)
      as (k & resp & d0 & rest & raw & _ & Hup & Hj & Hraw & Hratio & _).
    injection Hup as <-. injection Hj as <- _.
    injection Hraw as <-. exact Hratio.
Defined.

Lemma per_symbol_error_is_swallowed_witness :
  fst (fetch_ls_ratio_batch Sample.now empty_cache Sample.ls_one_down
         ["AUSDT"; "BUSDT"]) !! "AUSDT" = None /\
  fst (fetch_ls_ratio_batch Sample.now empty_cache Sample.ls_one_down
         ["AUSDT"; "BUSDT"]) !! "BUSDT"
  = fst (fetch_ls_ratio_batch Sample.now empty_cache Sample.ls_all_up
           ["AUSDT"; "BUSDT"]) !! "BUSDT".
Proof.
  destruct (per_symbol_error_is_swallowed Sample.now empty_cache
              Sample.ls_one_down Sample.ls_all_up ["AUSDT"; "BUSDT"] "AUSDT")
    as [Habsent Hothers].
  - reflexivity.
  - intros k _. apply bad_status. simpl. lia.
  - intros k s Hs. unfold Sample.ls_one_down, Sample.ls_all_up.
    apply String.eqb_neq in Hs. now rewrite Hs.
  - split; [exact Habsent|]. apply Hothers. discriminate.
Defined.

Lemma empty_batch_is_not_cached_witness :
  fst (fetch_ls_ratio_batch Sample.now empty_cache Sample.ls_down
         ["AUSDT"; "BUSDT"]) = ∅ /\
  snd (fetch_ls_ratio_batch Sample.now empty_cache Sample.ls_down
         ["AUSDT"; "BUSDT"]) = empty_cache /\
  fst (fetch_ls_ratio_batch Sample.later empty_cache Sample.ls_all_up ["BUSDT"])
  = gather_single Sample.ls_all_up O ["BUSDT"] ∅.
Proof.
  destruct (empty_batch_is_not_cached Sample.now empty_cache Sample.ls_down
              ["AUSDT"; "BUSDT"] eq_refl) as (_ & _ & Hall).
  destruct Hall as (Hempty & Hcache & Hagain).
  - intros k sym _. apply request_exception.
  - split; [exact Hempty|]. split; [exact Hcache|].
    rewrite <- Hcache at 1. apply (Hagain Sample.later). reflexivity.
Defined.

(** Today 70, yesterday 50: exactly 40.0. *)
Lemma fear_greed_change_witness :
  Fng.change24h
    (fst (fetch_fear_and_greed Sample.now empty_cache
            (Sample.ok200 (Sample.fng_days "70" "50"))))
  = Float.of_Z 40.
Proof.
  pose proof (fear_greed_change Sample.now empty_cache
                {| status_code := 200; body := Some (Sample.fng_days "70" "50") |}
                (Sample.fng_days "70" "50")
                [Sample.fng_day "70"; Sample.fng_day "50"]
                eq_refl eq_refl eq_refl) as Hw.
  cbv zeta iota in Hw.
  destruct (Hw (JStr "70") (JStr "50") (JStr "Greed") 70 50
              eq_refl eq_refl eq_refl eq_refl eq_refl) as [Hindex _].
  destruct (Hindex ltac:(unfold index_value; lia) ltac:(unfold index_value; lia))
    as (_ & Hspec & _).
  assert (H40 : change_as_specified 70 50 = Ok (Float.of_Z 40))
    by (vm_compute; reflexivity).
  rewrite H40 in Hspec.
  exact (f_equal (fun r => match r with Ok x => x | Raise _ => Float.zero end) Hspec).
Defined.

(** Below the values of the index the guard [> 0] shows: with today 10 and
    yesterday -50 the handler returns 0.0, where the quotient is -120.0. *)
Lemma fear_greed_negative_yesterday :
  let data := Sample.fng_days "10" "-50" in
  item data "data" = Ok (JList [Sample.fng_day "10"; Sample.fng_day "-50"]) /\
  py_int (JStr "10") = Ok 10 /\ py_int (JStr "-50") = Ok (-50) /\
  change_as_specified 10 (-50) = Ok (SFopp (Float.of_Z 120)) /\
  Fng.change24h
    (fst (fetch_fear_and_greed Sample.now empty_cache (Sample.ok200 data)))
  = Float.zero /\
  Ok (Fng.change24h
        (fst (fetch_fear_and_greed Sample.now empty_cache (Sample.ok200 data))))
  <> change_as_specified 10 (-50).
Proof.
  cbv zeta. repeat split; try (vm_compute; reflexivity).
  vm_compute. discriminate.
Qed.

Lemma backtest_metrics_witness :
  exists row,
    In row (api_grid_backtest (Sample.ok200 (JList Sample.market_tickers))) /\
    Backtest.symbol row = "ETH/USDT" /\
    Backtest.volatility row = PFloat (Float.of_Z 100) /\
    clamped f_neg80 f_450
      (Float.add (Float.mul (Float.of_Z 100) (Float.of_Z 12))
                 (Float.mul (Float.of_Z 3) (Float.of_Z 15)))
      (Backtest.long_apr row).
Proof.
  eexists. split; [vm_compute; left; reflexivity|].
  split; [reflexivity|].
  match goal with
  | |- context [Backtest.volatility ?r] =>
      destruct (backtest_metrics (Sample.ok200 (JList Sample.market_tickers)) r)
        as (ts & t & base & high & low & change & Hts & Hin & Hf & _ & Hh & Hl & Hc & Hm)
  end.
  - vm_compute. left. reflexivity.
  - destruct Hts as (resp & data & [= <-] & [= <-] & [= <-]).
    repeat (destruct Hin as [<-|Hin]; [try (vm_compute in Hf; discriminate)|]);
      try (now destruct Hin);
      vm_compute in Hh, Hl, Hc;
      injection Hh as <-; injection Hl as <-; injection Hc as <-;
      cbv zeta in Hm; destruct Hm as (Hv & Hch & Hlong & _);
      try (vm_compute in Hch; discriminate);
      split; [exact Hv|exact Hlong].
Defined.

End Witnesses.

(** * Further properties of the handlers *)

(** ** The snapshot: what a produced snapshot holds *)

Section SnapshotContents.

Context `{PyBuiltins}.

#[local] Arguments Float.of_Z : simpl never.
#[local] Arguments Float.ltb : simpl never.
#[local] Arguments Float.eqb : simpl never.

Lemma mapM_enum_nth {A B : Type} (f : nat -> A -> result B) (i : nat)
    (l : list A) (l' : list B) (n : nat) (y : B) :
  mapM_enum f i l = Ok l' -> nth_error l' n = Some y ->
  exists x, nth_error l n = Some x /\ f (i + n)%nat x = Ok y.
Proof.
  revert i l' n; induction l as [|x l IH]; simpl; intros i l' n Hm Hn.
  - injection Hm as <-. destruct n; discriminate.
  - bind_as Hm y0 Hy0. bind_as Hm ys Hys. injection Hm as <-.
    destruct n as [|n]; simpl in Hn.
    + injection Hn as <-. exists x. rewrite Nat.add_0_r. auto.
    + destruct (IH _ _ _ Hys Hn) as (x' & Hx' & Hf).
      exists x'. split; [assumption|].
      now replace (i + S n)%nat with (S i + n)%nat by lia.
Qed.

Lemma mapM_enum_length {A B : Type} (f : nat -> A -> result B) (i : nat)
    (l : list A) (l' : list B) :
  mapM_enum f i l = Ok l' -> List.length l' = List.length l.
Proof.
  intros Hm. apply mapM_enum_ok_Forall2 in Hm.
  induction Hm; simpl; congruence.
Qed.


(** The fields of a row, read off [map_row]. *)
Lemma map_row_inv (fm im : gmap string json) (ls : gmap string LS.t) (i : nat)
    (t : json) (r : Row.t) :
  map_row fm im ls i t = Ok r ->
  exists sym,
    get t "symbol" (JStr "") = Ok (JStr sym) /\
    Row.rank r = Z.of_nat i + 1 /\
    Row.symbol r = replace "USDT" "/USDT" sym /\
    float_field t "quoteVolume" = Ok (Row.volume24h r) /\
    Row.fundingInterval r = default (JInt 8) (im !! sym) /\
    Row.lsRatio r = default LS.absent (ls !! sym).
Proof.
  unfold map_row. intros Hr.
  bind_as Hr v Hv. bind_as Hr sym Hsym.
  destruct v; simpl in Hsym; try discriminate. injection Hsym as ->.
  do 10 bind_inv Hr. injection Hr as <-. simpl.
  exists sym. auto 10.
Qed.

Lemma finish_cycle_inv (now : float) (j : joined) (ls : gmap string LS.t)
    (s : Snapshot.t) :
  finish_cycle now j ls = Ok s ->
  map_result (funding_map j) (interval_map j) ls (top100 j) = Ok (Snapshot.data s) /\
  map_result (funding_map j) (interval_map j) ls (other_top100 j)
    = Ok (Snapshot.other s) /\
  (exists vols,
     mapM (fun t => float_field t "quoteVolume") (top100 j ++ other_top100 j)%list
       = Ok vols /\
     Snapshot.total_volume s = py_sum vols) /\
  Snapshot.ts s = now.
Proof.
  unfold finish_cycle. intros Hf.
  bind_as Hf rm Hrm. bind_as Hf ro Hro. bind_as Hf vols Hvols.
  injection Hf as <-. simpl. eauto 10.
Qed.

(** The cycle with the map of the nested batch in sight. *)
Lemma refresh_cycle_ok_ls (now : float) (c c' : cache) (u : upstream)
    (s : Snapshot.t) :
  refresh_cycle now c u = (Ok s, c') ->
  exists j fetch_symbols,
    join_cycle u = Ok j /\
    mapM symbol_of (top100 j ++ other_top100 j)%list = Ok fetch_symbols /\
    finish_cycle now j
      (fst (fetch_ls_ratio_batch (ls_now u) c (ls_upstream u) fetch_symbols)) = Ok s /\
    c' = set_binance_tickers_100
           (snd (fetch_ls_ratio_batch (ls_now u) c (ls_upstream u) fetch_symbols)) s.
Proof.
  unfold refresh_cycle.
  destruct (join_cycle u) as [j|e0]; [|discriminate].
  destruct (mapM symbol_of _) as [fetch_symbols|e0] eqn:Hs; [|discriminate].
  destruct (fetch_ls_ratio_batch (ls_now u) c (ls_upstream u) fetch_symbols)
    as [ls c2] eqn:Hb.
  destruct (finish_cycle now j ls) as [final|e0] eqn:Hf; [|discriminate].
  intros [= <- <-]. exists j, fetch_symbols. rewrite Hb. auto.
Qed.

(** X6.  In a snapshot the cycle produces, the row at position [n] of
    [data] has rank [n + 1], and so has the row at position [n] of [other]:
    each list is ranked on its own, from 1. *)
Theorem rows_are_ranked_by_position (now : float) (c c' : cache) (u : upstream)
    (s : Snapshot.t) (n : nat) (r : Row.t) :
  refresh_cycle now c u = (Ok s, c') ->
  (nth_error (Snapshot.data s) n = Some r -> Row.rank r = Z.of_nat n + 1) /\
  (nth_error (Snapshot.other s) n = Some r -> Row.rank r = Z.of_nat n + 1).
Proof.
  intros Hr.
  destruct (refresh_cycle_ok _ _ _ _ _ Hr) as (j & ls & _ & Hf & _).
  destruct (finish_cycle_inv _ _ _ _ Hf) as (Hm & Ho & _).
  unfold map_result in Hm, Ho.
  split; intros Hn.
  - destruct (mapM_enum_nth _ _ _ _ _ _ Hm Hn) as (t & _ & Hrow).
    now destruct (map_row_inv _ _ _ _ _ _ Hrow) as (sym & _ & Hrank & _).
  - destruct (mapM_enum_nth _ _ _ _ _ _ Ho Hn) as (t & _ & Hrow).
    now destruct (map_row_inv _ _ _ _ _ _ Hrow) as (sym & _ & Hrank & _).
Qed.


Lemma sort_by_perm {K : Type} (lt : K -> K -> bool) (key : json -> result K)
    (reverse : bool) (l l' : list json) :
  sort_by lt key reverse l = Ok l' -> Permutation l' l.
Proof.
  intros Hs. apply sort_by_inv in Hs as (ks & Hk & ->).
  apply mapM_ok_length in Hk.
  rewrite (py_sort_perm lt reverse (combine ks l)).
  now rewrite map_snd_combine.
Qed.

(** X8.  The cycle keeps one row per eligible ticker of the payload: the
    tickers behind [data] are a rearrangement of the payload's tickers of the
    main bucket, those behind [other] of the payload's tickers of the other
    bucket, nothing lost and nothing doubled; a ticker the payload lists
    twice has two rows. *)
Theorem one_row_per_eligible_ticker (now : float) (c c' : cache) (u : upstream)
    (s : Snapshot.t) (j : joined) (ts : list json) :
  refresh_cycle now c u = (Ok s, c') ->
  join_cycle u = Ok j ->
  payload_tickers (resp_ticker u) ts ->
  Permutation (top100 j) (List.filter (in_bucket (funding_map j) is_main) ts) /\
  Permutation (other_top100 j) (List.filter (in_bucket (funding_map j) is_other) ts) /\
  List.length (Snapshot.data s)
  = List.length (List.filter (in_bucket (funding_map j) is_main) ts) /\
  List.length (Snapshot.other s)
  = List.length (List.filter (in_bucket (funding_map j) is_other) ts).
Proof.
  intros Hr Hj Hts.
  destruct (refresh_cycle_ok _ _ _ _ _ Hr) as (j' & ls & Hj' & Hf & _).
  rewrite Hj in Hj'. injection Hj' as <-.
  destruct (finish_cycle_inv _ _ _ _ Hf) as (Hm & Ho & _).
  apply mapM_enum_length in Hm, Ho.
  destruct (join_cycle_inv _ _ Hj)
    as (ts' & items & buckets & Hts' & _ & _ & Hb & Hsm & Hso).
  rewrite (payload_tickers_fun _ _ _ Hts Hts') in *. clear Hts'.
  apply mapM_ok_Forall2 in Hb.
  rewrite (select_filter _ is_main _ _ Hb) in Hsm.
  rewrite (select_filter _ is_other _ _ Hb) in Hso.
  apply sort_by_perm in Hsm, Hso.
  repeat split; try assumption.
  - rewrite Hm. now apply Permutation_length.
  - rewrite Ho. now apply Permutation_length.
Qed.

(** The tickers behind the rows are eligible. *)
Lemma rows_from_eligible (now : float) (c c' : cache) (u : upstream)
    (s : Snapshot.t) (r : Row.t) :
  refresh_cycle now c u = (Ok s, c') ->
  In r (Snapshot.data s ++ Snapshot.other s)%list ->
  exists j ls i t,
    join_cycle u = Ok j /\
    map_row (funding_map j) (interval_map j) ls i t = Ok r /\
    eligible (funding_map j) t.
Proof.
  intros Hr Hin.
  destruct (refresh_cycle_ok _ _ _ _ _ Hr) as (j & ls & Hj & Hf & _).
  destruct (finish_cycle_rows _ _ _ _ Hf) as [Hmain Hother].
  destruct (Forall2_app_In_r _ _ _ _ _ _ Hmain Hother Hin) as (t & Ht & ls' & i & Hrow).
  destruct (join_cycle_inv _ _ Hj)
    as (ts & items & buckets & _ & _ & _ & Hb & Hsm & Hso).
  destruct (kept_tickers _ _ _ _ _ t Hb Hsm Hso) as [Km Ko].
  exists j, ls', i, t. split; [assumption|]. split; [assumption|].
  apply in_bucket_kept. apply in_app_or in Ht.
  destruct Ht as [Ht|Ht]; [apply Km in Ht|apply Ko in Ht]; tauto.
Qed.

(** X11.  Every row of a produced snapshot shows a 24h volume above
    1,000,000. *)
Theorem rows_exceed_volume_floor (now : float) (c c' : cache) (u : upstream)
    (s : Snapshot.t) :
  refresh_cycle now c u = (Ok s, c') ->
  Forall (fun r => Float.ltb (Float.of_Z 1000000) (Row.volume24h r) = true)
         (Snapshot.data s ++ Snapshot.other s)%list.
Proof.
  intros Hr. apply List.Forall_forall. intros r Hin.
  destruct (rows_from_eligible _ _ _ _ _ _ Hr Hin) as (j & ls & i & t & _ & Hrow & He).
  destruct (map_row_inv _ _ _ _ _ _ Hrow) as (sym & _ & _ & _ & Hvol & _).
  destruct He as (sym' & vol & f_info & nft & _ & _ & Hv & Hgt & _).
  congruence.
Qed.

Lemma interval_map_of_lookup (items : list json) (m m' : gmap string json)
    (sym : string) (v : json) :
  interval_map_of items m = Ok m' -> m' !! sym = Some v ->
  m !! sym = Some v \/
  exists kv, In (JObj kv) items /\
             default (JStr "") (assoc "symbol" kv) = JStr sym /\
             v = default (JInt 8) (assoc "fundingIntervalHours" kv).
Proof.
  revert m; induction items as [|it rest IH]; simpl; intros m Hm Hl.
  - injection Hm as <-. now left.
  - destruct it as [| | | | | |kv];
      try (destruct (IH _ Hm Hl) as [Hin|(kv' & Hin & Hk)];
           [now left|right; exists kv'; split; [now right|assumption]]).
    bind_as Hm key Hkey.
    destruct (IH _ Hm Hl) as [Hin|(kv' & Hin & Hk)];
      [|right; exists kv'; split; [now right|assumption]].
    destruct key as [k|]; [|now left].
    destruct (decide (k = sym)) as [->|Hne].
    + rewrite lookup_insert_eq in Hin. injection Hin as <-.
      right. exists kv. split; [now left|]. split; [|reflexivity].
      destruct (default (JStr "") (assoc "symbol" kv)); simpl in Hkey;
        try discriminate.
      now injection Hkey as ->.
    + rewrite lookup_insert_ne in Hin by assumption. now left.
Qed.

Lemma join_cycle_interval (u : upstream) (j : joined) :
  join_cycle u = Ok j ->
  exists info_data,
    decoded (resp_info u) = Some info_data /\
    interval_map_from info_data = Ok (interval_map j).
Proof.
  unfold join_cycle, decoded, resp_json. intros Hj.
  destruct (resp_ticker u) as [r1|]; [|discriminate].
  destruct (resp_funding u) as [r2|]; [|discriminate].
  destruct (resp_info u) as [r3|]; [|discriminate].
  destruct (resp_klines u) as [r4|]; [|discriminate].
  simpl in Hj.
  destruct (body r1) as [data|]; [|discriminate].
  destruct (body r2) as [fd|]; [|discriminate].
  destruct (body r3) as [info|]; [|discriminate].
  destruct (body r4) as [kl|]; [|discriminate].
  simpl in Hj. bind_as Hj vc Hvc. bind_as Hj items Hitems.
  bind_as Hj fm Hfm. bind_as Hj im Him.
  do 4 bind_inv Hj. injection Hj as <-. simpl.
  exists info. auto.
Qed.

(** The rows of a produced snapshot are rows of eligible tickers of the
    payload. *)
Lemma rows_from_payload (now : float) (c c' : cache) (u : upstream)
    (s : Snapshot.t) (ts : list json) (r : Row.t) :
  refresh_cycle now c u = (Ok s, c') ->
  payload_tickers (resp_ticker u) ts ->
  In r (Snapshot.data s ++ Snapshot.other s)%list ->
  exists j ls i t,
    join_cycle u = Ok j /\ In t ts /\
    map_row (funding_map j) (interval_map j) ls i t = Ok r /\
    eligible (funding_map j) t.
Proof.
  intros Hr Hts Hin.
  destruct (refresh_cycle_ok _ _ _ _ _ Hr) as (j & ls & Hj & Hf & _).
  destruct (finish_cycle_rows _ _ _ _ Hf) as [Hmain Hother].
  destruct (Forall2_app_In_r _ _ _ _ _ _ Hmain Hother Hin) as (t & Ht & ls' & i & Hrow).
  destruct (join_cycle_inv _ _ Hj)
    as (ts' & items & buckets & Hts' & _ & _ & Hb & Hsm & Hso).
  pose proof (payload_tickers_fun _ _ _ Hts Hts') as ->.
  destruct (kept_tickers _ _ _ _ _ t Hb Hsm Hso) as [Km Ko].
  exists j, ls', i, t. split; [assumption|].
  apply in_app_or in Ht.
  assert (Hk : In t ts /\
               (in_bucket (funding_map j) is_main t = true \/
                in_bucket (funding_map j) is_other t = true)).
  { destruct Ht as [Ht|Ht]; [apply Km in Ht|apply Ko in Ht]; tauto. }
  destruct Hk as [Hints Hb']. split; [assumption|]. split; [assumption|].
  now apply in_bucket_kept.
Qed.

(** The dictionaries of the funding-info list that are not for [sym] leave
    the interval of [sym] as it is. *)
Lemma interval_map_of_skip (items : list json) (m m' : gmap string json)
    (sym : string) :
  interval_map_of items m = Ok m' ->
  (forall kv, In (JObj kv) items ->
     default (JStr "") (assoc "symbol" kv) <> JStr sym) ->
  m' !! sym = m !! sym.
Proof.
  revert m; induction items as [|it rest IH]; simpl; intros m Hm Hno.
  - now injection Hm as <-.
  - assert (Hrest : forall kv, In (JObj kv) rest ->
              default (JStr "") (assoc "symbol" kv) <> JStr sym).
    { intros kv Hkv. apply Hno. now right. }
    destruct it as [| | | | | |kv]; try (now apply IH).
    bind_as Hm key Hkey. rewrite (IH _ Hm Hrest).
    destruct key as [k|]; [|reflexivity].
    apply lookup_insert_ne. intros ->.
    apply (Hno kv); [now left|].
    destruct (default (JStr "") (assoc "symbol" kv)); simpl in Hkey;
      try discriminate.
    now injection Hkey as ->.
Qed.

Lemma interval_map_of_app (l1 l2 : list json) (m m' : gmap string json) :
  interval_map_of (l1 ++ l2) m = Ok m' ->
  exists m1, interval_map_of l1 m = Ok m1 /\ interval_map_of l2 m1 = Ok m'.
Proof.
  revert m; induction l1 as [|it rest IH]; simpl; intros m Hm; [eauto|].
  destruct it as [| | | | | |kv]; try (now apply IH).
  bind_as Hm key Hkey. rewrite Hkey. simpl. now apply IH.
Qed.

(** The last dictionary of the list for [sym] decides its interval. *)
Lemma interval_map_of_last (l1 l2 : list json) (kv : list (string * json))
    (m m' : gmap string json) (sym : string) :
  interval_map_of (l1 ++ JObj kv :: l2) m = Ok m' ->
  assoc "symbol" kv = Some (JStr sym) ->
  (forall kv', In (JObj kv') l2 ->
     default (JStr "") (assoc "symbol" kv') <> JStr sym) ->
  m' !! sym = Some (default (JInt 8) (assoc "fundingIntervalHours" kv)).
Proof.
  intros Hm Hsym Hno.
  apply interval_map_of_app in Hm as (m1 & _ & Hm). simpl in Hm.
  rewrite Hsym in Hm. simpl in Hm.
  rewrite (interval_map_of_skip _ _ _ _ Hm Hno). apply lookup_insert_eq.
Qed.

(** X10.  The funding interval of a row is decided by the funding-info
    payload and the symbol of the row's ticker: it is the integer 8 when the
    payload is not a list, and when it is a list without a dictionary for
    the symbol; otherwise it is the [fundingIntervalHours] of the last
    dictionary of the list for the symbol, or 8 when that dictionary has
    none. *)
Theorem funding_interval_defaults_to_8 (now : float) (c c' : cache) (u : upstream)
    (s : Snapshot.t) (ts : list json) (info_data : json) (r : Row.t) :
  refresh_cycle now c u = (Ok s, c') ->
  payload_tickers (resp_ticker u) ts ->
  decoded (resp_info u) = Some info_data ->
  In r (Snapshot.data s ++ Snapshot.other s)%list ->
  exists t sym,
    In t ts /\
    get t "symbol" (JStr "") = Ok (JStr sym) /\
    Row.symbol r = replace "USDT" "/USDT" sym /\
    ((forall l, info_data <> JList l) -> Row.fundingInterval r = JInt 8) /\
    (forall l,
       info_data = JList l ->
       (forall kv, In (JObj kv) l -> assoc "symbol" kv <> Some (JStr sym)) ->
       Row.fundingInterval r = JInt 8) /\
    (forall l1 kv l2,
       info_data = JList (l1 ++ JObj kv :: l2) ->
       assoc "symbol" kv = Some (JStr sym) ->
       (forall kv', In (JObj kv') l2 -> assoc "symbol" kv' <> Some (JStr sym)) ->
       Row.fundingInterval r = default (JInt 8) (assoc "fundingIntervalHours" kv)).
Proof.
  intros Hr Hts Hinfo Hin.
  destruct (rows_from_payload _ _ _ _ _ _ _ Hr Hts Hin)
    as (j & ls & i & t & Hj & Hint & Hrow & He).
  destruct (map_row_inv _ _ _ _ _ _ Hrow) as (sym & Hget & _ & Hsym & _ & Hival & _).
  assert (Hne : sym <> "").
  { destruct He as (sym' & _ & _ & _ & Hget' & [base ->] & _).
    rewrite Hget in Hget'. injection Hget' as ->. destruct base; discriminate. }
  assert (Hdef : forall kv, assoc "symbol" kv <> Some (JStr sym) ->
                   default (JStr "") (assoc "symbol" kv) <> JStr sym).
  { intros kv Hkv. destruct (assoc "symbol" kv) as [v|]; simpl.
    - intros ->. now apply Hkv.
    - intros [= Heq]. now apply Hne. }
  destruct (join_cycle_interval _ _ Hj) as (info' & Hinfo' & Him).
  rewrite Hinfo in Hinfo'. injection Hinfo' as <-.
  exists t, sym. split; [assumption|]. split; [assumption|]. split; [assumption|].
  rewrite Hival. split; [|split].
  - intros Hnl. destruct info_data as [| | | | |l|]; simpl in Him;
      try (injection Him as <-; now rewrite lookup_empty).
    now destruct (Hnl l).
  - intros l -> Hno. simpl in Him.
    rewrite (interval_map_of_skip _ _ _ sym Him), lookup_empty; [reflexivity|].
    intros kv Hkv. apply Hdef. now apply Hno.
  - intros l1 kv l2 -> Hkv Hno. simpl in Him.
    rewrite (interval_map_of_last _ _ _ _ _ sym Him Hkv); [reflexivity|].
    intros kv' Hkv'. apply Hdef. now apply Hno.
Qed.

Lemma symbol_of_get (t : json) (sym sym' : string) :
  symbol_of t = Ok sym -> get t "symbol" (JStr "") = Ok (JStr sym') -> sym' = sym.
Proof.
  unfold symbol_of. destruct t; simpl; try discriminate.
  destruct (assoc "symbol" kv) as [v|]; simpl; [|discriminate].
  destruct v; simpl; try discriminate. congruence.
Qed.

Lemma Forall2_nth_error_r {A B : Type} (P : A -> B -> Prop) (l : list A)
    (l' : list B) (n : nat) (y : B) :
  Forall2 P l l' -> nth_error l' n = Some y ->
  exists x, nth_error l n = Some x /\ P x y.
Proof.
  intros HF. revert n. induction HF as [|x0 y0 l l' Hxy _ IH]; intros [|n] Hn;
    simpl in *; try discriminate.
  - injection Hn as <-. eauto.
  - now apply IH.
Qed.

Lemma Forall2_nth_error_l {A B : Type} (P : A -> B -> Prop) (l : list A)
    (l' : list B) (n : nat) (x : A) :
  Forall2 P l l' -> nth_error l n = Some x ->
  exists y, nth_error l' n = Some y /\ P x y.
Proof.
  intros HF. revert n. induction HF as [|x0 y0 l l' Hxy _ IH]; intros [|n] Hn;
    simpl in *; try discriminate.
  - injection Hn as <-. eauto.
  - now apply IH.
Qed.

(** X9.  The nested batch call is made with the symbols of the tickers of
    [data] followed by those of [other], and the long/short entry of the row
    at position [n] is the entry the call returns for the symbol at position
    [n] of that list, or the zero entry when it returns none.  When the
    batch key of the cache is fresh at the time of the nested call, that is
    the cached map, whatever the exchange would answer. *)
Theorem rows_carry_batch_ratios (now : float) (c c' : cache) (u : upstream)
    (s : Snapshot.t) (j : joined) (fetch_symbols : list string) (n : nat)
    (r : Row.t) :
  refresh_cycle now c u = (Ok s, c') ->
  join_cycle u = Ok j ->
  mapM symbol_of (top100 j ++ other_top100 j)%list = Ok fetch_symbols ->
  nth_error (Snapshot.data s ++ Snapshot.other s)%list n = Some r ->
  exists sym,
    nth_error fetch_symbols n = Some sym /\
    Row.symbol r = replace "USDT" "/USDT" sym /\
    Row.lsRatio r
    = default LS.absent
        (fst (fetch_ls_ratio_batch (ls_now u) c (ls_upstream u) fetch_symbols) !! sym) /\
    (forall m ts,
       ls_ratio_batch c = Some (m, ts) -> fresh (ls_now u) ts 300 = true ->
       Row.lsRatio r = default LS.absent (m !! sym)).
Proof.
  intros Hr Hj Hs Hn.
  destruct (refresh_cycle_ok_ls _ _ _ _ _ Hr) as (j' & fs' & Hj' & Hs' & Hf & _).
  rewrite Hj in Hj'. injection Hj' as <-.
  rewrite Hs in Hs'. injection Hs' as <-.
  destruct (finish_cycle_inv _ _ _ _ Hf) as (Hm & Ho & _).
  unfold map_result in Hm, Ho.
  apply mapM_enum_ok_Forall2 in Hm, Ho.
  pose proof (Forall2_app Hm Ho) as Hrows.
  destruct (Forall2_nth_error_r _ _ _ _ _ Hrows Hn) as (t & Ht & i & Hrow).
  destruct (map_row_inv _ _ _ _ _ _ Hrow) as (sym & Hget & _ & Hsym & _ & _ & Hls).
  apply mapM_ok_Forall2 in Hs.
  destruct (Forall2_nth_error_l _ _ _ _ _ Hs Ht) as (sym' & Hn' & Hso).
  rewrite <- (symbol_of_get _ _ _ Hso Hget) in Hn'.
  exists sym. repeat split; try assumption.
  intros m ts Hc Hfresh. rewrite Hls.
  unfold fetch_ls_ratio_batch. now rewrite Hc, Hfresh.
Qed.

(** X1.  A snapshot the cycle produces is what the call returns, and every
    later call made less than [_cache_ttl] seconds after it gets the same
    snapshot and leaves the cache as it is, whatever the exchange would
    answer. *)
Theorem fresh_snapshot_is_served_unchanged (now : float) (c c1 : cache)
    (u : upstream) (s : Snapshot.t) :
  tickers_hit now c = false ->
  refresh_cycle now c u = (Ok s, c1) ->
  fetch_binance_tickers now c u = (Snap s, c1) /\
  forall now' u',
    fresh now' now _cache_ttl = true ->
    fetch_binance_tickers now' c1 u' = (Snap s, c1).
Proof.
  intros Hmiss Hr. split.
  - unfold fetch_binance_tickers, tickers_hit in *. rewrite Hr.
    destruct (binance_tickers_100 c) as [s0|]; [|reflexivity].
    now rewrite Hmiss.
  - intros now' u' Hfresh.
    destruct (refresh_cycle_ok _ _ _ _ _ Hr) as (j & ls & _ & Hf & Hc1).
    destruct (finish_cycle_inv _ _ _ _ Hf) as (_ & _ & _ & Hts).
    unfold fetch_binance_tickers. rewrite Hc1, Hts. now rewrite Hfresh.
Qed.

Lemma classify_object (fm : gmap string json) (t : json) (b : bucket) :
  classify fm t = Ok b -> exists kv, t = JObj kv.
Proof.
  unfold classify. destruct t; simpl; try discriminate. eauto.
Qed.

(** X12.  One element of the ticker payload that is not a JSON object makes
    the whole cycle give way: the caller gets the cached snapshot, or the
    empty default, and the cached snapshot stays.  So does a payload that is
    itself an object with at least one key, such as an error message of the
    exchange. *)
Theorem malformed_ticker_fails_the_cycle (now : float) (c : cache) (u : upstream)
    (ts : list json) (t : json) :
  payload_tickers (resp_ticker u) ts ->
  In t ts ->
  (forall kv, t <> JObj kv) ->
  fst (fetch_binance_tickers now c u) = cached_or_default c /\
  binance_tickers_100 (snd (fetch_binance_tickers now c u)) = binance_tickers_100 c.
Proof.
  intros Hts Hin Hno.
  destruct (join_cycle u) as [j|e] eqn:Hj.
  - exfalso.
    destruct (join_cycle_inv _ _ Hj) as (ts' & items & buckets & Hts' & _ & _ & Hb & _).
    rewrite (payload_tickers_fun _ _ _ Hts Hts') in *.
    apply mapM_ok_Forall2 in Hb.
    destruct (Forall2_In_l _ _ _ _ Hb Hin) as (b & _ & Hc).
    destruct (classify_object _ _ _ Hc) as [kv ->]. now apply (Hno kv).
  - apply (fetch_binance_tickers_raise now c c u e).
    unfold refresh_cycle. now rewrite Hj.
Qed.

End SnapshotContents.

(** ** The snapshot: an error object in place of the funding list *)

Section FundingErrorObject.

Context `{PyBuiltins}.

Lemma funding_map_of_strings (ks : list string) (m : gmap string json) :
  (forall k, In k ks -> contains "symbol" k = false) ->
  funding_map_of (List.map JStr ks) m = Ok m.
Proof.
  induction ks as [|k ks IH]; intros Hk; simpl; [reflexivity|].
  rewrite (Hk k) by now left. simpl. apply IH. intros k' Hk'. apply Hk. now right.
Qed.

Lemma no_element_nil {A : Type} (l : list A) : (forall x, ~ In x l) -> l = [].
Proof.
  destruct l as [|x l]; [reflexivity|]. intros Hno. destruct (Hno x). now left.
Qed.

(** Without a funding record no ticker passes the filter. *)
Lemma classify_no_funding (t : json) :
  readable_ticker t -> classify ∅ t = Ok Dropped.
Proof.
  intros (kv & sym & -> & Hsym & Hvol). unfold classify. simpl.
  rewrite Hsym. simpl.
  destruct (endswith "USDT" sym); [|reflexivity].
  destruct (Hvol eq_refl) as [vol Hv]. rewrite Hv. simpl.
  destruct (Float.gtb vol _); [|reflexivity].
  rewrite lookup_empty. reflexivity.
Qed.

Lemma mapM_classify_no_funding (ts : list json) :
  Forall readable_ticker ts ->
  mapM (classify ∅) ts = Ok (List.map (fun _ => Dropped) ts).
Proof.
  induction 1 as [|t ts Ht _ IH]; simpl; [reflexivity|].
  rewrite (classify_no_funding t Ht). simpl. now rewrite IH.
Qed.

Lemma select_all_dropped (want : bucket -> bool) (ts : list json) :
  want Dropped = false ->
  select want (combine (List.map (fun _ => Dropped) ts) ts) = [].
Proof.
  intros Hw. unfold select. induction ts as [|t ts IH]; simpl; [reflexivity|].
  now rewrite Hw.
Qed.

Lemma interval_map_of_total (l : list json) (m : gmap string json) :
  (forall kv, In (JObj kv) l ->
     exists sym, default (JStr "") (assoc "symbol" kv) = JStr sym) ->
  exists m', interval_map_of l m = Ok m'.
Proof.
  revert m; induction l as [|it rest IH]; simpl; intros m Hl; [eauto|].
  assert (Hrest : forall kv, In (JObj kv) rest ->
            exists sym, default (JStr "") (assoc "symbol" kv) = JStr sym).
  { intros kv Hkv. apply Hl. now right. }
  destruct it as [| | | | | |kv]; try (now apply IH).
  destruct (Hl kv) as [sym ->]; [now left|]. simpl. now apply IH.
Qed.

Lemma interval_map_from_total (info_data : json) :
  info_readable info_data -> exists im, interval_map_from info_data = Ok im.
Proof.
  intros Hinfo. destruct info_data as [| | | | |l|]; simpl; eauto.
  apply interval_map_of_total. intros kv Hkv. now apply (Hinfo l).
Qed.

Lemma vol_change_of_total (btc_klines : json) :
  candles_readable btc_klines -> exists vc, vol_change_of btc_klines = Ok vc.
Proof.
  intros Hk. destruct btc_klines as [| | | | |[|k0 [|k1 rest]]|]; simpl; eauto.
  destruct (Hk k0 k1 rest eq_refl) as (v0 & y & v1 & t & -> & Hy & -> & Ht).
  simpl. rewrite Hy. simpl. rewrite Ht. simpl.
  destruct (Float.gtb y Float.zero); eauto.
Qed.

Lemma decoded_some (r : http_result) (d : json) :
  decoded r = Some d -> exists resp, r = Ok resp /\ resp_json resp = Ok d.
Proof.
  unfold decoded, resp_json. destruct r as [resp|e]; [|discriminate].
  intros Hb. exists resp. split; [reflexivity|]. now rewrite Hb.
Qed.

(** With an error object for the funding list the join goes through, and
    keeps no ticker. *)
Lemma join_cycle_no_funding (u : upstream) (ts : list json)
    (kv : list (string * json)) (info_data btc_klines : json) :
  payload_tickers (resp_ticker u) ts ->
  Forall readable_ticker ts ->
  decoded (resp_funding u) = Some (JObj kv) ->
  (forall k, In k (List.map fst kv) -> contains "symbol" k = false) ->
  decoded (resp_info u) = Some info_data -> info_readable info_data ->
  decoded (resp_klines u) = Some btc_klines -> candles_readable btc_klines ->
  exists vc im,
    vol_change_of btc_klines = Ok vc /\
    join_cycle u = Ok {| vol_change := vc; funding_map := ∅; interval_map := im;
                         top100 := []; other_top100 := [] |}.
Proof.
  intros (r1 & data & H1 & Hj1 & Hit) Hts Hf Hkeys Hi Hinfo Hk Hcandles.
  apply decoded_some in Hf as (r2 & H2 & Hj2).
  apply decoded_some in Hi as (r3 & H3 & Hj3).
  apply decoded_some in Hk as (r4 & H4 & Hj4).
  destruct (vol_change_of_total _ Hcandles) as [vc Hvc].
  destruct (interval_map_from_total _ Hinfo) as [im Him].
  exists vc, im. split; [exact Hvc|].
  unfold join_cycle. rewrite H1, H2, H3, H4. simpl.
  rewrite Hj1, Hj2, Hj3, Hj4. simpl. rewrite Hvc. simpl.
  rewrite funding_map_of_strings.
  2:{ intros k Hin. apply Hkeys. now apply nodup_In in Hin. }
  simpl. rewrite Him. simpl. rewrite Hit. simpl.
  rewrite (mapM_classify_no_funding ts Hts). simpl.
  rewrite !select_all_dropped by reflexivity. reflexivity.
Qed.

(** X13.  When the funding payload is an object, none of whose keys contains
    "symbol" (the exchange's error message is one), and the three other
    payloads read, the cycle does not fail: no ticker finds a funding
    record, and the snapshot produced has no row and total volume 0; it
    takes the place of the cached snapshot and is what a call that misses
    the cache returns. *)
Theorem funding_error_object_empties_snapshot (now : float) (c : cache)
    (u : upstream) (ts : list json) (kv : list (string * json))
    (info_data btc_klines : json) :
  payload_tickers (resp_ticker u) ts ->
  Forall readable_ticker ts ->
  decoded (resp_funding u) = Some (JObj kv) ->
  (forall k, In k (List.map fst kv) -> contains "symbol" k = false) ->
  decoded (resp_info u) = Some info_data -> info_readable info_data ->
  decoded (resp_klines u) = Some btc_klines -> candles_readable btc_klines ->
  exists s c',
    refresh_cycle now c u = (Ok s, c') /\
    Snapshot.data s = [] /\ Snapshot.other s = [] /\
    Snapshot.total_volume s = PInt 0 /\
    vol_change_of btc_klines = Ok (Snapshot.volume_change s) /\
    Snapshot.ts s = now /\
    binance_tickers_100 c' = Some s /\
    (tickers_hit now c = false -> fetch_binance_tickers now c u = (Snap s, c')).
Proof.
  intros Hts Hread Hf Hkeys Hi Hinfo Hk Hcandles.
  destruct (join_cycle_no_funding u ts kv info_data btc_klines
              Hts Hread Hf Hkeys Hi Hinfo Hk Hcandles) as (vc & im & Hvc & Hj).
  assert (Hr : exists c1,
             refresh_cycle now c u
             = (Ok {| Snapshot.data := []; Snapshot.other := [];
                      Snapshot.total_volume := PInt 0;
                      Snapshot.volume_change := vc; Snapshot.ts := now |},
                set_binance_tickers_100 c1
                  {| Snapshot.data := []; Snapshot.other := [];
                     Snapshot.total_volume := PInt 0;
                     Snapshot.volume_change := vc; Snapshot.ts := now |})).
  { unfold refresh_cycle. rewrite Hj. simpl.
    destruct (fetch_ls_ratio_batch (ls_now u) c (ls_upstream u) []) as [ls c1].
    exists c1. reflexivity. }
  destruct Hr as [c1 Hr].
  eexists. eexists. split; [exact Hr|]. simpl.
  repeat split; try reflexivity; try assumption.
  intros Hmiss. unfold fetch_binance_tickers, tickers_hit in *. rewrite Hr.
  destruct (binance_tickers_100 c) as [s0|]; [|reflexivity].
  now rewrite Hmiss.
Qed.

End FundingErrorObject.

(** ** The long/short batch: what the map holds, how long it is served *)

Section LongShortContents.

Context `{PyBuiltins}.

Implicit Types (m : gmap string LS.t) (upstream : nat -> string -> http_result).

Lemma gather_single_not_in upstream (i : nat) (symbols : list string) m
    (sym : string) :
  ~ In sym symbols -> gather_single upstream i symbols m !! sym = m !! sym.
Proof.
  revert i m; induction symbols as [|s rest IH]; intros i m Hno; simpl; [reflexivity|].
  rewrite IH by (intros Hin; apply Hno; now right).
  assert (Hne : s <> sym) by (intros ->; apply Hno; now left).
  unfold fetch_single.
  destruct (fetch_single_entry (upstream i s)) as [[e|]|ex]; try reflexivity.
  now rewrite lookup_insert_ne.
Qed.

Lemma gather_single_distinct upstream (i k : nat) (symbols : list string) m
    (sym : string) :
  NoDup symbols -> nth_error symbols k = Some sym ->
  gather_single upstream i symbols m !! sym
  = match fetch_single_entry (upstream (i + k)%nat sym) with
    | Ok (Some e) => Some e
    | _ => m !! sym
    end.
Proof.
  revert i k m; induction symbols as [|s rest IH]; intros i k m Hnd Hk.
  - destruct k; discriminate.
  - inversion Hnd as [|? ? Hs Hrest]; subst.
    destruct k as [|k]; simpl in Hk.
    + injection Hk as ->. simpl. rewrite Nat.add_0_r.
      rewrite gather_single_not_in by (now rewrite <- list_elem_of_In).
      unfold fetch_single.
      destruct (fetch_single_entry (upstream i sym)) as [[e|]|ex]; try reflexivity.
      now rewrite lookup_insert_eq.
    + simpl. rewrite (IH (S i) k _ Hrest Hk).
      replace (S i + k)%nat with (i + S k)%nat by lia.
      assert (Hne : s <> sym).
      { intros ->. apply Hs. apply list_elem_of_In. eapply nth_error_In; eauto. }
      assert (Hm : fetch_single m s (upstream i s) !! sym = m !! sym).
      { unfold fetch_single.
        destruct (fetch_single_entry (upstream i s)) as [[e|]|ex];
          rewrite ?lookup_insert_ne by assumption; reflexivity. }
      now rewrite Hm.
Qed.

(** X14.  On a miss, with symbols that are all different, the map returned
    holds for the [k]-th symbol exactly the entry read from the answer to the
    [k]-th request, and nothing for it when that request met an error; it
    holds nothing for a symbol that was not asked. *)
Theorem batch_map_of_distinct_symbols (now : float) (c : cache) upstream
    (symbols : list string) :
  ls_hit now c = false ->
  NoDup symbols ->
  let result := fst (fetch_ls_ratio_batch now c upstream symbols) in
  (forall k sym, nth_error symbols k = Some sym ->
     result !! sym = match fetch_single_entry (upstream k sym) with
                     | Ok (Some e) => Some e
                     | _ => None
                     end) /\
  (forall sym, ~ In sym symbols -> result !! sym = None).
Proof.
  intros Hmiss Hnd. rewrite (fetch_ls_ratio_batch_miss _ _ _ _ Hmiss). simpl. split.
  - intros k sym Hk.
    rewrite (gather_single_distinct upstream O k symbols ∅ sym Hnd Hk). simpl.
    destruct (fetch_single_entry (upstream k sym)) as [[e|]|ex]; try reflexivity;
      apply lookup_empty.
  - intros sym Hno. rewrite gather_single_not_in by assumption. apply lookup_empty.
Qed.

(** X2.  A batch that stored at least one entry is served as it is to every
    call made less than 300 seconds later, whatever the symbols that call
    asks for and whatever the exchange would answer. *)
Theorem batch_is_served_for_five_minutes (now : float) (c : cache) upstream
    (symbols : list string) :
  ls_hit now c = false ->
  let result := fst (fetch_ls_ratio_batch now c upstream symbols) in
  let c' := snd (fetch_ls_ratio_batch now c upstream symbols) in
  result <> ∅ ->
  forall now' upstream' symbols',
    fresh now' now 300 = true ->
    fetch_ls_ratio_batch now' c' upstream' symbols' = (result, c').
Proof.
  intros Hmiss. rewrite (fetch_ls_ratio_batch_miss _ _ _ _ Hmiss). simpl.
  intros Hne now' upstream' symbols' Hfresh.
  rewrite bool_decide_eq_false_2 by assumption.
  unfold fetch_ls_ratio_batch. simpl. now rewrite Hfresh.
Qed.

End LongShortContents.

(** ** The fear/greed index: failures and missing days *)

Section FearGreedEdges.

Context `{PyBuiltins}.

(** X3.  When the fear/greed request raises, or its body does not decode, or
    the payload makes the handler raise, the caller gets the data of the
    cached entry, however old, or the neutral default (50, "Neutral", 0.0)
    when there is none; the cache is left as it is. *)
Theorem failed_fear_greed_fetch_serves_cached (now : float) (c : cache)
    (r : http_result) :
  ((exists e, r = Raise e) \/
   (exists resp, r = Ok resp /\ body resp = None) \/
   (exists resp data e,
      r = Ok resp /\ body resp = Some data /\
      fear_and_greed_result data = Raise e)) ->
  fetch_fear_and_greed now c r
  = (match fear_and_greed c with
     | Some (data, _) => data
     | None => Fng.neutral
     end, c).
Proof.
  intros Hfail. unfold fetch_fear_and_greed.
  assert (Hraise : exists e,
            (let* resp := r in
             let* data := resp_json resp in
             fear_and_greed_result data) = Raise e).
  { destruct Hfail as [[e ->]|[(resp & -> & Hb)|(resp & data & e & -> & Hb & Hr)]];
      simpl; unfold resp_json; rewrite ?Hb; simpl; eauto. }
  destruct Hraise as [e ->].
  destruct (fear_and_greed c) as [[data ts]|]; [|reflexivity].
  now destruct (fresh now ts 3600).
Qed.

(** X4.  A payload object without the key "data", or with an empty list
    under it, gives the neutral default (50, "Neutral", 0.0), and this
    default is cached like fetched data: for the next hour every call is
    served it without a request being looked at. *)
Theorem missing_days_cache_the_neutral_default (now : float) (c : cache)
    (resp : response) (kv : list (string * json)) :
  fng_hit now c = false ->
  body resp = Some (JObj kv) ->
  assoc "data" kv = None \/ assoc "data" kv = Some (JList []) ->
  let c' := set_fear_and_greed c (Fng.neutral, now) in
  fetch_fear_and_greed now c (Ok resp) = (Fng.neutral, c') /\
  forall now' r',
    fresh now' now 3600 = true ->
    fetch_fear_and_greed now' c' r' = (Fng.neutral, c').
Proof.
  intros Hmiss Hb Hdata. cbv zeta. split.
  - apply fetch_fear_and_greed_miss with (data := JObj kv); try assumption.
    + unfold resp_json. now rewrite Hb.
    + unfold fear_and_greed_result. simpl.
      destruct Hdata as [Hd|Hd]; rewrite Hd; reflexivity.
  - intros now' r' Hfresh. unfold fetch_fear_and_greed. simpl. now rewrite Hfresh.
Qed.

End FearGreedEdges.

(** ** The heuristic backtest: bounds, malformed payloads *)

Section BacktestEdges.

Context `{PyBuiltins}.

Lemma ltb_leb (x y : float) : Float.ltb x y = true -> Float.leb x y = true.
Proof.
  unfold Float.ltb, Float.leb, SFltb, SFleb.
  destruct (SFcompare x y) as [[]|]; congruence.
Qed.

Lemma leb_refl (x : float) : Float.is_nan x = false -> Float.leb x x = true.
Proof.
  intros Hx. apply FloatFacts.eqb_refl in Hx.
  unfold Float.eqb, Float.leb, SFeqb, SFleb in *.
  destruct (SFcompare x x) as [[]|]; congruence.
Qed.

(** [max(lo, min(x, hi))] lies in [lo .. hi] for every [x], NaN included. *)
Lemma py_max_min_bounds (lo hi x : float) :
  Float.ltb lo hi = true ->
  Float.leb lo (py_max lo (py_min x hi)) = true /\
  Float.leb (py_max lo (py_min x hi)) hi = true.
Proof.
  intros Hlh. destruct (FloatFacts.ltb_not_nan _ _ Hlh) as [Hlo Hhi].
  unfold py_max, py_min, Float.gtb.
  destruct (Float.ltb hi x) eqn:Hx.
  - rewrite Hlh. split; [now apply ltb_leb|now apply leb_refl].
  - destruct (Float.ltb lo x) eqn:Hl.
    + split; [now apply ltb_leb|].
      apply FloatFacts.ltb_false_leb; try assumption.
      now destruct (FloatFacts.ltb_not_nan _ _ Hl).
    + split; [now apply leb_refl|now apply ltb_leb].
Qed.

(** X15.  Every row of the backtest endpoint has its long and its short APR
    between -80 and 450, bounds included, whatever the prices and the change
    of the ticker are: a NaN or an infinite intermediate value ends at one of
    the bounds. *)
Theorem backtest_apr_within_bounds (r : http_result) (row : Backtest.t) :
  In row (api_grid_backtest r) ->
  Float.leb f_neg80 (Backtest.long_apr row) = true /\
  Float.leb (Backtest.long_apr row) f_450 = true /\
  Float.leb f_neg80 (Backtest.short_apr row) = true /\
  Float.leb (Backtest.short_apr row) f_450 = true.
Proof.
  intros Hrow.
  destruct (api_grid_backtest_results r) as [Hnil|Hr];
    [rewrite Hnil in Hrow; destruct Hrow|].
  destruct (backtest_results_rows _ _ _ Hr Hrow)
    as (ts & t & base_coin & k & _ & _ & _ & Hk).
  unfold backtest_row in Hk. do 6 bind_inv Hk. injection Hk as <-. simpl.
  split; [|split; [|split]];
    apply (py_max_min_bounds f_neg80 f_450); exact backtest_bounds.
Qed.

(** X16.  One element of the payload that is not a JSON object, whatever its
    place and whether or not the others are listed coins, empties the
    response of the backtest endpoint. *)
Theorem malformed_ticker_empties_backtest (r : http_result) (ts : list json)
    (t : json) :
  payload_tickers r ts ->
  In t ts ->
  (forall kv, t <> JObj kv) ->
  api_grid_backtest r = [].
Proof.
  intros (resp & data & -> & Hj & Hi) Hin Hno.
  destruct (api_grid_backtest_results (Ok resp)) as [Hnil|Hr]; [exact Hnil|].
  exfalso. unfold backtest_results in Hr. simpl in Hr.
  rewrite Hj in Hr. simpl in Hr. rewrite Hi in Hr. simpl in Hr.
  bind_as Hr filtered Hf.
  apply mapM_ok_Forall2 in Hf.
  destruct (Forall2_In_l _ _ _ _ Hf Hin) as (y & _ & Hy).
  unfold filtered_entry in Hy.
  destruct t; simpl in Hy; try discriminate. now apply (Hno kv).
Qed.

End BacktestEdges.

(** ** The heuristic backtest: one row per coin, in the listed order *)

Section BacktestOrder.

Context `{PyBuiltins}.

Lemma index_of_lookup (s : string) (l : list string) (i : nat) :
  index_of s l = Ok i -> l !! i = Some s.
Proof.
  revert i; induction l as [|x l IH]; simpl; intros i Hi; [discriminate|].
  destruct (String.eqb x s) eqn:Hx.
  - injection Hi as <-. apply String.eqb_eq in Hx as ->. reflexivity.
  - bind_inv Hi. injection Hi as <-. simpl. now apply IH.
Qed.

(** What one pass of the second loop does to [unique_coins]. *)
Lemma unique_update_spec (b : string) (t : json) (u u' : list (string * json)) :
  unique_update b t u = Ok u' ->
  (~ In b (List.map fst u) /\ u' = (u ++ [(b, t)])%list) \/
  (exists pre t0 post v v0,
      u = (pre ++ (b, t0) :: post)%list /\
      float_field t "quoteVolume" = Ok v /\
      float_field t0 "quoteVolume" = Ok v0 /\
      u' = if Float.gtb v v0 then (pre ++ (b, t) :: post)%list else u).
Proof.
  revert u'; induction u as [|[b0 t0] rest IH]; simpl; intros u' Hu.
  - injection Hu as <-. left. split; [intros []|reflexivity].
  - destruct (String.eqb b0 b) eqn:Hb.
    + apply String.eqb_eq in Hb as ->.
      bind_as Hu v Hv. bind_as Hu v0 Hv0. injection Hu as <-.
      right. exists [], t0, rest, v, v0. simpl. auto.
    + apply String.eqb_neq in Hb.
      bind_as Hu rest' Hrest. injection Hu as <-.
      destruct (IH _ Hrest) as [[Hno ->]|(pre & t1 & post & v & v0 & -> & Hv & Hv0 & ->)].
      * left. split; [|reflexivity]. intros [Heq|Hin]; [now apply Hb|now apply Hno].
      * right. exists ((b0, t0) :: pre), t1, post, v, v0. simpl.
        repeat split; try assumption. now destruct (Float.gtb v v0).
Qed.

Lemma NoDup_snoc {A : Type} (l : list A) (x : A) :
  List.NoDup l -> ~ In x l -> List.NoDup (l ++ [x]).
Proof.
  intros Hl Hx.
  apply (Permutation_NoDup (Permutation_cons_append l x)).
  now constructor.
Qed.

(** Two entries of a dictionary with one key are one entry. *)
Lemma NoDup_keys_eq {A : Type} (u : list (string * A)) (b : string) (t1 t2 : A) :
  List.NoDup (List.map fst u) -> In (b, t1) u -> In (b, t2) u -> t1 = t2.
Proof.
  induction u as [|[b0 t0] u IH]; simpl; intros Hnd H1 H2; [destruct H1|].
  inversion Hnd as [|? ? Hno Hnd']; subst.
  destruct H1 as [H1|H1], H2 as [H2|H2].
  - congruence.
  - injection H1 as -> ->. exfalso. apply Hno.
    apply in_map_iff. now exists (b, t2).
  - injection H2 as -> ->. exfalso. apply Hno.
    apply in_map_iff. now exists (b, t1).
  - now apply IH.
Qed.

Lemma ltb_irrefl (v : float) : Float.ltb v v = false.
Proof.
  destruct (Float.ltb v v) eqn:Hv; [|reflexivity].
  now rewrite (FloatFacts.ltb_asym _ _ Hv) in Hv.
Qed.

Lemma most_liquid_mono (seen : list (string * json)) (b b' : string) (t t' : json) :
  most_liquid seen (b, t) -> b <> b' -> most_liquid (seen ++ [(b', t')]) (b, t).
Proof.
  intros [Hin Hbest] Hne. split; [apply in_or_app; now left|].
  simpl. intros t1 v v' Hin1 Hv Hv'.
  apply in_app_or in Hin1 as [Hin1|[Heq|[]]]; [now apply (Hbest t1)|].
  now injection Heq as <- <-.
Qed.

(** One pass of the second loop keeps its invariant. *)
Lemma unique_update_inv (b : string) (t : json) (seen u u' : list (string * json)) :
  unique_inv seen u -> unique_update b t u = Ok u' ->
  unique_inv (seen ++ [(b, t)]) u'.
Proof.
  intros (Hnd & Hbest & Hkeys) Hu.
  destruct (unique_update_spec _ _ _ _ Hu)
    as [[Hno ->]|(pre & t0 & post & v & v0 & -> & Hv & Hv0 & ->)].
  - (* a new key *)
    split; [|split].
    + rewrite map_app. simpl. now apply NoDup_snoc.
    + intros [b1 t1] Hin. apply in_app_or in Hin as [Hin|[Heq|[]]].
      * apply most_liquid_mono; [now apply Hbest|].
        intros <-. apply Hno. apply in_map_iff. now exists (b1, t1).
      * injection Heq as <- <-. split; [apply in_or_app; right; now left|].
        simpl. intros t' w w' Hin' Hw Hw'.
        apply in_app_or in Hin' as [Hin'|[Heq|[]]].
        -- exfalso. apply Hno. apply (Hkeys _ Hin').
        -- injection Heq as <-. rewrite Hw in Hw'. injection Hw' as <-.
           apply ltb_irrefl.
    + intros x Hx. rewrite map_app. apply in_or_app.
      apply in_app_or in Hx as [Hx|[<-|[]]]; [left; now apply Hkeys|right; now left].
  - (* a key that is there *)
    assert (Hb0 : In (b, t0) (pre ++ (b, t0) :: post)).
    { apply in_or_app. right. now left. }
    assert (Hkeys' : forall x, In x (seen ++ [(b, t)]) ->
              In (fst x) (List.map fst (pre ++ (b, t0) :: post))).
    { intros x Hx. apply in_app_or in Hx as [Hx|[<-|[]]]; [now apply Hkeys|].
      apply in_map_iff. now exists (b, t0). }
    assert (Hold : forall b1 t1, In (b1, t1) (pre ++ (b, t0) :: post) ->
              (b1, t1) <> (b, t0) -> most_liquid (seen ++ [(b, t)]) (b1, t1)).
    { intros b1 t1 Hin Hne. apply most_liquid_mono; [now apply Hbest|].
      intros ->. apply Hne. f_equal. apply (NoDup_keys_eq _ _ _ _ Hnd Hin Hb0). }
    destruct (Float.gtb v v0) eqn:Hgt.
    + (* the new ticker replaces the old one *)
      split; [|split].
      * rewrite map_app in Hnd |- *. exact Hnd.
      * intros [b1 t1] Hin.
        assert (Hcase : (b1, t1) = (b, t) \/
                        (In (b1, t1) (pre ++ (b, t0) :: post) /\ (b1, t1) <> (b, t0))).
        { apply in_app_or in Hin as [Hin|[Heq|Hin]].
          - right. split; [apply in_or_app; now left|].
            intros Heq. injection Heq as -> ->.
            rewrite map_app in Hnd. simpl in Hnd.
            apply NoDup_remove_2 in Hnd. apply Hnd. apply in_or_app. left.
            apply in_map_iff. now exists (b, t0).
          - left. now symmetry.
          - right. split; [apply in_or_app; right; now right|].
            intros Heq. injection Heq as -> ->.
            rewrite map_app in Hnd. simpl in Hnd.
            apply NoDup_remove_2 in Hnd. apply Hnd. apply in_or_app. right.
            apply in_map_iff. now exists (b, t0). }
        destruct Hcase as [Heq|[Hin' Hne]]; [|now apply Hold].
        injection Heq as -> ->.
        split; [apply in_or_app; right; now left|].
        simpl. intros t' w w' Hin' Hw Hw'.
        rewrite Hv in Hw. injection Hw as <-.
        apply in_app_or in Hin' as [Hin'|[Heq|[]]].
        -- destruct (Hbest _ Hb0) as [_ Hb]. simpl in Hb.
           specialize (Hb t' v0 w' Hin' Hv0 Hw').
           destruct (Float.ltb v w') eqn:Hvw; [|reflexivity].
           unfold Float.gtb in Hgt.
           now rewrite (FloatFacts.ltb_trans _ _ _ Hgt Hvw) in Hb.
        -- injection Heq as <-. rewrite Hv in Hw'. injection Hw' as <-.
           apply ltb_irrefl.
      * intros x Hx. specialize (Hkeys' x Hx).
        rewrite map_app in Hkeys' |- *. exact Hkeys'.
    + (* the old ticker stays *)
      split; [exact Hnd|split; [|exact Hkeys']].
      intros [b1 t1] Hin.
      destruct (string_dec b1 b) as [->|Hne].
      * assert (t1 = t0) as -> by apply (NoDup_keys_eq _ _ _ _ Hnd Hin Hb0).
        destruct (Hbest _ Hb0) as [Hin0 Hb]. simpl in Hb.
        split; [apply in_or_app; now left|].
        simpl. intros t' w w' Hin' Hw Hw'.
        apply in_app_or in Hin' as [Hin'|[Heq|[]]]; [now apply (Hb t')|].
        injection Heq as <-.
        rewrite Hv0 in Hw. injection Hw as <-.
        rewrite Hv in Hw'. injection Hw' as <-. exact Hgt.
      * apply Hold; [assumption|]. intros Heq. now injection Heq.
Qed.

Lemma unique_loop_inv (filtered_data seen u u' : list (string * json)) :
  unique_inv seen u -> unique_loop filtered_data u = Ok u' ->
  unique_inv (seen ++ filtered_data) u'.
Proof.
  revert seen u; induction filtered_data as [|[b t] rest IH]; simpl;
    intros seen u Hinv Hu.
  - injection Hu as <-. now rewrite app_nil_r.
  - bind_as Hu u1 Hu1.
    change ((b, t) :: rest) with ([(b, t)] ++ rest)%list.
    rewrite app_assoc. apply (IH _ u1); [|assumption].
    now apply (unique_update_inv b t seen u).
Qed.

Lemma unique_inv_start : unique_inv [] [].
Proof.
  split; [constructor|split]; intros x [].
Qed.

Lemma Forall2_In_impl {A B : Type} (P Q : A -> B -> Prop) (l : list A) (l' : list B) :
  Forall2 P l l' -> (forall x y, In x l -> P x y -> Q x y) -> Forall2 Q l l'.
Proof.
  induction 1 as [|x y l l' Hxy _ IH]; intros Himp; constructor.
  - apply Himp; [now left|assumption].
  - apply IH. intros x' y' Hin. apply Himp. now right.
Qed.

Lemma Forall2_combine_In {A B : Type} (P : A -> B -> Prop) (l : list A) (l' : list B)
    (x : A) (y : B) :
  Forall2 P l l' -> In (y, x) (combine l' l) -> P x y.
Proof.
  induction 1 as [|x0 y0 l l' Hxy _ IH]; simpl; intros Hin; [destruct Hin|].
  destruct Hin as [Heq|Hin]; [now injection Heq as <- <-|now apply IH].
Qed.

(** Entries sorted by their position in a list [L], each position used once,
    spell a subsequence of [L]. *)
Lemma positions_sublist {A : Type} (sd : list (nat * (string * A))) :
  forall (off : nat) (L : list string),
  Forall (fun x => (off <= fst x)%nat /\ L !! (fst x - off)%nat = Some (fst (snd x))) sd ->
  StronglySorted (fun a b => (fst a < fst b)%nat) sd ->
  sublist (List.map (fun x => fst (snd x)) sd) L.
Proof.
  induction sd as [|[i [b t]] sd IH]; simpl; intros off L Hall Hs.
  - apply sublist_nil_l.
  - inversion Hall as [|? ? [Hoff Hi] Hall']; subst. simpl in Hoff, Hi.
    inversion Hs as [|? ? Hs' Hlt]; subst.
    rewrite <- (take_drop_middle L (i - off) b Hi).
    apply sublist_inserts_l, sublist_skip.
    apply (IH (S i)); [|assumption].
    rewrite List.Forall_forall in Hall', Hlt |- *.
    intros y Hy. specialize (Hlt y Hy). destruct (Hall' y Hy) as [Hoy Hly].
    simpl in Hlt. split; [lia|].
    rewrite lookup_drop. rewrite <- Hly. f_equal. lia.
Qed.

Lemma sorted_positions_strict {A : Type} (L : list string)
    (sd : list (nat * (string * A))) :
  StronglySorted (not_below Nat.ltb) sd ->
  List.NoDup (List.map (fun x => fst (snd x)) sd) ->
  Forall (fun x => L !! fst x = Some (fst (snd x))) sd ->
  StronglySorted (fun a b => (fst a < fst b)%nat) sd.
Proof.
  induction 1 as [|x sd Hs IH Hx]; simpl; intros Hnd Hall; [constructor|].
  inversion Hnd as [|? ? Hno Hnd']; subst.
  inversion Hall as [|? ? Hlx Hall']; subst.
  constructor; [now apply IH|].
  rewrite List.Forall_forall in Hx, Hall' |- *.
  intros y Hy. specialize (Hx y Hy). specialize (Hall' y Hy).
  unfold not_below in Hx. apply Nat.ltb_ge in Hx.
  destruct (Nat.eq_dec (fst x) (fst y)) as [Heq|Hne]; [|lia].
  exfalso. apply Hno. rewrite Heq, Hall' in Hlx. injection Hlx as <-.
  apply in_map_iff. now exists y.
Qed.

(** [sorted(unique_coins.items(), key=..)] on distinct listed coins spells a
    subsequence of [target_coins]. *)
Lemma sorted_coins_sublist (u sorted : list (string * json)) :
  List.NoDup (List.map fst u) ->
  sorted_coins u = Ok sorted ->
  sublist (List.map fst sorted) target_coins.
Proof.
  unfold sorted_coins. intros Hnd Hs. bind_as Hs ks Hks. injection Hs as <-.
  pose proof (mapM_ok_length _ _ _ Hks) as Hlen.
  apply mapM_ok_Forall2 in Hks.
  unfold py_sort.
  set (d := combine ks u).
  assert (Hperm : Permutation (stable_sort Nat.ltb d) d) by apply stable_sort_perm.
  assert (Hall : Forall (fun x => target_coins !! fst x = Some (fst (snd x)))
                   (stable_sort Nat.ltb d)).
  { rewrite List.Forall_forall. intros [i x] Hin.
    apply (Permutation_in _ Hperm) in Hin.
    apply index_of_lookup.
    apply (Forall2_combine_In _ _ _ _ _ Hks Hin). }
  rewrite map_map.
  apply (positions_sublist _ O).
  - rewrite List.Forall_forall in Hall |- *. intros x Hx.
    split; [lia|]. rewrite Nat.sub_0_r. now apply Hall.
  - apply (sorted_positions_strict target_coins); [| |assumption].
    + apply stable_sort_sorted.
      * intros a b Hab. apply Nat.ltb_lt in Hab. apply Nat.ltb_ge. lia.
      * intros a b c Hab Hbc. apply Nat.ltb_lt in Hab, Hbc. apply Nat.ltb_lt. lia.
    + rewrite <- map_map.
      apply (Permutation_NoDup (l := List.map fst u)); [|assumption].
      symmetry. apply Permutation_map.
      transitivity (List.map snd d); [now apply Permutation_map|].
      unfold d. now rewrite map_snd_combine.
Qed.

(** The entries of the second loop's input are the listed tickers of the
    payload. *)
Lemma filtered_In (ts : list json) (filtered : list (option (string * json)))
    (x : string * json) :
  mapM filtered_entry ts = Ok filtered ->
  In x (omap id filtered) ->
  In (snd x) ts /\ filtered_entry (snd x) = Ok (Some x).
Proof.
  intros Hf Hin.
  apply list_elem_of_In, list_elem_of_omap in Hin as (o & Ho & Hsome).
  simpl in Hsome. subst o.
  apply mapM_ok_Forall2 in Hf. apply list_elem_of_In in Ho.
  destruct (Forall2_In_r _ _ _ _ Hf Ho) as (t0 & Ht0 & Hf0).
  destruct x as [b t]. destruct (filtered_entry_some _ _ _ Hf0) as [-> _].
  now split.
Qed.

Lemma filtered_In_rev (ts : list json) (filtered : list (option (string * json)))
    (t : json) (x : string * json) :
  mapM filtered_entry ts = Ok filtered ->
  In t ts -> filtered_entry t = Ok (Some x) ->
  In x (omap id filtered).
Proof.
  intros Hf Hin Hx.
  apply mapM_ok_Forall2 in Hf.
  destruct (Forall2_In_l _ _ _ _ Hf Hin) as (o & Ho & Hfo).
  rewrite Hx in Hfo. injection Hfo as <-.
  apply list_elem_of_In, list_elem_of_omap.
  exists (Some x). split; [now apply list_elem_of_In|reflexivity].
Qed.

(** X17.  The rows of the backtest endpoint follow the order of the list of
    coins and no coin has two rows: the base coins of the tickers the rows are
    computed from spell a subsequence of [target_coins].  So there are at most
    21 rows. *)
Theorem backtest_rows_follow_listed_order (r : http_result) :
  exists coins : list (string * json),
    sublist (List.map fst coins) target_coins /\
    Forall2 (fun x row =>
               filtered_entry (snd x) = Ok (Some x) /\
               exists k, backtest_row k (snd x) = Ok row)
            coins (api_grid_backtest r) /\
    (length (api_grid_backtest r) <= 21)%nat.
Proof.
  destruct (api_grid_backtest_results r) as [Hnil|Hr].
  { rewrite Hnil. exists []. split; [apply sublist_nil_l|split; [constructor|simpl; lia]]. }
  remember (api_grid_backtest r) as results eqn:Hres. clear Hres.
  unfold backtest_results in Hr.
  bind_as Hr resp Hresp. bind_as Hr data Hdata. bind_as Hr ts Hts.
  bind_as Hr filtered Hf. bind_as Hr u Hu. bind_as Hr sorted Hsorted.
  apply mapM_enum_ok_Forall2 in Hr.
  destruct (unique_loop_inv _ _ _ _ unique_inv_start Hu) as (Hnd & _ & _).
  pose proof (sorted_coins_sublist _ _ Hnd Hsorted) as Hsub.
  exists sorted. split; [assumption|split].
  - apply (Forall2_In_impl _ _ _ _ Hr). intros x row Hin Hk. split; [|assumption].
    apply (sorted_coins_In _ _ _ Hsorted) in Hin.
    destruct (unique_loop_In _ _ _ _ Hu Hin) as [[]|Hin'].
    apply (filtered_In _ _ _ Hf Hin').
  - apply sublist_length in Hsub. rewrite length_map in Hsub.
    rewrite <- (Forall2_length _ _ _ Hr). exact Hsub.
Qed.

(** X18.  Of several tickers of the payload with one base coin ("SHIBUSDT" and
    "1000SHIBUSDT"), the row of the backtest endpoint is computed from one
    that none of the others beats in quote volume. *)
Theorem backtest_keeps_most_liquid_ticker (r : http_result) (row : Backtest.t) :
  In row (api_grid_backtest r) ->
  exists ts t base_coin k,
    payload_tickers r ts /\ In t ts /\
    filtered_entry t = Ok (Some (base_coin, t)) /\
    backtest_row k t = Ok row /\
    forall t' v v',
      In t' ts -> filtered_entry t' = Ok (Some (base_coin, t')) ->
      float_field t "quoteVolume" = Ok v ->
      float_field t' "quoteVolume" = Ok v' ->
      Float.ltb v v' = false.
Proof.
  intros Hrow.
  destruct (api_grid_backtest_results r) as [Hnil|Hr];
    [rewrite Hnil in Hrow; destruct Hrow|].
  unfold backtest_results in Hr.
  bind_as Hr resp Hresp. bind_as Hr data Hdata. bind_as Hr ts Hts.
  bind_as Hr filtered Hf. bind_as Hr u Hu. bind_as Hr sorted Hsorted.
  apply mapM_enum_ok_Forall2 in Hr.
  destruct (Forall2_In_r _ _ _ _ Hr Hrow) as ([b t] & Hin & k & Hk). simpl in Hk.
  apply (sorted_coins_In _ _ _ Hsorted) in Hin.
  destruct (unique_loop_inv _ _ _ _ unique_inv_start Hu) as (_ & Hbest & _).
  destruct (Hbest _ Hin) as [Hin' Hb]. simpl in Hin', Hb.
  destruct (filtered_In _ _ _ Hf Hin') as [Hts' Hfe]. simpl in Hts', Hfe.
  exists ts, t, b, k. repeat split; try assumption.
  - exists resp, data. subst r. auto.
  - intros t' v v' Ht' Hf' Hv Hv'.
    apply (Hb t' v v'); try assumption.
    apply (filtered_In_rev _ _ _ _ Hf Ht' Hf').
Qed.

End BacktestOrder.

(** ** The funding-rate table *)

Section FundingRates.

Context `{PyBuiltins}.

Lemma filterM_In {A : Type} (f : A -> result bool) (l l' : list A) (x : A) :
  filterM f l = Ok l' -> (In x l' <-> In x l /\ f x = Ok true).
Proof.
  revert l'; induction l as [|y l IH]; simpl; intros l' Hf.
  - injection Hf as <-. simpl. tauto.
  - bind_as Hf keep Hy. bind_as Hf rest Hrest. injection Hf as <-.
    specialize (IH _ Hrest). destruct keep; simpl; rewrite IH.
    + split.
      * intros [<-|[Hin Hx]]; [split; [now left|assumption]|split; [now right|assumption]].
      * intros [[<-|Hin] Hx]; [now left|right; now split].
    + split.
      * intros [Hin Hx]. split; [now right|assumption].
      * intros [[<-|Hin] Hx]; [congruence|now split].
Qed.

Lemma combine_keyed {K : Type} (key : json -> result K) (l : list json) (ks : list K) :
  mapM key l = Ok ks -> Forall (fun x => key (snd x) = Ok (fst x)) (combine ks l).
Proof.
  intros Hk. apply mapM_ok_Forall2 in Hk.
  induction Hk as [|t k l ks Htk _ IH]; simpl; constructor; assumption.
Qed.

Lemma StronglySorted_firstn {A : Type} (R : A -> A -> Prop) (n : nat) (l : list A) :
  StronglySorted R l -> StronglySorted R (firstn n l).
Proof.
  revert n; induction l as [|x l IH]; intros [|n] Hs; simpl; try constructor.
  - inversion Hs; subst. now apply IH.
  - inversion Hs as [|? ? _ Hx]; subst.
    rewrite List.Forall_forall in Hx |- *. intros y Hy. apply Hx.
    rewrite <- (firstn_skipn n l). apply in_or_app. now left.
Qed.

Lemma StronglySorted_firstn_skipn {A : Type} (R : A -> A -> Prop) (n : nat)
    (l : list A) (x y : A) :
  StronglySorted R l -> In x (firstn n l) -> In y (skipn n l) -> R x y.
Proof.
  revert n; induction l as [|z l IH]; intros [|n] Hs Hx Hy; simpl in *;
    try contradiction.
  inversion Hs as [|? ? Hl Hz]; subst.
  destruct Hx as [<-|Hx]; [|now apply (IH n)].
  rewrite List.Forall_forall in Hz. apply Hz.
  rewrite <- (firstn_skipn n l). apply in_or_app. now right.
Qed.

Lemma Forall2_StronglySorted {A B : Type} (P : A -> B -> Prop) (R : A -> A -> Prop)
    (R' : B -> B -> Prop) (l : list A) (l' : list B) :
  Forall2 P l l' -> StronglySorted R l ->
  (forall x y x' y', P x x' -> P y y' -> R x y -> R' x' y') ->
  StronglySorted R' l'.
Proof.
  intros HF Hs Himp. induction HF as [|x x' l l' Hx HF IH]; [constructor|].
  inversion Hs as [|? ? Hl Hall]; subst. constructor; [now apply IH|].
  rewrite List.Forall_forall in Hall |- *. intros y' Hy'.
  destruct (Forall2_In_r _ _ _ _ HF Hy') as (y & Hy & Pyy).
  apply (Himp x y); auto.
Qed.

Lemma Forall2_map_l {A B C : Type} (P : B -> C -> Prop) (f : A -> B) (l : list A)
    (l' : list C) :
  Forall2 P (List.map f l) l' -> Forall2 (fun x y => P (f x) y) l l'.
Proof.
  revert l'; induction l as [|x l IH]; simpl; intros l' HF;
    inversion HF; subst; constructor; auto.
Qed.

Lemma funding_row_rate (i : nat) (t : json) (row : Funding.t) :
  funding_row i t = Ok row ->
  Funding.rank row = Z.of_nat i + 1 /\
  abs_rate t = Ok (SFabs (Funding.fundingRate row)).
Proof.
  unfold funding_row, abs_rate. intros Hr. do 7 bind_inv Hr.
  injection Hr as <-. simpl. split; [reflexivity|]. now rewrite Hx3.
Qed.

(** The steps of the [try] block. *)
Lemma funding_rates_result_inv (r : http_result) (rows : list Funding.t) :
  funding_rates_result r = Ok rows ->
  exists ts usdt_pairs ks,
    payload_tickers r ts /\
    filterM is_usdt_pair ts = Ok usdt_pairs /\
    mapM abs_rate usdt_pairs = Ok ks /\
    mapM_enum funding_row O
      (firstn 20 (List.map snd (py_sort Float.ltb true (combine ks usdt_pairs))))
    = Ok rows.
Proof.
  unfold funding_rates_result. intros Hr.
  bind_as Hr resp Hresp. bind_as Hr data Hdata. bind_as Hr ts Hts.
  bind_as Hr usdt_pairs Hf. bind_as Hr sorted Hs.
  apply sort_by_inv in Hs as (ks & Hk & ->).
  exists ts, usdt_pairs, ks. repeat split; try assumption.
  exists resp, data. subst r. auto.
Qed.

(** The decorated list [list.sort] leaves: each ticker with its own key, no
    key NaN, no key below a later one. *)
Lemma funding_sorted (ts usdt_pairs : list json) (ks : list float) :
  forallb rate_is_number ts = true ->
  filterM is_usdt_pair ts = Ok usdt_pairs ->
  mapM abs_rate usdt_pairs = Ok ks ->
  let d := py_sort Float.ltb true (combine ks usdt_pairs) in
  Forall (fun x => abs_rate (snd x) = Ok (fst x) /\ Float.is_nan (fst x) = false /\
                   In (snd x) ts /\ is_usdt_pair (snd x) = Ok true) d /\
  StronglySorted (fun a b => Float.ltb (fst a) (fst b) = false) d.
Proof.
  intros Hnum Hf Hk d. split.
  - unfold d. rewrite (py_sort_perm Float.ltb true (combine ks usdt_pairs)).
    pose proof (combine_keyed _ _ _ Hk) as Hd.
    rewrite List.Forall_forall in Hd |- *. intros [k t] Hin.
    pose proof (Hd _ Hin) as Hkey. simpl in Hkey |- *.
    apply in_combine_r in Hin. apply (filterM_In _ _ _ t Hf) in Hin as [Hin Hu].
    repeat split; try assumption.
    rewrite forallb_forall in Hnum. specialize (Hnum t Hin).
    unfold rate_is_number in Hnum. rewrite Hkey in Hnum.
    now apply negb_true_iff in Hnum.
  - unfold d, py_sort.
    apply (StronglySorted_rev (not_below Float.ltb)).
    apply stable_sort_sorted.
    + exact FloatFacts.ltb_asym.
    + exact FloatFacts.ltb_trans.
Qed.

(** X19.  When no funding rate of the payload is NaN, the table has at most
    20 rows, in descending order of the absolute funding rate, and the row at
    position [n] (from 0) has rank [n + 1]. *)
Theorem funding_rows_descend_by_abs_rate (r : http_result) (ts : list json)
    (rows : list Funding.t) :
  payload_tickers r ts ->
  forallb rate_is_number ts = true ->
  funding_rates_result r = Ok rows ->
  (length rows <= 20)%nat /\
  StronglySorted
    (fun r1 r2 => Float.leb (SFabs (Funding.fundingRate r2))
                            (SFabs (Funding.fundingRate r1)) = true) rows /\
  forall n row, nth_error rows n = Some row -> Funding.rank row = Z.of_nat n + 1.
Proof.
  intros Hts Hnum Hr.
  destruct (funding_rates_result_inv _ _ Hr) as (ts' & usdt_pairs & ks & Hts' & Hf & Hk & Hrows).
  rewrite (payload_tickers_fun _ _ _ Hts' Hts) in *. clear Hts'.
  destruct (funding_sorted _ _ _ Hnum Hf Hk) as [Hd Hs].
  set (d := py_sort Float.ltb true (combine ks usdt_pairs)) in *.
  split; [|split].
  - rewrite (mapM_enum_length _ _ _ _ Hrows). apply firstn_le_length.
  - pose proof (mapM_enum_ok_Forall2 _ _ _ _ Hrows) as HF.
    rewrite firstn_map in HF. apply Forall2_map_l in HF.
    apply (Forall2_StronglySorted
             (fun x row => (abs_rate (snd x) = Ok (fst x) /\ Float.is_nan (fst x) = false)
                           /\ exists k, funding_row k (snd x) = Ok row)
             (fun a b => Float.ltb (fst a) (fst b) = false) _ (firstn 20 d)).
    + apply (Forall2_In_impl _ _ _ _ HF). intros x row Hin Hrow.
      split; [|assumption].
      rewrite List.Forall_forall in Hd.
      assert (Hin' : In x d).
      { rewrite <- (firstn_skipn 20 d). apply in_or_app. now left. }
      destruct (Hd _ Hin') as (Hkey & Hnan & _). now split.
    + now apply StronglySorted_firstn.
    + intros x y x' y' [[Hkx Hnx] [kx Hx]] [[Hky Hny] [ky Hy]] Hxy.
      apply funding_row_rate in Hx as [_ Hx]. apply funding_row_rate in Hy as [_ Hy].
      rewrite Hkx in Hx. injection Hx as Hx. rewrite Hky in Hy. injection Hy as Hy.
      rewrite <- Hx, <- Hy. now apply FloatFacts.ltb_false_leb.
  - intros n row Hn.
    destruct (mapM_enum_nth _ _ _ _ _ _ Hrows Hn) as (t & _ & Hrow).
    now apply funding_row_rate in Hrow as [Hrank _].
Qed.

(** X20.  The table is the top of the list: when no funding rate of the
    payload is NaN, a USDT ticker of the payload either has a row, or the
    table has its 20 rows and the absolute rate of the ticker is at most that
    of every row. *)
Theorem funding_rows_are_the_top_twenty (r : http_result) (ts : list json)
    (rows : list Funding.t) (t : json) (k : float) :
  payload_tickers r ts ->
  forallb rate_is_number ts = true ->
  funding_rates_result r = Ok rows ->
  In t ts -> is_usdt_pair t = Ok true -> abs_rate t = Ok k ->
  (exists row i, In row rows /\ funding_row i t = Ok row) \/
  (length rows = 20%nat /\
   forall row, In row rows ->
     Float.leb k (SFabs (Funding.fundingRate row)) = true).
Proof.
  intros Hts Hnum Hr Hin Hu Hk.
  destruct (funding_rates_result_inv _ _ Hr) as (ts' & usdt_pairs & ks & Hts' & Hf & Hks & Hrows).
  rewrite (payload_tickers_fun _ _ _ Hts' Hts) in *. clear Hts'.
  destruct (funding_sorted _ _ _ Hnum Hf Hks) as [Hd Hs].
  set (d := py_sort Float.ltb true (combine ks usdt_pairs)) in *.
  pose proof (mapM_enum_ok_Forall2 _ _ _ _ Hrows) as HF.
  pose proof (mapM_enum_length _ _ _ _ Hrows) as Hlen.
  rewrite List.Forall_forall in Hd.
  (* [t] is in the sorted list *)
  assert (Hsorted : In t (List.map snd d)).
  { assert (Hp : In t usdt_pairs) by (apply (filterM_In _ _ _ t Hf); now split).
    pose proof (mapM_ok_length _ _ _ Hks) as Hl.
    rewrite <- (map_snd_combine ks usdt_pairs) in Hp by exact Hl.
    apply in_map_iff in Hp as (x & Hx & Hxin). apply in_map_iff. exists x.
    split; [assumption|].
    apply (Permutation_in _ (Permutation_sym
             (py_sort_perm Float.ltb true (combine ks usdt_pairs)))). exact Hxin. }
  rewrite <- (firstn_skipn 20 (List.map snd d)) in Hsorted.
  apply in_app_or in Hsorted as [Htop|Hrest].
  - left. destruct (Forall2_In_l _ _ _ _ HF Htop) as (row & Hrow & i & Hi). eauto.
  - right. split.
    + rewrite Hlen. apply firstn_length_le.
      destruct (Nat.le_gt_cases 20 (length (List.map snd d))) as [Hle|Hgt];
        [assumption|].
      rewrite skipn_all2 in Hrest by lia. destruct Hrest.
    + intros row Hrow.
      destruct (Forall2_In_r _ _ _ _ HF Hrow) as (t0 & Ht0 & i & Hi).
      apply funding_row_rate in Hi as [_ Hi].
      rewrite firstn_map in Ht0. apply in_map_iff in Ht0 as ([k0 t0'] & Heq & Hx).
      simpl in Heq. subst t0'.
      rewrite skipn_map in Hrest. apply in_map_iff in Hrest as ([k' t'] & Heq & Hy).
      simpl in Heq. subst t'.
      pose proof (StronglySorted_firstn_skipn _ _ _ _ _ Hs Hx Hy) as Hlt.
      simpl in Hlt.
      assert (Hx' : In (k0, t0) d).
      { rewrite <- (firstn_skipn 20 d). apply in_or_app. now left. }
      assert (Hy' : In (k', t) d).
      { rewrite <- (firstn_skipn 20 d). apply in_or_app. now right. }
      destruct (Hd _ Hx') as (Hk0 & Hn0 & _). destruct (Hd _ Hy') as (Hk' & Hn' & _).
      simpl in *. rewrite Hk0 in Hi. injection Hi as <-.
      rewrite Hk in Hk'. injection Hk' as <-.
      now apply FloatFacts.ltb_false_leb.
Qed.

(** X21.  The sort key is read from every USDT ticker of the payload: one of
    them whose funding rate does not read as a float, wherever it is in the
    payload, makes the fetch fail; the caller gets the cached table, however
    old, or the empty list, and the cache is left as it is. *)
Theorem unreadable_rate_fails_funding_fetch (now : float) (c : dashboard_cache)
    (r : http_result) (ts : list json) (t : json) (e : exn) :
  payload_tickers r ts ->
  In t ts -> is_usdt_pair t = Ok true -> abs_rate t = Raise e ->
  fetch_binance_funding_rates now c r = (cached_funding c, c).
Proof.
  intros Hts Hin Hu Hk.
  assert (Hraise : exists e', funding_rates_result r = Raise e').
  { destruct (funding_rates_result r) as [rows|e'] eqn:Hr; [|eauto].
    exfalso.
    destruct (funding_rates_result_inv _ _ Hr)
      as (ts' & usdt_pairs & ks & Hts' & Hf & Hks & _).
    rewrite (payload_tickers_fun _ _ _ Hts' Hts) in *.
    assert (Hp : In t usdt_pairs) by (apply (filterM_In _ _ _ t Hf); now split).
    apply mapM_ok_Forall2 in Hks.
    destruct (Forall2_In_l _ _ _ _ Hks Hp) as (k & _ & Hk').
    congruence. }
  destruct Hraise as [e' Hr].
  unfold fetch_binance_funding_rates, cached_funding. rewrite Hr.
  destruct (binance_funding c) as [[data ts0]|]; [|reflexivity].
  now destruct (fresh now ts0 _cache_ttl).
Qed.

(** X22.  A table the fetch computes is cached under its own key only, and
    every call made less than [_cache_ttl] seconds later is served it,
    whatever the exchange would answer. *)
Theorem funding_table_is_served_for_ten_seconds (now : float) (c : dashboard_cache)
    (r : http_result) (rows : list Funding.t) :
  funding_hit now c = false ->
  funding_rates_result r = Ok rows ->
  let c' := snd (fetch_binance_funding_rates now c r) in
  fst (fetch_binance_funding_rates now c r) = rows /\
  market c' = market c /\ btc_eth_prices c' = btc_eth_prices c /\
  forall now' r',
    fresh now' now _cache_ttl = true ->
    fetch_binance_funding_rates now' c' r' = (rows, c').
Proof.
  intros Hmiss Hr. cbv zeta.
  assert (Hfetch : fetch_binance_funding_rates now c r
                   = (rows, set_binance_funding c (rows, now))).
  { unfold fetch_binance_funding_rates, funding_hit in *. rewrite Hr.
    destruct (binance_funding c) as [[data ts0]|]; [|reflexivity].
    now rewrite Hmiss. }
  rewrite Hfetch. simpl. repeat split.
  intros now' r' Hfresh. unfold fetch_binance_funding_rates. simpl.
  now rewrite Hfresh.
Qed.

End FundingRates.

(** ** The BTC and ETH quotes *)

Section BtcEth.

Context `{PyBuiltins}.

Lemma btc_eth_result_reads (r_btc r_eth : http_result) :
  match quote_read r_btc, quote_read r_eth with
  | Ok qb, Ok qe =>
      btc_eth_result r_btc r_eth = Ok {| Prices.btc := Some qb; Prices.eth := Some qe |}
  | _, _ => exists e, btc_eth_result r_btc r_eth = Raise e
  end.
Proof.
  unfold btc_eth_result, quote_read.
  destruct r_btc as [resp|e]; simpl; [|eauto].
  destruct (resp_json resp) as [btc|e]; simpl; [|eauto].
  destruct r_eth as [resp2|e]; simpl.
  - destruct (resp_json resp2) as [eth|e]; simpl.
    + destruct (quote_of btc) as [qb|e]; simpl;
        destruct (quote_of eth) as [qe|e']; eauto.
    + destruct (quote_of btc) as [qb|e']; eauto.
  - destruct (quote_of btc) as [qb|e']; eauto.
Qed.

(** X23.  The two quotes are updated together or not at all: on a miss the
    fetch returns and caches both quotes when both requests give one; when
    either request raises, or its body does not decode, or a price of it does
    not read as a float, the caller gets the cached pair, however old, or the
    pair of empty dictionaries, and the cache is left as it is, whatever the
    other request gave. *)
Theorem btc_eth_quotes_are_all_or_nothing (now : float) (c : dashboard_cache)
    (r_btc r_eth : http_result) :
  btc_eth_hit now c = false ->
  fetch_btc_eth_prices now c r_btc r_eth
  = match quote_read r_btc, quote_read r_eth with
    | Ok qb, Ok qe =>
        let result := {| Prices.btc := Some qb; Prices.eth := Some qe |} in
        (result, set_btc_eth_prices c (result, now))
    | _, _ => (cached_prices c, c)
    end.
Proof.
  intros Hmiss.
  assert (Hfetch : fetch_btc_eth_prices now c r_btc r_eth
                   = match btc_eth_result r_btc r_eth with
                     | Ok result => (result, set_btc_eth_prices c (result, now))
                     | Raise _ => (cached_prices c, c)
                     end).
  { unfold fetch_btc_eth_prices, btc_eth_hit, cached_prices in *.
    destruct (btc_eth_prices c) as [[data ts0]|]; [|reflexivity].
    now rewrite Hmiss. }
  rewrite Hfetch. pose proof (btc_eth_result_reads r_btc r_eth) as Hr.
  destruct (quote_read r_btc) as [qb|e]; [|destruct Hr as [e' ->]; reflexivity].
  destruct (quote_read r_eth) as [qe|e]; [now rewrite Hr|].
  destruct Hr as [e' ->]. reflexivity.
Qed.

(** X24.  The status code is not looked at: an error object of the exchange,
    which has neither "lastPrice" nor "priceChangePercent", reads as the
    quote (0.0, 0.0); on a miss two such bodies are returned as the prices
    and cached. *)
Theorem error_objects_read_as_zero_quotes (now : float) (c : dashboard_cache)
    (resp resp2 : response) (kv kv2 : list (string * json)) :
  btc_eth_hit now c = false ->
  body resp = Some (JObj kv) -> body resp2 = Some (JObj kv2) ->
  assoc "lastPrice" kv = None -> assoc "priceChangePercent" kv = None ->
  assoc "lastPrice" kv2 = None -> assoc "priceChangePercent" kv2 = None ->
  let zero := {| Prices.price := Float.zero; Prices.change := Float.zero |} in
  let result := {| Prices.btc := Some zero; Prices.eth := Some zero |} in
  fetch_btc_eth_prices now c (Ok resp) (Ok resp2)
  = (result, set_btc_eth_prices c (result, now)).
Proof.
  intros Hmiss Hb Hb2 Hp Hc Hp2 Hc2. cbv zeta.
  unfold fetch_btc_eth_prices, btc_eth_hit in *.
  assert (Hr : btc_eth_result (Ok resp) (Ok resp2)
               = Ok {| Prices.btc := Some {| Prices.price := Float.zero;
                                             Prices.change := Float.zero |};
                       Prices.eth := Some {| Prices.price := Float.zero;
                                             Prices.change := Float.zero |} |}).
  { unfold btc_eth_result, resp_json, quote_of, float_field, get. simpl.
    rewrite Hb, Hb2. simpl. rewrite Hp, Hc, Hp2, Hc2. reflexivity. }
  rewrite Hr.
  destruct (btc_eth_prices c) as [[data ts0]|]; [|reflexivity].
  now rewrite Hmiss.
Qed.

End BtcEth.

(** ** The row the analysis endpoint reports on *)

Section AnalysisLookup.

Context `{PyBuiltins}.

(** Taking the slashes out goes character by character. *)
Lemma strip_cons (c : ascii) (s : string) :
  replace "/" "" (String c s)
  = if Ascii.eqb c "/" then replace "/" "" s else String c (replace "/" "" s).
Proof.
  unfold replace. cbn [replace_from String.prefix String.length Nat.pred].
  destruct (ascii_dec "/" c) as [<-|Hne].
  - destruct s; reflexivity.
  - destruct (Ascii.eqb c "/") eqn:Hc; [|reflexivity].
    apply Ascii.eqb_eq in Hc. congruence.
Qed.

Lemma prefix_usdt (s : string) :
  String.prefix "USDT" s = true -> exists rest, s = String.append "USDT" rest.
Proof.
  intros Hp. apply String.prefix_correct in Hp. simpl in Hp.
  destruct s as [|c1 [|c2 [|c3 [|c4 rest]]]]; simpl in Hp; try discriminate.
  injection Hp as -> -> -> ->. now exists rest.
Qed.

Lemma append_cons (c : ascii) (s x : string) :
  String.append (String c s) x = String c (String.append s x).
Proof. reflexivity. Qed.

(** An inserted slash is taken out again. *)
Lemma strip_replace_from (s : string) (k : nat) :
  replace "/" "" (replace_from "USDT" "/USDT" k s) = replace "/" "" (drop_chars k s).
Proof.
  revert k; induction s as [|c s IH]; intros k.
  - now destruct k.
  - destruct k as [|k]; [|apply IH].
    cbn [replace_from drop_chars].
    destruct (String.prefix "USDT" (String c s)) eqn:Hp.
    + cbn [String.length Nat.pred].
      assert (Hnew : forall x, replace "/" "" (String.append "/USDT" x)
                               = String.append "USDT" (replace "/" "" x)).
      { intros x. rewrite !append_cons, !strip_cons. reflexivity. }
      rewrite Hnew, IH.
      destruct (prefix_usdt _ Hp) as [rest Hrest].
      rewrite !append_cons in Hrest. injection Hrest as -> ->.
      rewrite !append_cons. cbn [drop_chars]. rewrite !strip_cons.
      reflexivity.
    + rewrite !strip_cons. now rewrite IH.
Qed.

Lemma strip_display_symbol (sym : string) :
  replace "/" "" (replace "USDT" "/USDT" sym) = replace "/" "" sym.
Proof.
  unfold replace at 2. rewrite strip_replace_from. now destruct sym.
Qed.

Lemma find_first {A : Type} (f : A -> bool) (l : list A) (x : A) :
  In x l -> f x = true -> exists y, List.find f l = Some y /\ f y = true.
Proof.
  induction l as [|z l IH]; simpl; intros Hin Hx; [destruct Hin|].
  destruct (f z) eqn:Hz; [eauto|].
  destruct Hin as [->|Hin]; [congruence|auto].
Qed.

(** X5.  Every row of a snapshot the cycle produced can be looked up by
    the analysis endpoint, under the symbol of the exchange ("BTCUSDT") as
    under the symbol the row shows ("BTC/USDT"): the two queries find one
    row, and it shows the symbol asked for, up to slashes. *)
Theorem snapshot_rows_are_found_by_either_symbol (now : float) (c c' : cache)
    (u : upstream) (s : Snapshot.t) (r : Row.t) :
  refresh_cycle now c u = (Ok s, c') ->
  In r (Snapshot.data s ++ Snapshot.other s)%list ->
  exists sym found,
    Row.symbol r = replace "USDT" "/USDT" sym /\
    analysis_row c' sym = Some found /\
    analysis_row c' (Row.symbol r) = Some found /\
    replace "/" "" (Row.symbol found) = replace "/" "" sym.
Proof.
  intros Hr Hin.
  destruct (rows_from_eligible _ _ _ _ _ _ Hr Hin) as (j & ls & i & t & _ & Hrow & _).
  destruct (map_row_inv _ _ _ _ _ _ Hrow) as (sym & _ & _ & Hsym & _).
  destruct (refresh_cycle_ok _ _ _ _ _ Hr) as (_ & _ & _ & _ & Hc').
  assert (Hmatch : String.eqb (replace "/" "" (Row.symbol r)) (replace "/" "" sym) = true).
  { rewrite Hsym, strip_display_symbol. apply String.eqb_refl. }
  assert (Hall : In r (all_data c')) by (unfold all_data; now rewrite Hc').
  destruct (find_first
              (fun item => String.eqb (replace "/" "" (Row.symbol item))
                                      (replace "/" "" sym)) _ _ Hall Hmatch)
    as (found & Hfind & Hfound).
  exists sym, found. split; [assumption|]. split; [exact Hfind|]. split.
  - unfold analysis_row. rewrite Hsym, strip_display_symbol. exact Hfind.
  - now apply String.eqb_eq in Hfound.
Qed.

End AnalysisLookup.

(** * The further properties at the sample payloads *)

Section FurtherWitnesses.

#[local] Existing Instance Decimal.builtins.

Ltac market_snapshot s c' Hr :=
  destruct (refresh_cycle Sample.now empty_cache Sample.market) as [[s|?] c'] eqn:Hr;
  [|vm_compute in Hr; discriminate].

(** The second row of [data] on the market payload has rank 2. *)
Lemma rows_are_ranked_by_position_witness :
  exists s c' r,
    refresh_cycle Sample.now empty_cache Sample.market = (Ok s, c') /\
    nth_error (Snapshot.data s) 1 = Some r /\
    Row.rank r = 2.
Proof.
  market_snapshot s c' Hr.
  destruct (nth_error (Snapshot.data s) 1) as [r|] eqn:Hn;
    [|vm_compute in Hr; injection Hr as <- <-; discriminate].
  exists s, c', r. split; [reflexivity|]. split; [exact Hn|].
  exact (proj1 (rows_are_ranked_by_position _ _ _ _ _ 1%nat r Hr) Hn).
Defined.


Lemma one_row_per_eligible_ticker_witness :
  exists s c' j,
    refresh_cycle Sample.now empty_cache Sample.market = (Ok s, c') /\
    join_cycle Sample.market = Ok j /\
    List.length (Snapshot.data s)
    = List.length (List.filter (in_bucket (funding_map j) is_main) Sample.market_tickers) /\
    List.length (Snapshot.data s) = 2%nat.
Proof.
  market_snapshot s c' Hr.
  destruct (join_cycle Sample.market) as [j|e] eqn:Hj;
    [|vm_compute in Hj; discriminate].
  exists s, c', j. split; [reflexivity|]. split; [reflexivity|]. split.
  - exact (proj1 (proj2 (proj2
      (one_row_per_eligible_ticker _ _ _ _ _ _ _ Hr Hj market_tickers_payload)))).
  - vm_compute in Hr. injection Hr as <- <-. reflexivity.
Defined.

Lemma rows_exceed_volume_floor_witness :
  exists s c',
    refresh_cycle Sample.now empty_cache Sample.market = (Ok s, c') /\
    Forall (fun r => Float.ltb (Float.of_Z 1000000) (Row.volume24h r) = true)
           (Snapshot.data s ++ Snapshot.other s)%list.
Proof.
  market_snapshot s c' Hr.
  exists s, c'. split; [reflexivity|].
  exact (rows_exceed_volume_floor _ _ _ _ _ Hr).
Defined.

(** On the market payload the first row, A/USDT, has the interval 4 of the
    funding-info payload, not the default. *)
Lemma funding_interval_defaults_to_8_witness :
  exists s c' r,
    refresh_cycle Sample.now empty_cache Sample.market = (Ok s, c') /\
    nth_error (Snapshot.data s ++ Snapshot.other s)%list 0 = Some r /\
    Row.symbol r = "A/USDT" /\
    Row.fundingInterval r = JInt 4.
Proof.
  market_snapshot s c' Hr.
  destruct (nth_error (Snapshot.data s ++ Snapshot.other s)%list 0) as [r|] eqn:Hn;
    [|vm_compute in Hr; injection Hr as <- <-; discriminate].
  exists s, c', r. split; [reflexivity|]. split; [exact Hn|].
  destruct (funding_interval_defaults_to_8 Sample.now empty_cache c' Sample.market s
              Sample.market_tickers
              (JList [JObj [("symbol", JStr "AUSDT"); ("fundingIntervalHours", JInt 4)]])
              r Hr market_tickers_payload eq_refl (nth_error_In _ _ Hn))
    as (t & sym & Hint & Hget & Hsym & _ & _ & Hlast).
  vm_compute in Hr. injection Hr as <- <-. injection Hn as <-.
  split; [reflexivity|].
  repeat (destruct Hint as [<-|Hint];
          [vm_compute in Hget; injection Hget as <-;
           try (vm_compute in Hsym; discriminate)|]).
  all: try (now destruct Hint).
  exact (Hlast [] [("symbol", JStr "AUSDT"); ("fundingIntervalHours", JInt 4)] []
           eq_refl eq_refl ltac:(intros kv' [])).
Defined.

(** On the market payload with every long/short request answered, the
    first row carries the entry the batch holds for its symbol. *)
Lemma rows_carry_batch_ratios_witness :
  exists s c' j fetch_symbols r sym e,
    refresh_cycle Sample.now empty_cache MoreSample.market_ratios = (Ok s, c') /\
    join_cycle MoreSample.market_ratios = Ok j /\
    mapM symbol_of (top100 j ++ other_top100 j)%list = Ok fetch_symbols /\
    nth_error (Snapshot.data s ++ Snapshot.other s)%list 0 = Some r /\
    nth_error fetch_symbols 0 = Some sym /\
    fst (fetch_ls_ratio_batch Sample.now empty_cache Sample.ls_all_up fetch_symbols)
      !! sym = Some e /\
    Row.lsRatio r = e.
Proof.
  destruct (refresh_cycle Sample.now empty_cache MoreSample.market_ratios)
    as [[s|ex] c'] eqn:Hr; [|vm_compute in Hr; discriminate].
  destruct (join_cycle MoreSample.market_ratios) as [j|ex] eqn:Hj;
    [|vm_compute in Hj; discriminate].
  destruct (mapM symbol_of (top100 j ++ other_top100 j)%list) as [fs|ex] eqn:Hs;
    [|vm_compute in Hj; injection Hj as <-; vm_compute in Hs; discriminate].
  destruct (nth_error (Snapshot.data s ++ Snapshot.other s)%list 0) as [r|] eqn:Hn;
    [|vm_compute in Hr; injection Hr as <- <-; discriminate].
  destruct (rows_carry_batch_ratios Sample.now empty_cache c' MoreSample.market_ratios
              s j fs O r Hr Hj Hs Hn) as (sym & Hn' & _ & Hls & _).
  change (ls_now MoreSample.market_ratios) with Sample.now in Hls.
  change (ls_upstream MoreSample.market_ratios) with Sample.ls_all_up in Hls.
  destruct (fst (fetch_ls_ratio_batch Sample.now empty_cache Sample.ls_all_up fs) !! sym)
    as [e|] eqn:He.
  - exists s, c', j, fs, r, sym, e.
    split; [reflexivity|]. split; [reflexivity|]. split; [exact Hs|].
    split; [exact Hn|]. split; [exact Hn'|]. split; [exact He|exact Hls].
  - exfalso. vm_compute in Hj. injection Hj as <-.
    vm_compute in Hs. injection Hs as <-.
    vm_compute in Hn'. injection Hn' as <-.
    vm_compute in He. discriminate.
Defined.

(** Five seconds after the scenario is cached, with the ticker fetch down,
    the snapshot is served. *)
Lemma fresh_snapshot_is_served_unchanged_witness :
  exists s c1,
    refresh_cycle Sample.now empty_cache Sample.scenario = (Ok s, c1) /\
    fetch_binance_tickers MoreSample.soon c1 Sample.ticker_down = (Snap s, c1).
Proof.
  destruct (refresh_cycle Sample.now empty_cache Sample.scenario) as [[s|e] c1] eqn:Hr;
    [|vm_compute in Hr; discriminate].
  exists s, c1. split; [reflexivity|].
  apply (proj2 (fresh_snapshot_is_served_unchanged
                  Sample.now empty_cache c1 Sample.scenario s eq_refl Hr)).
  vm_compute. reflexivity.
Defined.

Lemma malformed_ticker_fails_the_cycle_witness :
  fst (fetch_binance_tickers Sample.now empty_cache MoreSample.malformed) = DefaultDict.
Proof.
  apply (proj1 (malformed_ticker_fails_the_cycle Sample.now empty_cache
                  MoreSample.malformed MoreSample.malformed_tickers (JStr "oops")
                  ltac:(eexists; eexists; repeat split; reflexivity)
                  ltac:(right; left; reflexivity)
                  ltac:(intros kv; discriminate))).
Defined.

Lemma funding_error_object_empties_snapshot_witness :
  exists s c',
    refresh_cycle Sample.now empty_cache MoreSample.funding_rejected = (Ok s, c') /\
    Snapshot.data s = [] /\ Snapshot.other s = [] /\
    binance_tickers_100 c' = Some s.
Proof.
  destruct (funding_error_object_empties_snapshot Sample.now empty_cache
              MoreSample.funding_rejected Sample.scenario_tickers
              [("code", JInt (-1003)); ("msg", JStr "Too many requests.")]
              (JList []) (JList []))
    as (s & c' & Hr & Hd & Ho & _ & _ & _ & Hc & _).
  - eexists. eexists. repeat split; reflexivity.
  - repeat constructor;
      (eexists; eexists; split; [reflexivity|]; split; [reflexivity|]; intros _;
       match goal with
       | |- exists vol, ?f = Ok vol =>
           destruct f as [vol|ex] eqn:Hv; [now exists vol|vm_compute in Hv; discriminate]
       end).
  - reflexivity.
  - intros k [<-|[<-|[]]]; reflexivity.
  - reflexivity.
  - intros l kv [= <-] [].
  - reflexivity.
  - intros k0 k1 rest. discriminate.
  - exists s, c'. auto.
Defined.

Lemma batch_map_of_distinct_symbols_witness :
  fst (fetch_ls_ratio_batch Sample.now empty_cache Sample.ls_one_down
         ["AUSDT"; "BUSDT"]) !! "BUSDT"
  = match fetch_single_entry (Sample.ls_one_down 1%nat "BUSDT") with
    | Ok (Some e) => Some e
    | _ => None
    end /\
  fst (fetch_ls_ratio_batch Sample.now empty_cache Sample.ls_one_down
         ["AUSDT"; "BUSDT"]) !! "CUSDT" = None.
Proof.
  destruct (batch_map_of_distinct_symbols Sample.now empty_cache Sample.ls_one_down
              ["AUSDT"; "BUSDT"] eq_refl) as [Hin Hout].
  - apply NoDup_ListNoDup. repeat constructor; simpl; intuition discriminate.
  - split; [apply (Hin 1%nat "BUSDT" eq_refl)|].
    apply Hout. simpl. intuition discriminate.
Defined.

(** A batch with an entry for BUSDT is served a minute later, to a call that
    asks for another symbol while the exchange is down. *)
Lemma batch_is_served_for_five_minutes_witness :
  fetch_ls_ratio_batch Sample.later
    (snd (fetch_ls_ratio_batch Sample.now empty_cache Sample.ls_all_up ["BUSDT"]))
    Sample.ls_down ["AUSDT"]
  = (fst (fetch_ls_ratio_batch Sample.now empty_cache Sample.ls_all_up ["BUSDT"]),
     snd (fetch_ls_ratio_batch Sample.now empty_cache Sample.ls_all_up ["BUSDT"])).
Proof.
  apply (batch_is_served_for_five_minutes Sample.now empty_cache Sample.ls_all_up
           ["BUSDT"] eq_refl).
  - intros Hempty.
    assert (Hb : fst (fetch_ls_ratio_batch Sample.now empty_cache Sample.ls_all_up
                        ["BUSDT"]) !! "BUSDT" = None)
      by (rewrite Hempty; apply lookup_empty).
    vm_compute in Hb. discriminate.
  - vm_compute. reflexivity.
Defined.

Lemma failed_fear_greed_fetch_serves_cached_witness :
  fetch_fear_and_greed Sample.now empty_cache (Raise TransportError)
  = (Fng.neutral, empty_cache).
Proof.
  apply (failed_fear_greed_fetch_serves_cached Sample.now empty_cache
           (Raise TransportError)).
  left. now exists TransportError.
Defined.

Lemma missing_days_cache_the_neutral_default_witness :
  fetch_fear_and_greed Sample.now empty_cache (Sample.ok200 MoreSample.rejected)
  = (Fng.neutral, set_fear_and_greed empty_cache (Fng.neutral, Sample.now)).
Proof.
  apply (proj1 (missing_days_cache_the_neutral_default Sample.now empty_cache
                  {| status_code := 200; body := Some MoreSample.rejected |}
                  [("code", JInt (-1003)); ("msg", JStr "Too many requests.")]
                  eq_refl eq_refl ltac:(left; reflexivity))).
Defined.

(** The ETH ticker, with a change of 40, has its long APR at the upper
    bound. *)
Lemma backtest_apr_within_bounds_witness :
  exists row,
    nth_error (api_grid_backtest (Sample.ok200 (JList MoreSample.backtest_tickers))) 1
    = Some row /\
    Backtest.long_apr row = f_450 /\
    Float.leb f_neg80 (Backtest.long_apr row) = true /\
    Float.leb (Backtest.long_apr row) f_450 = true.
Proof.
  destruct (nth_error (api_grid_backtest (Sample.ok200 (JList MoreSample.backtest_tickers))) 1)
    as [row|] eqn:Hn; [|vm_compute in Hn; discriminate].
  exists row. split; [reflexivity|]. split.
  - vm_compute in Hn. injection Hn as <-. reflexivity.
  - apply nth_error_In in Hn.
    destruct (backtest_apr_within_bounds _ _ Hn) as (Hlo & Hhi & _).
    exact (conj Hlo Hhi).
Defined.

Lemma malformed_ticker_empties_backtest_witness :
  api_grid_backtest (Sample.ok200 (JList MoreSample.malformed_tickers)) = [].
Proof.
  apply (malformed_ticker_empties_backtest _ MoreSample.malformed_tickers (JStr "oops")).
  - eexists. eexists. repeat split; reflexivity.
  - right. now left.
  - intros kv. discriminate.
Defined.

(** SHIB is listed under two symbols; the row is that of "SHIBUSDT", whose
    volume is the higher. *)
Lemma backtest_keeps_most_liquid_ticker_witness :
  exists row,
    nth_error (api_grid_backtest (Sample.ok200 (JList MoreSample.backtest_tickers))) 2
    = Some row /\
    Backtest.symbol row = "SHIB/USDT" /\
    exists ts t base_coin k,
      payload_tickers (Sample.ok200 (JList MoreSample.backtest_tickers)) ts /\ In t ts /\
      filtered_entry t = Ok (Some (base_coin, t)) /\
      backtest_row k t = Ok row /\
      forall t' v v',
        In t' ts -> filtered_entry t' = Ok (Some (base_coin, t')) ->
        float_field t "quoteVolume" = Ok v ->
        float_field t' "quoteVolume" = Ok v' ->
        Float.ltb v v' = false.
Proof.
  destruct (nth_error (api_grid_backtest (Sample.ok200 (JList MoreSample.backtest_tickers))) 2)
    as [row|] eqn:Hn; [|vm_compute in Hn; discriminate].
  exists row. split; [reflexivity|]. split.
  - vm_compute in Hn. injection Hn as <-. reflexivity.
  - apply nth_error_In in Hn.
    exact (backtest_keeps_most_liquid_ticker _ _ Hn).
Defined.

Lemma premium_index_payload :
  payload_tickers (Sample.ok200 (JList MoreSample.premium_index)) MoreSample.premium_index.
Proof. eexists. eexists. repeat split; reflexivity. Defined.

(** Of the 22 USDT symbols of the payload, 20 have a row. *)
Lemma funding_rows_descend_by_abs_rate_witness :
  exists rows,
    funding_rates_result (Sample.ok200 (JList MoreSample.premium_index)) = Ok rows /\
    length rows = 20%nat /\
    StronglySorted
      (fun r1 r2 => Float.leb (SFabs (Funding.fundingRate r2))
                              (SFabs (Funding.fundingRate r1)) = true) rows.
Proof.
  destruct (funding_rates_result (Sample.ok200 (JList MoreSample.premium_index)))
    as [rows|e] eqn:Hr; [|vm_compute in Hr; discriminate].
  exists rows. split; [reflexivity|]. split.
  - vm_compute in Hr. injection Hr as <-. reflexivity.
  - assert (Hnum : forallb rate_is_number MoreSample.premium_index = true)
      by (vm_compute; reflexivity).
    destruct (funding_rows_descend_by_abs_rate _ _ _ premium_index_payload Hnum Hr)
      as (_ & Hs & _).
    exact Hs.
Defined.

(** VUSDT, with the rate 0.00002, has no row: its rate is below that of
    every row. *)
Lemma funding_rows_are_the_top_twenty_witness :
  exists rows k,
    funding_rates_result (Sample.ok200 (JList MoreSample.premium_index)) = Ok rows /\
    abs_rate (Sample.funding "VUSDT" "0.00002" 100) = Ok k /\
    Forall (fun row => Funding.symbol row <> "V/USDT") rows /\
    ((exists row i, In row rows /\
                    funding_row i (Sample.funding "VUSDT" "0.00002" 100) = Ok row) \/
     (length rows = 20%nat /\
      forall row, In row rows ->
        Float.leb k (SFabs (Funding.fundingRate row)) = true)).
Proof.
  destruct (funding_rates_result (Sample.ok200 (JList MoreSample.premium_index)))
    as [rows|e] eqn:Hr; [|vm_compute in Hr; discriminate].
  destruct (abs_rate (Sample.funding "VUSDT" "0.00002" 100)) as [k|e] eqn:Hk;
    [|vm_compute in Hk; discriminate].
  exists rows, k. split; [reflexivity|]. split; [reflexivity|]. split.
  - vm_compute in Hr. injection Hr as <-. repeat constructor; discriminate.
  - assert (Hnum : forallb rate_is_number MoreSample.premium_index = true)
      by (vm_compute; reflexivity).
    apply (funding_rows_are_the_top_twenty _ _ _ _ _ premium_index_payload Hnum Hr);
      [|reflexivity|exact Hk].
    unfold MoreSample.premium_index. simpl. do 22 right. now left.
Defined.

Lemma unreadable_rate_fails_funding_fetch_witness :
  fetch_binance_funding_rates Sample.now MoreSample.cold
    (Sample.ok200 (JList MoreSample.premium_index_unreadable))
  = ([], MoreSample.cold).
Proof.
  destruct (abs_rate (Sample.funding "ZUSDT" "n/a" 100)) as [k|e] eqn:Hk;
    [vm_compute in Hk; discriminate|].
  apply (unreadable_rate_fails_funding_fetch Sample.now MoreSample.cold _
           MoreSample.premium_index_unreadable (Sample.funding "ZUSDT" "n/a" 100) e).
  - eexists. eexists. repeat split; reflexivity.
  - right. now left.
  - reflexivity.
  - exact Hk.
Defined.

Lemma funding_table_is_served_for_ten_seconds_witness :
  exists rows,
    funding_rates_result (Sample.ok200 (JList MoreSample.premium_index)) = Ok rows /\
    fetch_binance_funding_rates MoreSample.soon
      (snd (fetch_binance_funding_rates Sample.now MoreSample.cold
              (Sample.ok200 (JList MoreSample.premium_index))))
      (Raise TransportError)
    = (rows,
       snd (fetch_binance_funding_rates Sample.now MoreSample.cold
              (Sample.ok200 (JList MoreSample.premium_index)))).
Proof.
  destruct (funding_rates_result (Sample.ok200 (JList MoreSample.premium_index)))
    as [rows|e] eqn:Hr; [|vm_compute in Hr; discriminate].
  exists rows. split; [reflexivity|].
  destruct (funding_table_is_served_for_ten_seconds Sample.now MoreSample.cold
              _ rows eq_refl Hr) as (_ & _ & _ & Hserved).
  apply Hserved. vm_compute. reflexivity.
Defined.

(** The BTC request answers, the ETH request raises: no quote at all. *)
Lemma btc_eth_quotes_are_all_or_nothing_witness :
  fetch_btc_eth_prices Sample.now MoreSample.cold
    (Sample.ok200 (Sample.ticker "BTCUSDT" "2000000" "5")) (Raise TransportError)
  = (Prices.empty, MoreSample.cold).
Proof.
  rewrite (btc_eth_quotes_are_all_or_nothing Sample.now MoreSample.cold _ _ eq_refl).
  vm_compute. reflexivity.
Defined.

Lemma error_objects_read_as_zero_quotes_witness :
  fetch_btc_eth_prices Sample.now MoreSample.cold
    (Sample.ok200 MoreSample.rejected) (Sample.ok200 MoreSample.rejected)
  = ({| Prices.btc := Some {| Prices.price := Float.zero; Prices.change := Float.zero |};
        Prices.eth := Some {| Prices.price := Float.zero; Prices.change := Float.zero |} |},
     set_btc_eth_prices MoreSample.cold
       ({| Prices.btc := Some {| Prices.price := Float.zero; Prices.change := Float.zero |};
           Prices.eth := Some {| Prices.price := Float.zero; Prices.change := Float.zero |} |},
        Sample.now)).
Proof.
  exact (error_objects_read_as_zero_quotes Sample.now MoreSample.cold
           {| status_code := 200; body := Some MoreSample.rejected |}
           {| status_code := 200; body := Some MoreSample.rejected |}
           [("code", JInt (-1003)); ("msg", JStr "Too many requests.")]
           [("code", JInt (-1003)); ("msg", JStr "Too many requests.")]
           eq_refl eq_refl eq_refl eq_refl eq_refl eq_refl eq_refl).
Defined.

(** On the market payload, "AUSDT" and "A/USDT" find the first row. *)
Lemma snapshot_rows_are_found_by_either_symbol_witness :
  exists s c' r,
    refresh_cycle Sample.now empty_cache Sample.market = (Ok s, c') /\
    nth_error (Snapshot.data s ++ Snapshot.other s)%list 0 = Some r /\
    exists sym found,
      Row.symbol r = replace "USDT" "/USDT" sym /\
      analysis_row c' sym = Some found /\
      analysis_row c' (Row.symbol r) = Some found /\
      replace "/" "" (Row.symbol found) = replace "/" "" sym.
Proof.
  market_snapshot s c' Hr.
  destruct (nth_error (Snapshot.data s ++ Snapshot.other s)%list 0) as [r|] eqn:Hn;
    [|vm_compute in Hr; injection Hr as <- <-; discriminate].
  exists s, c', r. split; [reflexivity|]. split; [exact Hn|].
  apply nth_error_In in Hn.
  exact (snapshot_rows_are_found_by_either_symbol _ _ _ _ _ r Hr Hn).
Defined.

End FurtherWitnesses.
